(** * chat2imap: reconciliation of chat transcripts with an IMAP folder

    A shallow embedding of [chat2imap.py] and the properties of its
    reconciliation engine: address synthesis ([LogDir.get_from_email]),
    timestamp derivation ([LogFile.get_timestamp]), the skip lists
    ([Configuration.syncable_contact]), the start-up inventory
    ([IMAPServer.get_existing_message_ids]) and the main loop.

    Python values are modelled as the code uses them: [str] as [string]
    (bytes of the UTF-8 encoding), [None]/[str]/[datetime] in one slot as
    [pyval], the dict [existing_message_ids] as a [gmap], exceptions as a
    sum type, and the calls on the IMAP connection and the [print]s as a
    list of emitted events. *)

From Stdlib Require Import ZArith Ascii String List Bool Lia.
From stdpp Require Import base option list strings gmap.

Local Open Scope Z_scope.

(** ** Python primitives *)

Module Py.

(** [s.replace(old, new)] for one-character [old] and [new]. *)
Fixpoint replace_char (old new : ascii) (s : string) : string :=
  match s with
  | EmptyString => EmptyString
  | String c s' =>
      String (if Ascii.eqb c old then new else c) (replace_char old new s')
  end.

(** [s.replace(old, '')] for a one-character [old]. *)
Fixpoint remove_char (old : ascii) (s : string) : string :=
  match s with
  | EmptyString => EmptyString
  | String c s' =>
      if Ascii.eqb c old then remove_char old s'
      else String c (remove_char old s')
  end.

(** [c in s] for a one-character [c]. *)
Fixpoint contains_char (c : ascii) (s : string) : bool :=
  match s with
  | EmptyString => false
  | String a s' => Ascii.eqb a c || contains_char c s'
  end.

(** [s.split(sep)] for a one-character [sep]: never empty, keeps empty
    fields. *)
Fixpoint split_char (sep : ascii) (s : string) : list string :=
  match s with
  | EmptyString => [EmptyString]
  | String c s' =>
      if Ascii.eqb c sep then EmptyString :: split_char sep s'
      else match split_char sep s' with
           | h :: t => String c h :: t
           | [] => [String c EmptyString]
           end
  end.

(** [l[-1]] on a list of strings known to be non-empty. *)
Definition last_item (l : list string) : string := List.last l EmptyString.

(** [s.startswith(p)]. *)
Definition startswith (p s : string) : bool := String.prefix p s.

(** [s.rfind(c)] for a one-character [c]; [-1] when absent. *)
Fixpoint rfind_from (c : ascii) (s : string) (i acc : Z) : Z :=
  match s with
  | EmptyString => acc
  | String a s' => rfind_from c s' (i + 1) (if Ascii.eqb a c then i else acc)
  end.

Definition rfind (c : ascii) (s : string) : Z := rfind_from c s 0 (-1).

(** [s[i:j]] for [0 <= i]. *)
Definition slice (s : string) (i j : Z) : string :=
  String.substring (Z.to_nat i) (Z.to_nat (j - i)) s.

Definition len (s : string) : Z := Z.of_nat (String.length s).

Fixpoint all_chars (p : ascii -> bool) (s : string) : bool :=
  match s with
  | EmptyString => true
  | String a s' => p a && all_chars p s'
  end.

(** [os.path.splitext(p)] (posixpath): the extension starts at the last
    dot after the last slash, unless only dots precede it in the file
    name. *)
Definition splitext (p : string) : string * string :=
  let sepIndex := rfind "/" p in
  let dotIndex := rfind "." p in
  if (sepIndex <? dotIndex)
     && negb (all_chars (Ascii.eqb ".") (slice p (sepIndex + 1) dotIndex))
  then (slice p 0 dotIndex, slice p dotIndex (len p))
  else (p, EmptyString).

(** [os.path.join(a, b)] (posixpath) for two components. *)
Definition path_join (a b : string) : string :=
  if startswith "/" b then b
  else if String.eqb a "" || String.eqb (slice a (len a - 1) (len a)) "/"
       then a +:+ b
       else a +:+ "/" +:+ b.

Definition is_upper (c : ascii) : bool :=
  (65 <=? Z.of_N (N_of_ascii c)) && (Z.of_N (N_of_ascii c) <=? 90).

(** [re.sub('[A-Z]{2}T$', '', s)]: [$] matches at the end of the string
    and just before a newline that ends it; at most one match exists. *)
Definition re_sub_tz (s : string) : string :=
  match list_ascii_of_string (String.rev s) with
  | "T"%char :: b :: a :: rest =>
      if is_upper a && is_upper b
      then String.rev (string_of_list_ascii rest)
      else
        s
  | "010"%char :: "T"%char :: b :: a :: rest =>
      if is_upper a && is_upper b
      then String.rev (string_of_list_ascii rest) +:+ String "010" EmptyString
      else s
  | _ => s
  end.

(** Whitespace of [str.split()] among the ASCII characters. *)
Definition is_space (c : ascii) : bool :=
  let n := Z.of_N (N_of_ascii c) in
  ((9 <=? n) && (n <=? 13)) || ((28 <=? n) && (n <=? 32)).

(** The maximal runs of non-whitespace characters of [s], in order:
    [s.split()]; [s.split(maxsplit=3)] has the same first three items. *)
Fixpoint tokens_go (cur : option string) (s : string) : list string :=
  match s with
  | EmptyString =>
      match cur with Some w => [String.rev w] | None => [] end
  | String c s' =>
      if is_space c
      then match cur with
           | Some w => String.rev w :: tokens_go None s'
           | None => tokens_go None s'
           end
      else tokens_go (Some (String c (default EmptyString cur))) s'
  end.

Definition tokens (s : string) : list string := tokens_go None s.

(** [s.lstrip(chars)], [s.rstrip(chars)] and [s.strip(chars)]. *)
Fixpoint lstrip (chars : list ascii) (s : string) : string :=
  match s with
  | EmptyString => EmptyString
  | String c s' =>
      if bool_decide (c ∈ chars) then lstrip chars s' else s
  end.

Definition rstrip (chars : list ascii) (s : string) : string :=
  String.rev (lstrip chars (String.rev s)).

Definition strip (chars : list ascii) (s : string) : string :=
  rstrip chars (lstrip chars s).

(** The characters of [' \t\r\n']. *)
Definition blanks : list ascii := [" "; "009"; "013"; "010"]%char.

(** [s.endswith(suffix)]. *)
Definition endswith (suffix s : string) : bool :=
  String.prefix (String.rev suffix) (String.rev s).

(** [s.split(sep, n)] for a one-character [sep]: at most [n] cuts, at the
    first [n] occurrences of [sep]. *)
Fixpoint split_max (sep : ascii) (n : nat) (s : string) : list string :=
  match s with
  | EmptyString => [EmptyString]
  | String c s' =>
      match n with
      | O => [s]
      | S n' =>
          if Ascii.eqb c sep then EmptyString :: split_max sep n' s'
          else match split_max sep n s' with
               | h :: t => String c h :: t
               | [] => [String c EmptyString]
               end
      end
  end.

(** [l[-(i+1)]], [None] standing for [IndexError]. *)
Definition from_end (i : nat) (l : list string) : option string :=
  reverse l !! i.

(** [l[-n:]]. *)
Definition last_n (n : nat) (l : list string) : list string :=
  drop (length l - n) l.

(** [l[::2]]. *)
Fixpoint every_other {A} (l : list A) : list A :=
  match l with
  | x :: _ :: l' => x :: every_other l'
  | _ => l
  end.

End Py.

(** Exceptions that reach the code modelled here. *)
Inductive exn :=
| ValueError
| TypeError
| IndexError
| IMAP4_error
| OtherError (msg : string).

(** [datetime.datetime]: naive when [tzinfo] is [None], else aware with the
    UTC offset in seconds. *)
Record datetime := Datetime {
  year : Z; month : Z; day : Z;
  hour : Z; minute : Z; second : Z;
  tzinfo : option Z
}.

(** What a slot of the inventory tuple or a printed argument can hold. *)
Inductive pyval :=
| PyNone
| PyStr (s : string)
| PyDatetime (d : datetime).

(** Truth value of [if v:]. *)
Definition truthy (v : pyval) : bool :=
  match v with
  | PyNone => false
  | PyStr s => negb (String.eqb s "")
  | PyDatetime _ => true
  end.

(** [headers.get(name, None)]. *)
Definition of_header (h : option string) : pyval :=
  match h with Some s => PyStr s | None => PyNone end.

(** [a >= b] with [b] a [str]: code-point order on two strings, [TypeError]
    for [None] or a [datetime] on the left. *)
Definition py_ge_str (a : pyval) (b : string) : exn + bool :=
  match a with
  | PyStr x => inr (String.leb b x)
  | _ => inl TypeError
  end.

(** ** Data model *)

(** The attributes [LogDir.__init__] extracts from a directory name.
    [from_email] and [to_email] are set once from [get_from_email] and
    [get_to_email] and never reassigned; they are those functions below. *)
Record LogDir := mkLogDir {
  dir_name : string;
  log_type : string;
  protocol : string;
  account : string;
  contact : string
}.

Record LogFile := mkLogFile {
  log_dir : LogDir;
  base_name : string;
  root_name : string;
  extension : string;
  file_name : string;
  timestamp : datetime;
  message_id : string;
  file_mtime : string
}.

Record Configuration := mkConfiguration {
  known_chat_types : list string;
  known_logfile_extensions : list string;
  imap_folder : string;
  imap_username : string;
  imap_password : string;
  imap_flags : string;
  text_encodings : list string;
  accounts_to_skip : gset string;
  contacts_to_skip : gset string
}.

(** A pair [(index_bytes, header_bytes)] of the FETCH answer: the index
    line and the two header fields [HeaderParser] finds in the header
    block. *)
Record fetched := mkFetched {
  index_line : string;
  hdr_message_id : option string;
  hdr_mtime : option string
}.

(** One element of the data list [imaplib] returns for the FETCH: such a
    pair, a bare bytes object (the [b')'] that closes a message), or the
    [None] that stands alone in the answer for a folder without
    messages. *)
Inductive fetch_item :=
| FetchPair (message : fetched)
| FetchBytes (b : string)
| FetchNone.

(** The calls made on [self.server]. *)
Inductive imap_command :=
| LOGIN (user password : string)
| CREATE (mailbox : string)
| SELECT (mailbox : string)
| FETCH (message_set message_parts : string)
| UID_STORE (uid : pyval) (item flags : string)
| EXPUNGE
| APPEND (mailbox flags : string) (date_time : datetime) (message : string).

Inductive stream := stdout | stderr.

(** What a run does that is visible from outside. *)
Inductive event :=
| Imap (c : imap_command)
| Print (file : stream) (args : list pyval).

Definition imap_commands (evs : list event) : list imap_command :=
  omap (fun e => match e with Imap c => Some c | Print _ _ => None end) evs.

Definition is_mutation (c : imap_command) : bool :=
  match c with
  | UID_STORE _ _ _ | EXPUNGE | APPEND _ _ _ _ => true
  | _ => false
  end.

Definition is_append (c : imap_command) : bool :=
  match c with APPEND _ _ _ _ => true | _ => false end.

(** ** Reference instances of the library functions

    The program is stated over the library functions it calls
    ([urllib.parse.unquote], [datetime.strptime], [strftime],
    [tz.localize]); these executable instances cover the plain inputs the
    examples use. *)

Module Ref.

Definition hex_val (c : ascii) : option Z :=
  let n := Z.of_N (N_of_ascii c) in
  if (48 <=? n) && (n <=? 57) then Some (n - 48)
  else if (65 <=? n) && (n <=? 70) then Some (n - 55)
  else if (97 <=? n) && (n <=? 102) then Some (n - 87)
  else None.

(** Percent-decoding, byte for byte: [unquote] wherever the decoded bytes
    are valid UTF-8. *)
Fixpoint unquote_go (s : list ascii) : list ascii :=
  match s with
  | [] => []
  | c :: t =>
      if Ascii.eqb c "%" then
        match t with
        | a :: b :: rest =>
            match hex_val a, hex_val b with
            | Some x, Some y =>
                ascii_of_N (Z.to_N (16 * x + y)) :: unquote_go rest
            | _, _ => c :: unquote_go t
            end
        | _ => c :: unquote_go t
        end
      else c :: unquote_go t
  end.

Definition unquote (s : string) : string :=
  string_of_list_ascii (unquote_go (list_ascii_of_string s)).

Definition digit_val (c : ascii) : option Z :=
  let n := Z.of_N (N_of_ascii c) in
  if (48 <=? n) && (n <=? 57) then Some (n - 48) else None.

(** Reads exactly [n] decimal digits. *)
Fixpoint take_digits (n : nat) (acc : Z) (s : list ascii)
  : option (Z * list ascii) :=
  match n with
  | O => Some (acc, s)
  | S n' =>
      match s with
      | c :: t =>
          match digit_val c with
          | Some d => take_digits n' (10 * acc + d) t
          | None => None
          end
      | [] => None
      end
  end.

Definition in_range (lo hi v : Z) : bool := (lo <=? v) && (v <=? hi).

Definition is_leap (y : Z) : bool :=
  ((y mod 4 =? 0) && negb (y mod 100 =? 0)) || (y mod 400 =? 0).

Definition days_in_month (y m : Z) : Z :=
  if m =? 2 then (if is_leap y then 29 else 28)
  else if (m =? 4) || (m =? 6) || (m =? 9) || (m =? 11) then 30
  else 31.

Definition set_field (d : ascii) (v : Z) (dt : datetime) : option datetime :=
  match d with
  | "Y"%char => if in_range 1 9999 v
                then Some (Datetime v (month dt) (day dt) (hour dt) (minute dt) (second dt) (tzinfo dt))
                else None
  | "m"%char => if in_range 1 12 v
                then Some (Datetime (year dt) v (day dt) (hour dt) (minute dt) (second dt) (tzinfo dt))
                else None
  | "d"%char => if in_range 1 31 v
                then Some (Datetime (year dt) (month dt) v (hour dt) (minute dt) (second dt) (tzinfo dt))
                else None
  | "H"%char => if in_range 0 23 v
                then Some (Datetime (year dt) (month dt) (day dt) v (minute dt) (second dt) (tzinfo dt))
                else None
  | "M"%char => if in_range 0 59 v
                then Some (Datetime (year dt) (month dt) (day dt) (hour dt) v (second dt) (tzinfo dt))
                else None
  | "S"%char => if in_range 0 59 v
                then Some (Datetime (year dt) (month dt) (day dt) (hour dt) (minute dt) v (tzinfo dt))
                else None
  | _ => None
  end.

(** [%z] as sign and four digits. *)
Definition take_offset (s : list ascii) : option (Z * list ascii) :=
  match s with
  | sg :: t =>
      let sign := if Ascii.eqb sg "+" then Some 1
                  else if Ascii.eqb sg "-" then Some (-1) else None in
      match sign, take_digits 2 0 t with
      | Some k, Some (hh, t') =>
          match take_digits 2 0 t' with
          | Some (mm, t'') =>
              if in_range 0 59 mm then Some (k * (hh * 3600 + mm * 60), t'')
              else None
          | None => None
          end
      | _, _ => None
      end
  | [] => None
  end.

Fixpoint strptime_go (fmt s : list ascii) (dt : datetime) : option datetime :=
  match fmt with
  | [] => match s with [] => Some dt | _ => None end
  | f :: fmt' =>
      if Ascii.eqb f "%" then
        match fmt' with
        | d :: fmt'' =>
            if Ascii.eqb d "z" then
              match take_offset s with
              | Some (off, s') =>
                  strptime_go fmt'' s'
                    (Datetime (year dt) (month dt) (day dt) (hour dt)
                       (minute dt) (second dt) (Some off))
              | None => None
              end
            else
              match take_digits (if Ascii.eqb d "Y" then 4 else 2) 0 s with
              | Some (v, s') =>
                  match set_field d v dt with
                  | Some dt' => strptime_go fmt'' s' dt'
                  | None => None
                  end
              | None => None
              end
        | [] => None
        end
      else
        match s with
        | c :: s' => if Ascii.eqb c f then strptime_go fmt' s' dt else None
        | [] => None
        end
  end.

(** [datetime.strptime(date_string, format)] on the zero-padded,
    fixed-width spellings of [%Y %m %d %H %M %S %z]; [None] stands for
    [ValueError]. *)
Definition strptime (date_string format : string) : option datetime :=
  match strptime_go (list_ascii_of_string format)
          (list_ascii_of_string date_string)
          (Datetime 1900 1 1 0 0 0 None) with
  | Some dt =>
      if day dt <=? days_in_month (year dt) (month dt) then Some dt else None
  | None => None
  end.

Definition digit (v : Z) : ascii := ascii_of_N (Z.to_N (48 + v mod 10)).

Definition pad2 (v : Z) : string :=
  String (digit (v / 10)) (String (digit v) EmptyString).

Definition pad4 (v : Z) : string := pad2 (v / 100) +:+ pad2 v.

Definition fmt_offset (tz : option Z) : string :=
  match tz with
  | None => EmptyString
  | Some off =>
      let a := Z.abs off in
      (if off <? 0 then "-" else "+") +:+ pad2 (a / 3600)
        +:+ pad2 (a mod 3600 / 60)
        +:+ (if a mod 60 =? 0 then EmptyString else pad2 (a mod 60))
  end.

(** [d.strftime('%Y%m%d%H%M%S%z')] for four-digit years. *)
Definition strftime (d : datetime) (format : string) : string :=
  pad4 (year d) +:+ pad2 (month d) +:+ pad2 (day d) +:+ pad2 (hour d)
    +:+ pad2 (minute d) +:+ pad2 (second d) +:+ fmt_offset (tzinfo d).

(** [tz.localize(d)] for a zone with a fixed offset of [off] seconds. *)
Definition localize (off : Z) (d : datetime) : datetime :=
  Datetime (year d) (month d) (day d) (hour d) (minute d) (second d) (Some off).

(** [str.lower] on the ASCII letters. *)
Definition lower_char (c : ascii) : ascii :=
  if Py.is_upper c then ascii_of_N (N_of_ascii c + 32)%N else c.

Fixpoint lower (s : string) : string :=
  match s with
  | EmptyString => EmptyString
  | String c s' => String (lower_char c) (lower s')
  end.

End Ref.

(** A reference IMAP server holding one folder, as far as the program can
    observe it: APPEND stores the message under the next UID, UID STORE
    with [+FLAGS (\Deleted)] marks one, EXPUNGE removes the marked ones,
    and the answer to the FETCH lists, for each message in the order of
    its arrival, its index line with the two header fields asked for,
    then [b')']; for a folder without messages the answer is [[None]]. *)
Module Mailbox.

Record message := Message {
  uid : Z;
  text : string;
  deleted : bool
}.

Record state := State {
  messages : list message;
  uidnext : Z
}.

Fixpoint decimal_go (fuel : nat) (n : Z) (acc : string) : string :=
  match fuel with
  | O => acc
  | S fuel' =>
      let acc' := String (Ref.digit n) acc in
      if n <? 10 then acc' else decimal_go fuel' (n / 10) acc'
  end.

(** A non-negative number of at most twenty digits in decimal. *)
Definition decimal (n : Z) : string := decimal_go 20 n EmptyString.

(** The value of the first line [name: value] of the header block of a
    message, the name compared without regard to case. *)
Fixpoint header_go (name : string) (lines : list string) : option string :=
  match lines with
  | [] => None
  | line :: rest =>
      if String.eqb line EmptyString then None
      else if Py.startswith (Ref.lower name +:+ ": ") (Ref.lower line)
      then Some (String.substring (String.length name + 2)
                   (String.length line - (String.length name + 2)) line)
      else header_go name rest
  end.

Definition header (name text : string) : option string :=
  header_go name (Py.split_char "010" text).

Fixpoint answer (seq : Z) (ms : list message) : list fetch_item :=
  match ms with
  | [] => []
  | m :: ms' =>
      FetchPair
        (mkFetched
           (decimal seq +:+ " (UID " +:+ decimal (uid m)
              +:+ " BODY[HEADER.FIELDS (Message-ID X-Source-File-Modifiedtime)] {"
              +:+ decimal (Z.of_nat (String.length (text m))) +:+ "}")
           (header "Message-ID" (text m))
           (header "X-Source-File-Modifiedtime" (text m)))
        :: FetchBytes ")" :: answer (seq + 1) ms'
  end.

Definition fetch_response (c : state) : list fetch_item :=
  match messages c with
  | [] => [FetchNone]
  | ms => answer 1 ms
  end.

Definition mark (u : pyval) (m : message) : message :=
  match u with
  | PyStr t =>
      if String.eqb t (decimal (uid m)) then Message (uid m) (text m) true
      else m
  | _ => m
  end.

Definition exec (c : state) (cmd : imap_command) : option state :=
  match cmd with
  | LOGIN _ _ | CREATE _ | SELECT _ | FETCH _ _ => Some c
  | UID_STORE u item flags =>
      if String.eqb item "+FLAGS" && String.eqb flags "(\Deleted)"
      then Some (State (map (mark u) (messages c)) (uidnext c))
      else Some c
  | EXPUNGE =>
      Some (State (List.filter (fun m => negb (deleted m)) (messages c))
              (uidnext c))
  | APPEND _ _ _ msg =>
      Some (State (messages c ++ [Message (uidnext c) msg false])
              (uidnext c + 1))
  end.

End Mailbox.

(** Sample environments and inputs for the concrete runs. *)
Module Sample.

(** A connection that accepts every command. *)
Definition accepting (c : unit) (cmd : imap_command) : option unit := Some tt.


(** Rendering that always succeeds and prints nothing. *)
Definition render (f : LogFile) (encodings : list string)
  : list (list pyval) * (exn + string) :=
  ([], inr ("chat log " +:+ file_name f)).

(** The answer for a folder without messages. *)
Definition no_messages (c : unit) : list fetch_item := [FetchNone].

(** A folder holding the one message a run over [bobsmith]'s first log
    leaves there. *)
Definition one_message (c : unit) : list fetch_item :=
  [FetchPair
     (mkFetched
        "1 (UID 7 BODY[HEADER.FIELDS (Message-ID X-Source-File-Modifiedtime)] {99}"
        (Some "20140904154541-0400_bobsmith@aol.com")
        (Some "20140905100000-0500"));
   FetchBytes ")"].

(** A folder with a message that lacks the modification time and one that
    lacks the Message-ID. *)
Definition legacy_messages (c : unit) : list fetch_item :=
  [FetchPair
     (mkFetched "1 (UID 8 BODY[HEADER.FIELDS (Message-ID)] {30}"
        (Some "20080130012511-0500_somebody@somewhere") None);
   FetchBytes ")";
   FetchPair
     (mkFetched
        "2 (UID 9 BODY[HEADER.FIELDS (X-Source-File-Modifiedtime)] {40}"
        None (Some "20140905100000-0500"));
   FetchBytes ")"].

(** Every file was last modified on 2014-09-05 10:00:00 local time. *)
Definition getmtime (path : string) : datetime :=
  Datetime 2014 9 5 10 0 0 None.

(** US/Eastern in winter, as a fixed offset. *)
Definition eastern : datetime -> datetime := Ref.localize (-18000).

Definition bobsmith : LogDir :=
  mkLogDir "logs/aim/myacct/bobsmith" "pidgin" "aim" "myacct" "bobsmith".

(** The [LogFile] of [bobsmith]'s log of 2014-09-04 15:45:41 -0400. *)
Definition first_log : LogFile :=
  mkLogFile bobsmith "2014-09-04.154541-0400.html" "2014-09-04.154541-0400"
    ".html" "logs/aim/myacct/bobsmith/2014-09-04.154541-0400.html"
    (Datetime 2014 9 4 15 45 41 (Some (-14400)))
    "20140904154541-0400_bobsmith@aol.com" "20140905100000-0500".

Definition config : Configuration :=
  mkConfiguration
    ["aim"; "facebook"; "irc"; "jabber"; "msn"; "yahoo"; "gtalk"]
    [".html"; ".txt"; ".xml"]
    "ChatLog" "user" "secret" "" ["utf-8"]
    {["aim:work"]} {["aim:myacct:spammer"]}.

(** Rendering that always fails, after one line on stderr. *)
Definition render_fails (f : LogFile) (encodings : list string)
  : list (list pyval) * (exn + string) :=
  ([[PyStr "encoding "; PyStr "utf-8"; PyStr " failed for ";
     PyStr (file_name f); PyStr ": "; PyStr "invalid start byte"]],
   inl ValueError).

(** A connection that refuses the LOGIN. *)
Definition login_refused (c : unit) (cmd : imap_command) : option unit :=
  match cmd with
  | LOGIN _ _ => None
  | _ => Some tt
  end.

(** A file that only latin-1 can read, ending in a newline and a NUL. *)
Definition read_text (file_name enc : string) : string + string :=
  if String.eqb enc "latin-1"
  then inr ("<html>hi</html>" +:+ String "010" (String "000" EmptyString))
  else inl "invalid start byte".

(** Rendering that writes the two headers the inventory reads back, as
    [create_email] does among its headers, and a body. *)
Definition render_headers (f : LogFile) (encodings : list string)
  : list (list pyval) * (exn + string) :=
  ([], inr ("Message-ID: " +:+ message_id f +:+ String "010" EmptyString
            +:+ "X-Source-File-ModifiedTime: " +:+ file_mtime f
            +:+ String "010" (String "010" EmptyString)
            +:+ "chat log " +:+ file_name f)).

(** The files whose name ends in [EDT.html] were last modified on
    2014-09-03, the others on 2014-09-05. *)
Definition mtime_by_name (path : string) : datetime :=
  if Py.endswith "EDT.html" path then Datetime 2014 9 3 10 0 0 None
  else Datetime 2014 9 5 10 0 0 None.

(** A folder on the reference server that holds one message, of a
    conversation of 2008. *)
Definition old_folder : Mailbox.state :=
  Mailbox.State
    [Mailbox.Message 1
       ("Message-ID: 20080130012511-0500_somebody@aol.com"
          +:+ String "010" EmptyString
          +:+ "X-Source-File-ModifiedTime: 20080130020000-0500"
          +:+ String "010" (String "010" EmptyString)
          +:+ "chat log of 2008")
       false]
    2.

End Sample.

(** ** The program *)

Section Program.

(** Library and environment the program runs against. *)
Variable unquote : string -> string.
Variable strptime : string -> string -> option datetime.
Variable strftime : datetime -> string -> string.
Variable localize : datetime -> datetime.
(** [datetime.fromtimestamp(os.path.getmtime(path))]. *)
Variable getmtime : string -> datetime.
(** [LogFile.create_email]: the lines it prints (all on stderr, one per
    encoding that fails), and the message or the exception it ends with. *)
Variable create_email :
  LogFile -> list string -> list (list pyval) * (exn + string).
(** The IMAP connection: [exec c cmd] is the connection after [cmd], or
    [None] when [imaplib] raises; [fetch_response c] is the data list
    ([message_list]) of the answer to the FETCH of the inventory. *)
Variable conn : Type.
Variable exec : conn -> imap_command -> option conn.
Variable fetch_response : conn -> list fetch_item.
(** [str.lower]. *)
Variable lower : string -> string.
(** [open(path, 'r', encoding=enc).read()]: the text, or the message of
    the exception it raises. *)
Variable read_text : string -> string -> string + string.

(** *** LogDir *)

(** [LogDir.__init__]: the attributes read off the directory name, in the
    Adium layout ([protocol.account/contact/*.chatlog]) or the Pidgin one
    ([protocol/account/contact]). [os.sep] is ['/']. *)
Definition LogDir_init (dir_name : string) : exn + LogDir :=
  let dir_parts := Py.split_char "/" dir_name in
  if Py.endswith ".chatlog" (Py.last_item dir_parts) then
    match Py.from_end 2 dir_parts with
    | None => inl IndexError
    | Some part =>
        match Py.split_max "." 1 part with
        | [protocol; account] =>
            let protocol := Py.rstrip ["!"%char] (lower protocol) in
            match Py.from_end 1 dir_parts with
            | Some contact =>
                inr (mkLogDir dir_name "adium" protocol account contact)
            | None => inl IndexError
            end
        | _ => inl ValueError
        end
    end
  else
    match Py.last_n 3 dir_parts with
    | [protocol; account; contact] =>
        inr (mkLogDir dir_name "pidgin" protocol account contact)
    | _ => inl ValueError
    end.

Definition get_from_email (self : LogDir) : string :=
  let contact := Py.replace_char " " "_" (unquote (contact self)) in
  if String.eqb (protocol self) "aim" then contact +:+ "@aol.com"
  else if String.eqb (protocol self) "facebook" then contact +:+ "@facebook.com"
  else if String.eqb (protocol self) "irc"
       then Py.remove_char "#" contact +:+ "@irc"
  else if bool_decide (protocol self ∈ ["jabber"; "gtalk"]) then contact
  else if String.eqb (protocol self) "msn"
       then (if Py.contains_char "@" contact then contact
             else contact +:+ "@hotmail.com")
  else if String.eqb (protocol self) "yahoo" then contact +:+ "@yahoo.com"
  else contact +:+ "@" +:+ protocol self.

Definition get_to_email (self : LogDir) : string :=
  if bool_decide (protocol self ∈ ["facebook"; "irc"; "jabber"; "gtalk"])
  then account self
  else get_from_email self.

Definition from_email (self : LogDir) : string := get_from_email self.
Definition to_email (self : LogDir) : string := get_to_email self.

(** *** Configuration *)

Definition qualified_account_name (protocol account : string) : string :=
  protocol +:+ ":" +:+ account.

Definition qualified_contact_name (protocol account contact : string) : string :=
  protocol +:+ ":" +:+ account +:+ ":" +:+ contact.

Definition syncable_protocol (self : Configuration) (protocol : string) : bool :=
  bool_decide (protocol ∈ known_chat_types self).

Definition syncable_account (self : Configuration) (protocol account : string)
  : bool :=
  syncable_protocol self protocol
  && negb (bool_decide
             (qualified_account_name protocol account ∈ accounts_to_skip self)).

Definition syncable_contact (self : Configuration)
    (protocol account contact : string) : bool :=
  syncable_account self protocol account
  && negb (bool_decide
             (qualified_contact_name protocol account contact
                ∈ contacts_to_skip self)).

Definition is_log_file_name (self : Configuration) (file_name : string) : bool :=
  negb (Py.startswith "._" file_name)
  && bool_decide ((Py.splitext file_name).2 ∈ known_logfile_extensions self).

(** *** The IMAPServer object and the effects of a run *)

Record IMAPServer := mkIMAPServer {
  server : conn;
  folder : string;
  message_flags : string;
  existing_message_ids : gmap string (pyval * pyval);
  num_stored_messages : nat
}.

(** The object with its connection, or its inventory, replaced. *)
Definition set_server (s : IMAPServer) (c : conn) : IMAPServer :=
  mkIMAPServer c (folder s) (message_flags s) (existing_message_ids s)
    (num_stored_messages s).

Definition set_inventory (s : IMAPServer) (d : gmap string (pyval * pyval))
  : IMAPServer :=
  mkIMAPServer (server s) (folder s) (message_flags s) d
    (num_stored_messages s).

(** What a computation leaves behind: its value or the exception that
    ended it, the object as mutated, and the events in the order issued. *)
Record outcome (A : Type) := Outcome {
  result : exn + A;
  final : IMAPServer;
  emitted : list event
}.
Arguments Outcome {A} _ _ _.
Arguments result {A} _.
Arguments final {A} _.
Arguments emitted {A} _.

Definition M (A : Type) : Type := IMAPServer -> outcome A.

Definition ret {A} (x : A) : M A := fun s => Outcome (inr x) s [].

Definition raise {A} (e : exn) : M A := fun s => Outcome (inl e) s [].

Definition bind {A B} (m : M A) (k : A -> M B) : M B := fun s =>
  let o := m s in
  match result o with
  | inl e => Outcome (inl e) (final o) (emitted o)
  | inr x =>
      let o' := k x (final o) in
      Outcome (result o') (final o') (emitted o ++ emitted o')
  end.

(** [try: m except: h]. *)
Definition try_except {A} (m : M A) (h : exn -> M A) : M A := fun s =>
  let o := m s in
  match result o with
  | inl e =>
      let o' := h e (final o) in
      Outcome (result o') (final o') (emitted o ++ emitted o')
  | inr x => o
  end.

Notation "x <- m ;; k" := (bind m (fun x => k))
  (at level 100, m at next level, k at level 200, right associativity).
Notation "m ;; k" := (bind m (fun _ => k))
  (at level 100, k at level 200, right associativity).

Definition get : M IMAPServer := fun s => Outcome (inr s) s [].

Definition emit (e : event) : M unit := fun s => Outcome (inr tt) s [e].

Definition print (file : stream) (args : list pyval) : M unit :=
  emit (Print file args).

Definition of_option {A} (e : exn) (o : option A) : M A :=
  match o with Some x => ret x | None => raise e end.

Definition of_sum {A} (r : exn + A) : M A :=
  match r with inr x => ret x | inl e => raise e end.

(** A call on [self.server]. *)
Definition imap (c : imap_command) : M unit := fun s =>
  match exec (server s) c with
  | Some k => Outcome (inr tt) (set_server s k) [Imap c]
  | None => Outcome (inl IMAP4_error) s [Imap c]
  end.

(** [self.existing_message_ids[k] = v]. *)
Definition setitem (k : string) (v : pyval * pyval) : M unit := fun s =>
  Outcome (inr tt) (set_inventory s (<[k := v]> (existing_message_ids s))) [].

(** [for x in l: body(x)]. *)
Fixpoint for_each {A} (l : list A) (body : A -> M unit) : M unit :=
  match l with
  | [] => ret tt
  | x :: l' => body x ;; for_each l' body
  end.

(** A generator run to its end: the items yielded, in order. *)
Fixpoint collect {A B} (l : list A) (body : A -> M (list B)) : M (list B) :=
  match l with
  | [] => ret []
  | x :: l' => ys <- body x ;; zs <- collect l' body ;; ret (ys ++ zs)
  end.

(** [{x: y for (x, y) in pairs}]: a later pair replaces an earlier one. *)
Definition dict_of_pairs (pairs : list (string * (pyval * pyval)))
  : gmap string (pyval * pyval) :=
  foldl (fun m kv => <[kv.1 := kv.2]> m) ∅ pairs.

(** *** LogFile *)

Definition get_mtime (file_name : string) : string :=
  strftime (localize (getmtime file_name)) "%Y%m%d%H%M%S%z".

Definition get_timestamp (root_name extension file_name : string) : M datetime :=
  try_except
    (if String.eqb extension ".xml" then
       of_option ValueError
         (strptime (Py.last_item (Py.split_char " " root_name))
            "(%Y-%m-%dT%H.%M.%S%z)")
     else
       let ts_string := Py.re_sub_tz root_name in
       try_except
         (of_option ValueError (strptime ts_string "%Y-%m-%d.%H%M%S%z"))
         (fun _ =>
            d <- of_option ValueError (strptime ts_string "%Y-%m-%d.%H%M%S") ;;
            ret (localize d)))
    (fun e =>
       print stderr [PyStr "timezone parsing failure: "; PyStr file_name] ;;
       raise e).

(** [LogFile.__init__]. *)
Definition LogFile_init (log_dir : LogDir) (base_name : string) : M LogFile :=
  let root_name := (Py.splitext base_name).1 in
  let extension := (Py.splitext base_name).2 in
  let file_name := Py.path_join (dir_name log_dir) base_name in
  timestamp <- get_timestamp root_name extension file_name ;;
  let message_id :=
    strftime timestamp "%Y%m%d%H%M%S%z" +:+ "_" +:+ from_email log_dir in
  let file_mtime := get_mtime file_name in
  ret (mkLogFile log_dir base_name root_name extension file_name timestamp
         message_id file_mtime).

(** *** IMAPServer *)

Definition delete (uid : pyval) : M unit :=
  imap (UID_STORE uid "+FLAGS" "(\Deleted)") ;;
  imap EXPUNGE.

(** One turn of the loop of [get_existing_message_ids] once [message] is
    unpacked: the pairs it yields. *)
Definition get_existing_message_id (message : fetched)
  : M (list (string * (pyval * pyval))) :=
  uid <- of_option IndexError (Py.tokens (index_line message) !! 2%nat) ;;
  let message_id := of_header (hdr_message_id message) in
  let mtime := of_header (hdr_mtime message) in
  if negb (truthy mtime) then
    print stderr [PyStr "uid "; PyStr uid; PyStr " message-id "; message_id;
                  PyStr " has no mtime, deleted"] ;;
    delete (PyStr uid) ;;
    ret []
  else
    match message_id with
    | PyStr k => if truthy message_id then ret [(k, (PyStr uid, mtime))] else ret []
    | _ => ret []
    end.

(** [index_bytes, header_bytes = message]: [None] cannot be unpacked
    ([TypeError]); a bytes object unpacks into its bytes, which must be
    two ([ValueError]), and these are [int]s, which have no [decode]
    ([AttributeError] at the next line). *)
Definition unpack_message (message : fetch_item) : exn + fetched :=
  match message with
  | FetchPair r => inr r
  | FetchBytes b =>
      if Nat.eqb (String.length b) 2 then inl (OtherError "AttributeError")
      else inl ValueError
  | FetchNone => inl TypeError
  end.

(** One turn of the loop of [get_existing_message_ids], from the
    unpacking on. *)
Definition get_existing_message (message : fetch_item)
  : M (list (string * (pyval * pyval))) :=
  r <- of_sum (unpack_message message) ;;
  get_existing_message_id r.

Definition get_existing_message_ids : M (list (string * (pyval * pyval))) :=
  self <- get ;;
  imap (SELECT (folder self)) ;;
  imap (FETCH "1:*"
          "(UID BODY[HEADER.FIELDS (Message-ID X-Source-File-Modifiedtime)])") ;;
  self <- get ;;
  collect (Py.every_other (fetch_response (server self))) get_existing_message.

(** [IMAPServer.__init__] on the connection [IMAP4_SSL(host)] gave. *)
Definition IMAPServer_init (c : conn) (username password folder message_flags : string)
  : outcome unit :=
  (imap (LOGIN username password) ;;
   imap (CREATE folder) ;;
   pairs <- get_existing_message_ids ;;
   fun s =>
     let d := dict_of_pairs pairs in
     Outcome (inr tt)
       (mkIMAPServer (server s) folder message_flags d (size d)) [])
    (mkIMAPServer c folder message_flags ∅ 0).

Definition store (email_as_string : string) (timestamp : datetime)
    (message_id : string) : M unit :=
  setitem message_id (PyNone, PyDatetime timestamp) ;;
  self <- get ;;
  imap (APPEND (folder self) (message_flags self) timestamp email_as_string).

(** *** The catalog and the main loop *)

(** The call of [f.create_email] inside the loop. *)
Definition call_create_email (config : Configuration) (f : LogFile) : M string :=
  fun s =>
    let r := create_email f (text_encodings config) in
    Outcome r.2 s (map (Print stderr) r.1).

(** The [try] block that ends the body of the loop. *)
Definition try_store (config : Configuration) (f : LogFile) : M unit :=
  try_except
    (print stdout [PyStr "storing "; PyStr (file_name f)] ;;
     email <- call_create_email config f ;;
     store email (timestamp f) (message_id f))
    (fun e =>
       print stderr [PyStr "Error storing file "; PyStr (file_name f)] ;;
       raise e).

(** The body of the loop of [__main__] for the transcript [f]. *)
Definition main_loop_body (config : Configuration) (f : LogFile) : M unit :=
  self <- get ;;
  let entry := default (PyNone, PyNone) (existing_message_ids self !! message_id f) in
  let uid := entry.1 in
  let mtime := entry.2 in
  to_store <-
    (if truthy uid then
       current <- (if truthy mtime then of_sum (py_ge_str mtime (file_mtime f))
                   else ret false) ;;
       if (current : bool) then ret false
       else
         print stderr [PyStr "message "; PyStr (file_name f); PyStr " with uid ";
                       uid; PyStr " too old ("; mtime; PyStr ") deleting."] ;;
         delete uid ;;
         ret true
     else
       print stdout [PyStr (file_name f); PyStr " was not found"] ;;
       ret true) ;;
  if (to_store : bool) then try_store config f else ret tt.

(** [find_log_files] is a generator: [find_log_files config walked body]
    is [for f in find_log_files(config): body(f)], the generator advanced
    one [LogFile] at a time and the body of the loop run on each before
    the next is built. [walked] is what [os.walk] gives over the base
    directories, in order: each directory path with its file names. An
    exception raised by [LogDir(dirpath)], by [LogFile(...)] or by the
    body ends the iteration. *)
Definition find_log_files (config : Configuration)
    (walked : list (string * list string)) (body : LogFile -> M unit)
  : M unit :=
  for_each walked
    (fun d =>
       let log_filenames :=
         filter (fun x => is_log_file_name config x = true) d.2 in
       match log_filenames with
       | [] => ret tt
       | _ :: _ =>
           log_dir <- of_sum (LogDir_init d.1) ;;
           if syncable_contact config (protocol log_dir) (account log_dir)
                (contact log_dir)
           then for_each log_filenames
                  (fun f => log_file <- LogFile_init log_dir f ;; body log_file)
           else ret tt
       end).

(** The loop of [__main__]. *)
Definition main_loop (config : Configuration)
    (walked : list (string * list string)) : M unit :=
  find_log_files config walked (main_loop_body config).

(** [__main__] with the configuration loaded and the connection open. *)
Definition main (config : Configuration) (c : conn)
    (walked : list (string * list string)) : outcome unit :=
  let o := IMAPServer_init c (imap_username config) (imap_password config)
             (imap_folder config) (imap_flags config) in
  match result o with
  | inl e => o
  | inr _ =>
      let o' := (imap EXPUNGE ;; main_loop config walked) (final o) in
      Outcome (result o') (final o') (emitted o ++ emitted o')
  end.

(** *** The generator, flattened

    The constructions [find_log_files] performs, in order, read off its
    control flow: [inr (log_dir, f)] for a [LogFile(log_dir, f, ...)],
    [inl e] for a [LogDir(dirpath)] that raises [e]. The lemma
    [find_log_files_steps] relates the two. *)
Definition generator_steps (config : Configuration)
    (walked : list (string * list string)) : list (exn + LogDir * string) :=
  flat_map
    (fun d =>
       let log_filenames :=
         filter (fun x => is_log_file_name config x = true) d.2 in
       match log_filenames with
       | [] => []
       | _ :: _ =>
           match LogDir_init d.1 with
           | inl e => [inl e]
           | inr log_dir =>
               if syncable_contact config (protocol log_dir) (account log_dir)
                    (contact log_dir)
               then map (fun f => inr (log_dir, f)) log_filenames
               else []
           end
       end)
    walked.

Definition run_steps (steps : list (exn + LogDir * string))
    (body : LogFile -> M unit) : M unit :=
  for_each steps
    (fun step =>
       match step with
       | inl e => raise e
       | inr item => f <- LogFile_init item.1 item.2 ;; body f
       end).

(** *** The rest of LogFile and Configuration *)

(** [LogFile.get_text]: the lines printed on stderr, one per encoding
    that fails, and the text read with the first encoding that works,
    without its trailing blanks and NULs, or the [ValueError] raised when
    none works. *)
Fixpoint get_text (file_name : string) (text_encodings : list string)
  : list (list pyval) * (exn + string) :=
  match text_encodings with
  | [] => ([], inl ValueError)
  | enc :: rest =>
      match read_text file_name enc with
      | inr text =>
          ([], inr (Py.rstrip [" "; "009"; "013"; "010"; "000"]%char text))
      | inl e =>
          let r := get_text file_name rest in
          ([PyStr "encoding "; PyStr enc; PyStr " failed for ";
            PyStr file_name; PyStr ": "; PyStr e] :: r.1, r.2)
      end
  end.

(** The loop of [Configuration.__init__] over the entries of
    [AccountsToSkip], adding to the set [skip]. *)
Fixpoint read_accounts_to_skip (entries : list string) (skip : gset string)
  : exn + gset string :=
  match entries with
  | [] => inr skip
  | entry :: rest =>
      match Py.split_max ":" 1 (Py.strip Py.blanks entry) with
      | [protocol; account] =>
          read_accounts_to_skip rest
            ({[ qualified_account_name (Py.strip Py.blanks protocol)
                  (Py.strip Py.blanks account) ]} ∪ skip)
      | _ => inl ValueError
      end
  end.

(** The loop of [Configuration.__init__] over the entries of
    [ContactsToSkip]. *)
Fixpoint read_contacts_to_skip (entries : list string) (skip : gset string)
  : exn + gset string :=
  match entries with
  | [] => inr skip
  | entry :: rest =>
      match Py.split_max ":" 2 (Py.strip Py.blanks entry) with
      | [protocol; account; contact] =>
          read_contacts_to_skip rest
            ({[ qualified_contact_name protocol account contact ]} ∪ skip)
      | _ => inl ValueError
      end
  end.

(** The two skip sets as [Configuration.__init__] builds them from the
    values of the options [AccountsToSkip] and [ContactsToSkip] (the empty
    string when the option is absent). *)
Definition accounts_to_skip_of (value : string) : exn + gset string :=
  read_accounts_to_skip (Py.split_char "," value) ∅.

Definition contacts_to_skip_of (value : string) : exn + gset string :=
  read_contacts_to_skip (Py.split_char "," value) ∅.

(** *** Invariant of the inventory *)

(** An entry built by the start-up pass: a handle and a stored
    modification time, both non-empty strings. *)
Definition fetched_entry (v : pyval * pyval) : Prop :=
  exists uid mtime : string,
    v = (PyStr uid, PyStr mtime) /\ uid <> "" /\ mtime <> "".

(** An entry is either one from the start-up pass or one recorded by
    [store]. *)
Definition entry_ok (v : pyval * pyval) : Prop :=
  fetched_entry v \/ exists d : datetime, v = (PyNone, PyDatetime d).

Definition inventory_ok (inv : gmap string (pyval * pyval)) : Prop :=
  map_Forall (fun _ v => entry_ok v) inv.

(** The record [r] of the FETCH answer yields the inventory entry
    [(k, v)]: it has a handle, a non-empty modification time and a
    non-empty Message-ID, and [(k, v)] is made of them. *)
Definition yields_entry (r : fetched) (k : string) (v : pyval * pyval) : Prop :=
  exists uid mtime : string,
    Py.tokens (index_line r) !! 2%nat = Some uid /\
    hdr_mtime r = Some mtime /\ mtime <> "" /\
    hdr_message_id r = Some k /\ k <> "" /\
    v = (PyStr uid, PyStr mtime).

(** *** Timestamp derivation as the specification words it

    The three formats in priority order for every file name, whatever its
    extension. *)
Definition spec_get_timestamp (root_name file_name : string) : M datetime :=
  match strptime (Py.last_item (Py.split_char " " root_name))
          "(%Y-%m-%dT%H.%M.%S%z)" with
  | Some d => ret d
  | None =>
      let ts_string := Py.re_sub_tz root_name in
      match strptime ts_string "%Y-%m-%d.%H%M%S%z" with
      | Some d => ret d
      | None =>
          match strptime ts_string "%Y-%m-%d.%H%M%S" with
          | Some d => ret (localize d)
          | None =>
              print stderr [PyStr "timezone parsing failure: "; PyStr file_name] ;;
              raise ValueError
          end
      end
  end.

(** *** Self-repair as the specification words it

    What the start-up pass is to send for one element of the answer: the
    delete, at once, of a message that has no (or an empty)
    modification-time header, and nothing for any other. *)
Definition spec_repair (message : fetched) : list imap_command :=
  if truthy (of_header (hdr_mtime message)) then []
  else [UID_STORE (PyStr (default "" (Py.tokens (index_line message) !! 2%nat)))
          "+FLAGS" "(\Deleted)";
        EXPUNGE].

Definition spec_repairs (items : list fetch_item) : list imap_command :=
  flat_map
    (fun item =>
       match item with FetchPair r => spec_repair r | _ => [] end)
    items.

(** What a failed derivation leaves behind, as the result of a computation
    of any type. *)
Definition timestamp_failure {A} (file_name : string) (s : IMAPServer)
  : outcome A :=
  Outcome (inl ValueError) s
    [Print stderr [PyStr "timezone parsing failure: "; PyStr file_name]].

(** Reduces the projections of outcomes and of the server object, and
    nothing below them. *)
Tactic Notation "red_state" :=
  cbn [result final emitted server folder message_flags existing_message_ids
       num_stored_messages set_server set_inventory app fst snd].
Tactic Notation "red_state" "in" hyp(H) :=
  cbn [result final emitted server folder message_flags existing_message_ids
       num_stored_messages set_server set_inventory app fst snd] in H.

(** The inventory is reasoned about through the lemmas of finite maps,
    never by unfolding an insertion. *)
#[local] Arguments insert : simpl never.

(** Unfolds the plumbing of the effects. *)
Ltac run_monad :=
  unfold bind, try_except, ret, raise, print, emit, of_option, of_sum, get,
    setitem; simpl.

(** ** Properties *)

(** *** Strings *)

Lemma eqb_false_of_ne (a b : string) : a <> b -> String.eqb a b = false.
Proof. intros H. by apply String.eqb_neq. Qed.

(** [b <= a] fails exactly when [a < b]. *)
Lemma leb_false_ltb (a b : string) :
  String.leb b a = false <-> String.ltb a b = true.
Proof.
  unfold String.leb, String.ltb.
  rewrite (String.compare_antisym a b).
  destruct (String.compare b a); simpl; split; congruence.
Qed.

Lemma leb_refl (a : string) : String.leb a a = true.
Proof.
  unfold String.leb. pose proof (String.compare_antisym a a) as H.
  destruct (String.compare a a); try reflexivity. discriminate.
Qed.

Lemma rev_app_nonempty (w acc : string) : acc <> "" -> String.rev_app w acc <> "".
Proof.
  revert acc. induction w as [|c w IH]; intros acc Hacc; simpl; [done|].
  apply IH. discriminate.
Qed.

Lemma rev_nonempty (w : string) : w <> "" -> String.rev w <> "".
Proof.
  destruct w as [|c w]; [done|]. intros _.
  unfold String.rev. simpl. apply rev_app_nonempty. discriminate.
Qed.

Lemma tokens_go_nonempty (s : string) (cur : option string) :
  (forall w, cur = Some w -> w <> "") ->
  Forall (fun t => t <> "") (Py.tokens_go cur s).
Proof.
  revert cur. induction s as [|c s IH]; intros cur Hcur; simpl.
  - destruct cur as [w|]; [|constructor].
    constructor; [|constructor]. apply rev_nonempty. by apply Hcur.
  - destruct (Py.is_space c).
    + destruct cur as [w|].
      * constructor; [apply rev_nonempty; by apply Hcur|].
        apply IH. intros ? [=].
      * apply IH. intros ? [=].
    + apply IH. intros w [= <-]. discriminate.
Qed.

(** A handle read off an index line is never the empty string. *)
Lemma token_nonempty (s : string) (i : nat) (t : string) :
  Py.tokens s !! i = Some t -> t <> "".
Proof.
  intros H. pose proof (tokens_go_nonempty s None) as HF.
  rewrite Forall_forall in HF. apply HF; [intros ? [=]|].
  eapply list_elem_of_lookup_2. exact H.
Qed.

(** *** Address synthesis *)

Lemma get_from_email_fallback (self : LogDir) :
  protocol self ∉ ["aim"; "facebook"; "irc"; "jabber"; "gtalk"; "msn"; "yahoo"] ->
  get_from_email self =
    Py.replace_char " " "_" (unquote (contact self)) +:+ "@" +:+ protocol self.
Proof.
  intros Hp. unfold get_from_email.
  rewrite !eqb_false_of_ne
    by (intros E; apply Hp; rewrite E; repeat constructor).
  rewrite bool_decide_eq_false_2; [done|].
  intros Hin. apply Hp.
  apply elem_of_cons in Hin as [->|Hin]; [repeat constructor|].
  apply elem_of_cons in Hin as [->|Hin]; [repeat constructor|].
  by apply elem_of_nil in Hin.
Qed.

(** [replace], [replace(c, '')] and [in], character by character. *)
Lemma replace_char_map (old new : ascii) (s : string) :
  Py.replace_char old new s =
    string_of_list_ascii
      (map (fun a => if Ascii.eqb a old then new else a)
         (list_ascii_of_string s)).
Proof.
  induction s as [|c s IH]; [reflexivity|]. cbn. by rewrite IH.
Qed.

Lemma remove_char_filter (c : ascii) (s : string) :
  Py.remove_char c s =
    string_of_list_ascii (filter (fun a => a <> c) (list_ascii_of_string s)).
Proof.
  induction s as [|x s IH]; [reflexivity|].
  cbn [Py.remove_char list_ascii_of_string]. rewrite filter_cons.
  destruct (Ascii.eqb_spec x c) as [->|Hx].
  - by rewrite decide_False by (intros H; by apply H).
  - rewrite decide_True by done. cbn. by rewrite IH.
Qed.

Lemma contains_char_elem (c : ascii) (s : string) :
  Py.contains_char c s = true <-> c ∈ list_ascii_of_string s.
Proof.
  induction s as [|x s IH]; cbn.
  - split; [discriminate|]. intros H. by apply elem_of_nil in H.
  - rewrite orb_true_iff, IH, elem_of_cons. split.
    + intros [H|H]; [left|by right]. symmetry. by apply Ascii.eqb_eq.
    + intros [->|H]; [left|by right]. apply Ascii.eqb_refl.
Qed.

(** C8. Address synthesis is a function of protocol and contact alone. With
    [c] the URL-decoded contact in which every space is an underscore and
    every other character is as it was: aim gives [c@aol.com], facebook
    [c@facebook.com], irc the characters of [c] other than ['#'], in
    order, followed by [@irc], jabber and gtalk [c] itself, msn [c] when
    an ['@'] occurs in it and [c@hotmail.com] when none does, yahoo
    [c@yahoo.com], any other protocol [c@protocol]. Two directories with
    the same protocol and contact get the same address, and aim with
    contact bobsmith (which URL-decoding leaves as it is) gives
    bobsmith@aol.com. *)
Theorem get_from_email_table (self : LogDir) :
  let c :=
    string_of_list_ascii
      (map (fun a => if Ascii.eqb a " " then "_"%char else a)
         (list_ascii_of_string (unquote (contact self)))) in
  (protocol self = "aim" -> get_from_email self = c +:+ "@aol.com") /\
  (protocol self = "facebook" -> get_from_email self = c +:+ "@facebook.com") /\
  (protocol self = "irc" ->
     get_from_email self =
       string_of_list_ascii
         (filter (fun a => a <> "#"%char) (list_ascii_of_string c))
       +:+ "@irc") /\
  (protocol self = "jabber" \/ protocol self = "gtalk" ->
     get_from_email self = c) /\
  (protocol self = "msn" ->
     (("@"%char ∈ list_ascii_of_string c) -> get_from_email self = c) /\
     (("@"%char ∉ list_ascii_of_string c) ->
      get_from_email self = c +:+ "@hotmail.com")) /\
  (protocol self = "yahoo" -> get_from_email self = c +:+ "@yahoo.com") /\
  (protocol self ∉ ["aim"; "facebook"; "irc"; "jabber"; "gtalk"; "msn"; "yahoo"] ->
     get_from_email self = c +:+ "@" +:+ protocol self) /\
  (forall other : LogDir,
     protocol other = protocol self -> contact other = contact self ->
     get_from_email other = get_from_email self) /\
  (unquote "bobsmith" = "bobsmith" ->
   protocol self = "aim" -> contact self = "bobsmith" ->
   get_from_email self = "bobsmith@aol.com").
Proof.
  intros c. subst c. rewrite <- replace_char_map.
  split; [|split; [|split; [|split; [|split; [|split; [|split; [|split]]]]]]].
  - intros H. unfold get_from_email. by rewrite H.
  - intros H. unfold get_from_email. by rewrite H.
  - intros H. unfold get_from_email. rewrite H. cbn [String.eqb Ascii.eqb].
    by rewrite remove_char_filter.
  - intros [H|H]; unfold get_from_email; by rewrite H.
  - intros H. unfold get_from_email. rewrite H. cbn. split.
    + intros Hin. apply contains_char_elem in Hin. by rewrite Hin.
    + intros Hnot.
      destruct (Py.contains_char "@" _) eqn:E; [|done].
      by apply contains_char_elem in E.
  - intros H. unfold get_from_email. by rewrite H.
  - apply get_from_email_fallback.
  - intros other Hp Hc. unfold get_from_email. by rewrite Hp, Hc.
  - intros Hu Hp Hc. unfold get_from_email. by rewrite Hp, Hc, Hu.
Qed.

(** *** Skip lists *)

(** C9. Whether a contact is synchronised is decided by the protocol, then
    by the qualified account [protocol:account], then by the qualified
    contact [protocol:account:contact]: the result is the conjunction of the
    three tests in that order, so an unrecognised protocol or a skipped
    account excludes every contact under it, whatever the contact skip set
    holds. The tests have no effect of their own, so the order shows in
    the result alone. *)
Theorem syncable_contact_precedence (self : Configuration)
    (protocol account contact : string) :
  qualified_account_name protocol account = protocol +:+ ":" +:+ account /\
  qualified_contact_name protocol account contact =
    protocol +:+ ":" +:+ account +:+ ":" +:+ contact /\
  syncable_contact self protocol account contact =
    (if bool_decide (protocol ∈ known_chat_types self)
     then if bool_decide (protocol +:+ ":" +:+ account ∈ accounts_to_skip self)
          then false
          else negb (bool_decide
                       (protocol +:+ ":" +:+ account +:+ ":" +:+ contact
                          ∈ contacts_to_skip self))
     else false) /\
  (protocol ∉ known_chat_types self ->
   syncable_contact self protocol account contact = false) /\
  (qualified_account_name protocol account ∈ accounts_to_skip self ->
   syncable_contact self protocol account contact = false) /\
  (syncable_contact self protocol account contact = true <->
   (protocol ∈ known_chat_types self) /\
   (qualified_account_name protocol account ∉ accounts_to_skip self) /\
   (qualified_contact_name protocol account contact ∉ contacts_to_skip self)).
Proof.
  unfold syncable_contact, syncable_account, syncable_protocol,
    qualified_account_name, qualified_contact_name.
  repeat split.
  - repeat case_bool_decide; done.
  - intros H. by rewrite bool_decide_eq_false_2.
  - intros H. rewrite (bool_decide_eq_true_2 _ H). simpl.
    by rewrite andb_false_r.
  - repeat case_bool_decide; simpl; done.
  - repeat case_bool_decide; simpl; try done.
    all: intros _; exfalso; auto.
  - repeat case_bool_decide; simpl; try done.
    all: intros _; exfalso; auto.
  - intros (H1 & H2 & H3).
    rewrite (bool_decide_eq_true_2 _ H1), (bool_decide_eq_false_2 _ H2),
      (bool_decide_eq_false_2 _ H3). done.
Qed.

(** *** Timestamp derivation *)

(** The nested [try] blocks of [get_timestamp], flattened. *)
Lemma get_timestamp_eq (root_name extension file_name : string)
    (s : IMAPServer) :
  get_timestamp root_name extension file_name s =
    if String.eqb extension ".xml" then
      match strptime (Py.last_item (Py.split_char " " root_name))
              "(%Y-%m-%dT%H.%M.%S%z)" with
      | Some d => Outcome (inr d) s []
      | None => timestamp_failure file_name s
      end
    else
      match strptime (Py.re_sub_tz root_name) "%Y-%m-%d.%H%M%S%z" with
      | Some d => Outcome (inr d) s []
      | None =>
          match strptime (Py.re_sub_tz root_name) "%Y-%m-%d.%H%M%S" with
          | Some d => Outcome (inr (localize d)) s []
          | None => timestamp_failure file_name s
          end
      end.
Proof.
  unfold get_timestamp, timestamp_failure.
  destruct (String.eqb extension ".xml"); run_monad.
  - destruct (strptime _ _); reflexivity.
  - destruct (strptime _ "%Y-%m-%d.%H%M%S%z"); simpl; [reflexivity|].
    destruct (strptime _ "%Y-%m-%d.%H%M%S"); reflexivity.
Qed.

(** Deriving a timestamp either succeeds silently or fails with the path
    on stderr, the same way from every state of the server object. *)
Lemma get_timestamp_cases (root_name extension file_name : string) :
  (exists d, forall s,
     get_timestamp root_name extension file_name s = Outcome (inr d) s []) \/
  (forall s, get_timestamp root_name extension file_name s
             = timestamp_failure file_name s).
Proof.
  destruct (String.eqb extension ".xml") eqn:Hx.
  - destruct (strptime (Py.last_item (Py.split_char " " root_name))
                "(%Y-%m-%dT%H.%M.%S%z)") as [d|] eqn:H1.
    + left. exists d. intros s. by rewrite get_timestamp_eq, Hx, H1.
    + right. intros s. by rewrite get_timestamp_eq, Hx, H1.
  - destruct (strptime (Py.re_sub_tz root_name) "%Y-%m-%d.%H%M%S%z")
      as [d|] eqn:H2.
    + left. exists d. intros s. by rewrite get_timestamp_eq, Hx, H2.
    + destruct (strptime (Py.re_sub_tz root_name) "%Y-%m-%d.%H%M%S")
        as [d|] eqn:H3.
      * left. exists (localize d). intros s.
        by rewrite get_timestamp_eq, Hx, H2, H3.
      * right. intros s. by rewrite get_timestamp_eq, Hx, H2, H3.
Qed.

(** C6 (as amended). The format is chosen by the extension, not tried in one
    priority order: for [.xml] only the last space-separated word of the
    stem is parsed, as [(%Y-%m-%dT%H.%M.%S%z)]; for every other
    extension the stem without a trailing [[A-Z]{2}T] is parsed as
    [%Y-%m-%d.%H%M%S%z] and, on a parse error only, as
    [%Y-%m-%d.%H%M%S] localized to the configured zone. When the
    formats of the branch fail, the file path is printed on stderr and the
    parse error is raised again: no default is substituted, nothing else is
    printed, and the server object is untouched. *)
Theorem get_timestamp_by_extension (root_name extension file_name : string)
    (s : IMAPServer) :
  let failure :=
    Outcome (inl ValueError) s
      [Print stderr [PyStr "timezone parsing failure: "; PyStr file_name]] in
  let ts_string := Py.re_sub_tz root_name in
  get_timestamp root_name extension file_name s =
    (if String.eqb extension ".xml" then
       match strptime (Py.last_item (Py.split_char " " root_name))
               "(%Y-%m-%dT%H.%M.%S%z)" with
       | Some d => Outcome (inr d) s []
       | None => failure
       end
     else
       match strptime ts_string "%Y-%m-%d.%H%M%S%z" with
       | Some d => Outcome (inr d) s []
       | None =>
           match strptime ts_string "%Y-%m-%d.%H%M%S" with
           | Some d => Outcome (inr (localize d)) s []
           | None => failure
           end
       end) /\
  (forall e, result (get_timestamp root_name extension file_name s) = inl e ->
     get_timestamp root_name extension file_name s = failure).
Proof.
  intros failure ts_string. subst failure ts_string.
  split; [apply get_timestamp_eq|].
  intros e He.
  destruct (get_timestamp_cases root_name extension file_name) as [[d Hd]|Hf].
  - rewrite Hd in He. discriminate.
  - apply Hf.
Qed.

(** Building a [LogFile] succeeds exactly when its timestamp is derived;
    then nothing is printed and nothing changes. *)
Lemma LogFile_init_ok (log_dir : LogDir) (base_name : string) (s : IMAPServer)
    (f : LogFile) :
  result (LogFile_init log_dir base_name s) = inr f ->
  forall s', LogFile_init log_dir base_name s' = Outcome (inr f) s' [].
Proof.
  intros H s'. unfold LogFile_init in *. unfold bind in *.
  destruct (get_timestamp_cases (Py.splitext base_name).1
              (Py.splitext base_name).2
              (Py.path_join (dir_name log_dir) base_name)) as [[d Hd]|Hf].
  - rewrite Hd in *. simpl in *. injection H as <-. reflexivity.
  - rewrite Hf in H. simpl in H. discriminate.
Qed.

Lemma LogFile_init_fails (log_dir : LogDir) (base_name : string)
    (s : IMAPServer) (e : exn) :
  result (LogFile_init log_dir base_name s) = inl e ->
  LogFile_init log_dir base_name s =
    timestamp_failure (Py.path_join (dir_name log_dir) base_name) s.
Proof.
  intros H. unfold LogFile_init in *. unfold bind in *.
  destruct (get_timestamp_cases (Py.splitext base_name).1
              (Py.splitext base_name).2
              (Py.path_join (dir_name log_dir) base_name)) as [[d Hd]|Hf].
  - rewrite Hd in H. simpl in H. discriminate.
  - rewrite Hf. reflexivity.
Qed.

(** *** Events *)

Lemma imap_commands_app (l k : list event) :
  imap_commands (l ++ k) = imap_commands l ++ imap_commands k.
Proof. apply omap_app. Qed.

Lemma imap_commands_Print (file : stream) (args : list pyval) (l : list event) :
  imap_commands (Print file args :: l) = imap_commands l.
Proof. reflexivity. Qed.

Lemma imap_commands_Imap (c : imap_command) (l : list event) :
  imap_commands (Imap c :: l) = c :: imap_commands l.
Proof. reflexivity. Qed.

Lemma imap_commands_prints (lines : list (list pyval)) (file : stream) :
  imap_commands (map (Print file) lines) = [].
Proof. induction lines as [|x lines IH]; [reflexivity|exact IH]. Qed.

(** *** The start-up inventory *)

Lemma delete_eq (uid : pyval) (s : IMAPServer) :
  delete uid s =
    match exec (server s) (UID_STORE uid "+FLAGS" "(\Deleted)") with
    | None =>
        Outcome (inl IMAP4_error) s [Imap (UID_STORE uid "+FLAGS" "(\Deleted)")]
    | Some c1 =>
        match exec c1 EXPUNGE with
        | None =>
            Outcome (inl IMAP4_error) (set_server s c1)
              [Imap (UID_STORE uid "+FLAGS" "(\Deleted)"); Imap EXPUNGE]
        | Some c2 =>
            Outcome (inr tt) (set_server s c2)
              [Imap (UID_STORE uid "+FLAGS" "(\Deleted)"); Imap EXPUNGE]
        end
    end.
Proof.
  unfold delete, bind, imap.
  destruct (exec (server s) _) as [c1|]; simpl; [|reflexivity].
  destruct (exec c1 EXPUNGE) as [c2|]; reflexivity.
Qed.

(** A delete never touches the inventory, and the first command it issues
    is the UID STORE of its handle. *)
Lemma delete_facts (uid : pyval) (s : IMAPServer) :
  existing_message_ids (final (delete uid s)) = existing_message_ids s /\
  exists rest,
    imap_commands (emitted (delete uid s)) =
      UID_STORE uid "+FLAGS" "(\Deleted)" :: rest /\
    (rest = [] \/ rest = [EXPUNGE]).
Proof.
  rewrite delete_eq.
  destruct (exec (server s) _) as [c1|]; simpl.
  - destruct (exec c1 EXPUNGE); simpl; eauto.
  - eauto.
Qed.

(** A record without a usable modification time: reported and deleted,
    nothing yielded. *)
Lemma get_existing_message_id_repair (r : fetched) (uid : string)
    (s : IMAPServer) :
  Py.tokens (index_line r) !! 2%nat = Some uid ->
  truthy (of_header (hdr_mtime r)) = false ->
  get_existing_message_id r s =
    let report :=
      Print stderr [PyStr "uid "; PyStr uid; PyStr " message-id ";
                    of_header (hdr_message_id r);
                    PyStr " has no mtime, deleted"] in
    let o := delete (PyStr uid) s in
    Outcome (match result o with inl e => inl e | inr _ => inr [] end)
      (final o) (report :: emitted o).
Proof.
  intros Hu Hm. unfold get_existing_message_id.
  rewrite Hu, Hm. run_monad.
  destruct (result (delete (PyStr uid) s)); simpl; [reflexivity|].
  by rewrite app_nil_r.
Qed.

(** A record with a modification time and a Message-ID: one entry, no
    effect. *)
Lemma get_existing_message_id_keep (r : fetched) (uid k m : string)
    (s : IMAPServer) :
  Py.tokens (index_line r) !! 2%nat = Some uid ->
  hdr_mtime r = Some m -> m <> "" ->
  hdr_message_id r = Some k -> k <> "" ->
  get_existing_message_id r s = Outcome (inr [(k, (PyStr uid, PyStr m))]) s [].
Proof.
  intros Hu Hm Hm' Hk Hk'. unfold get_existing_message_id.
  rewrite Hu, Hm, Hk. run_monad.
  by rewrite !eqb_false_of_ne.
Qed.

(** A record with a modification time but no usable Message-ID: no entry,
    no effect. *)
Lemma get_existing_message_id_ignore (r : fetched) (uid : string)
    (s : IMAPServer) :
  Py.tokens (index_line r) !! 2%nat = Some uid ->
  truthy (of_header (hdr_mtime r)) = true ->
  truthy (of_header (hdr_message_id r)) = false ->
  get_existing_message_id r s = Outcome (inr []) s [].
Proof.
  intros Hu Hm Hk. unfold get_existing_message_id.
  rewrite Hu, Hm. run_monad.
  destruct (of_header (hdr_message_id r)) eqn:E; try reflexivity.
  by rewrite Hk.
Qed.

(** Whatever a record yields is an entry read off that very record, with a
    non-empty handle, key and modification time. *)
Lemma get_existing_message_id_yields (r : fetched) (s : IMAPServer)
    (l : list (string * (pyval * pyval))) (k : string) (v : pyval * pyval) :
  result (get_existing_message_id r s) = inr l ->
  (k, v) ∈ l ->
  yields_entry r k v /\ fetched_entry v /\ k <> "".
Proof.
  intros Hres Hin.
  destruct (Py.tokens (index_line r) !! 2%nat) as [uid|] eqn:Hu.
  2:{ unfold get_existing_message_id in Hres. rewrite Hu in Hres.
      simpl in Hres. discriminate. }
  destruct (truthy (of_header (hdr_mtime r))) eqn:Hm.
  - destruct (hdr_mtime r) as [m|] eqn:Em; simpl in Hm; [|discriminate].
    assert (m <> "") as Hm'.
    { intros ->. simpl in Hm. discriminate. }
    destruct (truthy (of_header (hdr_message_id r))) eqn:Hk.
    + destruct (hdr_message_id r) as [k'|] eqn:Ek; simpl in Hk; [|discriminate].
      assert (k' <> "") as Hk'.
      { intros ->. simpl in Hk. discriminate. }
      rewrite (get_existing_message_id_keep r uid k' m s) in Hres by done.
      simpl in Hres. injection Hres as <-.
      apply list_elem_of_singleton in Hin. injection Hin as -> ->.
      split; [|split; [|done]].
      * exists uid, m. done.
      * exists uid, m. split; [done|]. split; [|done].
        by eapply token_nonempty.
    + rewrite (get_existing_message_id_ignore r uid s) in Hres; try done.
      * simpl in Hres. injection Hres as <-. by apply elem_of_nil in Hin.
      * by rewrite Em.
  - rewrite (get_existing_message_id_repair r uid s) in Hres by done.
    simpl in Hres.
    destruct (result (delete (PyStr uid) s)); [discriminate|].
    injection Hres as <-. by apply elem_of_nil in Hin.
Qed.

(** The inventory slot of the object is not written during the pass. *)
Lemma get_existing_message_id_inventory (r : fetched) (s : IMAPServer) :
  existing_message_ids (final (get_existing_message_id r s))
  = existing_message_ids s.
Proof.
  destruct (Py.tokens (index_line r) !! 2%nat) as [uid|] eqn:Hu.
  2:{ unfold get_existing_message_id. rewrite Hu. reflexivity. }
  destruct (truthy (of_header (hdr_mtime r))) eqn:Hm.
  - unfold get_existing_message_id. rewrite Hu, Hm. run_monad.
    repeat (case_match; simpl; try reflexivity).
  - rewrite (get_existing_message_id_repair r uid s) by done. simpl.
    apply delete_facts.
Qed.

(** The turn of a record that carries a modification time issues no
    command and prints nothing. *)
Lemma get_existing_message_id_quiet (r : fetched) (s : IMAPServer)
    (zs : list (string * (pyval * pyval))) :
  truthy (of_header (hdr_mtime r)) = true ->
  result (get_existing_message_id r s) = inr zs ->
  get_existing_message_id r s = Outcome (inr zs) s [].
Proof.
  intros Hm. unfold get_existing_message_id.
  destruct (Py.tokens (index_line r) !! 2%nat) as [uid|]; run_monad;
    [|discriminate].
  rewrite Hm. simpl.
  repeat (case_match; simpl); by intros [= <-].
Qed.

Lemma collect_inventory_quiet (l : list fetched) (s : IMAPServer)
    (pairs : list (string * (pyval * pyval))) :
  (forall r, r ∈ l -> truthy (of_header (hdr_mtime r)) = true) ->
  result (collect l get_existing_message_id s) = inr pairs ->
  collect l get_existing_message_id s = Outcome (inr pairs) s [].
Proof.
  revert pairs. induction l as [|r l IH]; intros pairs Hl; simpl.
  - by intros [= <-].
  - unfold bind.
    destruct (result (get_existing_message_id r s)) as [e|zs] eqn:Hr; simpl;
      [discriminate|].
    rewrite (get_existing_message_id_quiet r s zs) in * by (done || apply Hl; left).
    simpl.
    destruct (result (collect l get_existing_message_id s)) as [e|ws] eqn:Hc;
      simpl; [discriminate|].
    rewrite (IH ws) by (done || intros; apply Hl; by right). simpl.
    by intros [= <-].
Qed.

Lemma bind_ret_r {A} (m : M A) (s : IMAPServer) :
  bind m (fun x => ret x) s = m s.
Proof.
  unfold bind, ret. destruct (m s) as [[e|x] f evs]; simpl; [reflexivity|].
  by rewrite app_nil_r.
Qed.

(** Every pair the pass yields is yielded by the turn of one record. *)
Lemma collect_yields {A B} (body : A -> M (list B)) (l : list A)
    (s : IMAPServer) (ys : list B) (y : B) :
  result (collect l body s) = inr ys -> y ∈ ys ->
  exists x s' zs, x ∈ l /\ result (body x s') = inr zs /\ y ∈ zs.
Proof.
  revert s ys. induction l as [|x l IH]; intros s ys Hres Hin; simpl in Hres.
  - injection Hres as <-. by apply elem_of_nil in Hin.
  - unfold bind in Hres.
    destruct (result (body x s)) as [e|zs] eqn:Hx; simpl in Hres; [discriminate|].
    destruct (result (collect l body (final (body x s)))) as [e|ws] eqn:Hl;
      simpl in Hres; [discriminate|].
    injection Hres as <-.
    apply elem_of_app in Hin as [Hin|Hin].
    + exists x, s, zs. split; [left|done].
    + destruct (IH _ _ Hl Hin) as (x' & s' & zs' & Hx' & Hr' & Hy').
      exists x', s', zs'. split; [by right|done].
Qed.

(** A turn that yields nothing and does nothing can be left out. *)
Lemma collect_skip {A B} (body : A -> M (list B)) (x : A)
    (before after : list A) :
  (forall s, body x s = Outcome (inr []) s []) ->
  forall s, collect (before ++ x :: after) body s
            = collect (before ++ after) body s.
Proof.
  intros Hx. induction before as [|a before IH]; intros s; simpl.
  - unfold bind at 1. rewrite Hx. simpl.
    rewrite (bind_ret_r (collect after body) s).
    by destruct (collect after body s).
  - unfold bind.
    destruct (result (body a s)); simpl; [reflexivity|].
    by rewrite IH.
Qed.

(** The pass completes when the server accepts every command and every
    index line has its handle. *)
Lemma collect_inventory_total (l : list fetched) (s : IMAPServer) :
  (forall c cmd, is_Some (exec c cmd)) ->
  (forall r, r ∈ l -> is_Some (Py.tokens (index_line r) !! 2%nat)) ->
  exists pairs, result (collect l get_existing_message_id s) = inr pairs.
Proof.
  intros Hexec. revert s. induction l as [|r l IH]; intros s Hl; simpl.
  - by eexists.
  - assert (exists zs, result (get_existing_message_id r s) = inr zs) as [zs Hz].
    { destruct (Hl r) as [uid Hu]; [left|].
      destruct (truthy (of_header (hdr_mtime r))) eqn:Hm.
      - unfold get_existing_message_id. rewrite Hu, Hm. run_monad.
        repeat (case_match; simpl; eauto).
      - rewrite (get_existing_message_id_repair r uid s) by done. simpl.
        rewrite delete_eq.
        destruct (Hexec (server s)
                    (UID_STORE (PyStr uid) "+FLAGS" "(\Deleted)")) as [c1 ->].
        destruct (Hexec c1 EXPUNGE) as [c2 ->]. simpl. eauto. }
    destruct (IH (final (get_existing_message_id r s))) as [ws Hw].
    { intros r' Hr'. apply Hl. by right. }
    unfold bind. rewrite Hz. simpl. rewrite Hw. simpl. eauto.
Qed.

(** A key of the dict built from a list of pairs maps to the value of one
    of the pairs with that key. *)
Lemma dict_of_pairs_lookup (pairs : list (string * (pyval * pyval)))
    (k : string) (v : pyval * pyval) :
  dict_of_pairs pairs !! k = Some v -> (k, v) ∈ pairs.
Proof.
  unfold dict_of_pairs.
  assert (forall m : gmap string (pyval * pyval),
            foldl (fun m kv => <[kv.1 := kv.2]> m) m pairs !! k = Some v ->
            (k, v) ∈ pairs \/ m !! k = Some v) as H.
  { induction pairs as [|[k' v'] pairs IH]; intros m Hm; simpl in Hm.
    - by right.
    - destruct (IH _ Hm) as [Hin|Hlk].
      + left. by right.
      + simpl in Hlk. destruct (decide (k' = k)) as [->|Hne].
        * rewrite lookup_insert_eq in Hlk. injection Hlk as ->. left. left.
        * rewrite lookup_insert_ne in Hlk by done. by right. }
  intros Hk. destruct (H ∅ Hk) as [?|Hempty]; [done|].
  by rewrite lookup_empty in Hempty.
Qed.

(** A later pair wins over an earlier one with the same key. *)
Lemma dict_of_pairs_snoc (pairs : list (string * (pyval * pyval)))
    (k : string) (v : pyval * pyval) :
  dict_of_pairs (pairs ++ [(k, v)]) !! k = Some v.
Proof.
  unfold dict_of_pairs. rewrite foldl_app. simpl. apply lookup_insert_eq.
Qed.

(** *** The elements of the answer *)

Lemma bind_ret_l {A B} (x : A) (k : A -> M B) (s : IMAPServer) :
  bind (ret x) k s = k x s.
Proof. unfold bind, ret. cbn. by destruct (k x s). Qed.

(** The turn of a pair is the turn of its record. *)
Lemma get_existing_message_pair (r : fetched) (s : IMAPServer) :
  get_existing_message (FetchPair r) s = get_existing_message_id r s.
Proof. unfold get_existing_message. cbn [unpack_message of_sum]. apply bind_ret_l. Qed.

(** The turn of an element that cannot be unpacked raises at once. *)
Lemma get_existing_message_bad (item : fetch_item) (e : exn) (s : IMAPServer) :
  unpack_message item = inl e ->
  get_existing_message item s = Outcome (inl e) s [].
Proof. intros H. unfold get_existing_message. by rewrite H. Qed.

Lemma unpack_message_cases (item : fetch_item) :
  (exists r, item = FetchPair r) \/ (exists e, unpack_message item = inl e).
Proof.
  destruct item as [r|b|]; [left; by eexists|right|right]; cbn.
  - destruct (Nat.eqb _ _); by eexists.
  - by eexists.
Qed.

(** A turn that does not raise is the turn of a pair. *)
Lemma get_existing_message_ok (item : fetch_item) (s : IMAPServer)
    (zs : list (string * (pyval * pyval))) :
  result (get_existing_message item s) = inr zs -> exists r, item = FetchPair r.
Proof.
  destruct (unpack_message_cases item) as [H|[e He]]; [done|].
  by rewrite (get_existing_message_bad _ _ _ He).
Qed.

(** A pass that completes went over pairs only, and is the pass over
    their records. *)
Lemma collect_completes_pairs (items : list fetch_item) (s : IMAPServer)
    (pairs : list (string * (pyval * pyval))) :
  result (collect items get_existing_message s) = inr pairs ->
  exists l, items = FetchPair <$> l.
Proof.
  revert s pairs. induction items as [|item items IH]; intros s pairs H.
  - by exists [].
  - cbn [collect] in H. unfold bind in H.
    destruct (result (get_existing_message item s)) as [e|zs] eqn:Hx;
      red_state in H; [discriminate|].
    destruct (get_existing_message_ok _ _ _ Hx) as [r ->].
    destruct (result (collect items get_existing_message _)) as [e|ws] eqn:Hl;
      red_state in H; [discriminate|].
    destruct (IH _ _ Hl) as [l ->]. by exists (r :: l).
Qed.

Lemma collect_pairs (l : list fetched) (s : IMAPServer) :
  collect (FetchPair <$> l) get_existing_message s
  = collect l get_existing_message_id s.
Proof.
  revert s. induction l as [|r l IH]; intros s; [reflexivity|].
  rewrite fmap_cons. cbn [collect]. unfold bind.
  rewrite get_existing_message_pair.
  destruct (result (get_existing_message_id r s)); [reflexivity|].
  by rewrite IH.
Qed.

Lemma all_pairs (items : list fetch_item) :
  (forall item, item ∈ items -> exists r, item = FetchPair r) ->
  exists l, items = FetchPair <$> l.
Proof.
  induction items as [|item items IH]; intros H; [by exists []|].
  destruct (H item) as [r ->]; [left|].
  destruct IH as [l ->]; [intros x Hx; apply H; by right|].
  by exists (r :: l).
Qed.

Lemma elem_of_pairs (r : fetched) (l : list fetched) :
  FetchPair r ∈ FetchPair <$> l <-> r ∈ l.
Proof.
  rewrite list_elem_of_fmap. split.
  - by intros (r' & [= ->] & H).
  - intros H. by exists r.
Qed.

(** The start of [get_existing_message_ids], flattened: SELECT, FETCH,
    then the loop over every other element of the answer. *)
Lemma get_existing_message_ids_eq (s : IMAPServer) :
  get_existing_message_ids s =
    let fetch := FETCH "1:*"
      "(UID BODY[HEADER.FIELDS (Message-ID X-Source-File-Modifiedtime)])" in
    match exec (server s) (SELECT (folder s)) with
    | None => Outcome (inl IMAP4_error) s [Imap (SELECT (folder s))]
    | Some c3 =>
        match exec c3 fetch with
        | None =>
            Outcome (inl IMAP4_error) (set_server s c3)
              [Imap (SELECT (folder s)); Imap fetch]
        | Some c4 =>
            let o := collect (Py.every_other (fetch_response c4))
                       get_existing_message (set_server s c4) in
            Outcome (result o) (final o)
              (Imap (SELECT (folder s)) :: Imap fetch :: emitted o)
        end
    end.
Proof.
  unfold get_existing_message_ids, bind, get, imap. red_state.
  destruct (exec (server s) _) as [c3|]; red_state; [|reflexivity].
  destruct (exec c3 _) as [c4|]; red_state; [|reflexivity].
  by destruct (collect _ _ _) as [[e|x] fin evs].
Qed.

(** The constructor, flattened: LOGIN, CREATE, the inventory, the dict. *)
Lemma IMAPServer_init_eq (c : conn) (username password fold flags : string) :
  IMAPServer_init c username password fold flags =
    let s0 := mkIMAPServer c fold flags ∅ 0%nat in
    match exec c (LOGIN username password) with
    | None => Outcome (inl IMAP4_error) s0 [Imap (LOGIN username password)]
    | Some c1 =>
        match exec c1 (CREATE fold) with
        | None =>
            Outcome (inl IMAP4_error) (set_server s0 c1)
              [Imap (LOGIN username password); Imap (CREATE fold)]
        | Some c2 =>
            let o := get_existing_message_ids (set_server s0 c2) in
            match result o with
            | inl e =>
                Outcome (inl e) (final o)
                  (Imap (LOGIN username password) :: Imap (CREATE fold)
                     :: emitted o)
            | inr pairs =>
                Outcome (inr tt)
                  (mkIMAPServer (server (final o)) fold flags
                     (dict_of_pairs pairs) (size (dict_of_pairs pairs)))
                  (Imap (LOGIN username password) :: Imap (CREATE fold)
                     :: emitted o)
            end
        end
    end.
Proof.
  unfold IMAPServer_init, bind, imap. red_state.
  destruct (exec c _) as [c1|]; red_state; [|reflexivity].
  destruct (exec c1 _) as [c2|]; red_state; [|reflexivity].
  destruct (result (get_existing_message_ids _)); red_state; [reflexivity|].
  by rewrite app_nil_r.
Qed.

(** The constructor on a server that accepts the four commands of the
    start-up: the pass over the answer decides the rest. *)
Lemma IMAPServer_init_at (c c1 c2 c3 c4 : conn)
    (username password fold flags : string) :
  exec c (LOGIN username password) = Some c1 ->
  exec c1 (CREATE fold) = Some c2 ->
  exec c2 (SELECT fold) = Some c3 ->
  exec c3 (FETCH "1:*"
             "(UID BODY[HEADER.FIELDS (Message-ID X-Source-File-Modifiedtime)])")
    = Some c4 ->
  IMAPServer_init c username password fold flags =
    let o := collect (Py.every_other (fetch_response c4)) get_existing_message
               (mkIMAPServer c4 fold flags ∅ 0%nat) in
    let start :=
      [Imap (LOGIN username password); Imap (CREATE fold); Imap (SELECT fold);
       Imap (FETCH "1:*"
         "(UID BODY[HEADER.FIELDS (Message-ID X-Source-File-Modifiedtime)])")] in
    match result o with
    | inl e => Outcome (inl e) (final o) (start ++ emitted o)
    | inr pairs =>
        Outcome (inr tt)
          (mkIMAPServer (server (final o)) fold flags
             (dict_of_pairs pairs) (size (dict_of_pairs pairs)))
          (start ++ emitted o)
    end.
Proof.
  intros H1 H2 H3 H4. rewrite IMAPServer_init_eq. cbv zeta. rewrite H1, H2.
  rewrite get_existing_message_ids_eq. cbv zeta. red_state.
  rewrite H3, H4. red_state.
  by destruct (result (collect _ _ _)).
Qed.

(** A constructor that completes had its four commands accepted. *)
Lemma IMAPServer_init_accepted (c : conn)
    (username password fold flags : string) :
  result (IMAPServer_init c username password fold flags) = inr tt ->
  exists c1 c2 c3 c4,
    exec c (LOGIN username password) = Some c1 /\
    exec c1 (CREATE fold) = Some c2 /\
    exec c2 (SELECT fold) = Some c3 /\
    exec c3 (FETCH "1:*"
               "(UID BODY[HEADER.FIELDS (Message-ID X-Source-File-Modifiedtime)])")
      = Some c4.
Proof.
  rewrite IMAPServer_init_eq. cbv zeta.
  destruct (exec c _) as [c1|] eqn:H1; red_state; [|discriminate].
  destruct (exec c1 _) as [c2|] eqn:H2; red_state; [|discriminate].
  rewrite get_existing_message_ids_eq. cbv zeta. red_state.
  destruct (exec c2 _) as [c3|] eqn:H3; red_state; [|discriminate].
  destruct (exec c3 _) as [c4|] eqn:H4; red_state; [|discriminate].
  intros _. by exists c1, c2, c3, c4.
Qed.

(** What the constructor that completes leaves in the object: the answer
    held pairs only, and the inventory is the dict of what the pass over
    their records yielded. *)
Lemma IMAPServer_init_ok (c c1 c2 c3 c4 : conn)
    (username password fold flags : string) :
  exec c (LOGIN username password) = Some c1 ->
  exec c1 (CREATE fold) = Some c2 ->
  exec c2 (SELECT fold) = Some c3 ->
  exec c3 (FETCH "1:*"
             "(UID BODY[HEADER.FIELDS (Message-ID X-Source-File-Modifiedtime)])")
    = Some c4 ->
  result (IMAPServer_init c username password fold flags) = inr tt ->
  exists l pairs,
    let o := collect l get_existing_message_id
               (mkIMAPServer c4 fold flags ∅ 0%nat) in
    Py.every_other (fetch_response c4) = FetchPair <$> l /\
    result o = inr pairs /\
    final (IMAPServer_init c username password fold flags)
      = mkIMAPServer (server (final o)) fold flags (dict_of_pairs pairs)
          (size (dict_of_pairs pairs)) /\
    emitted (IMAPServer_init c username password fold flags) =
      Imap (LOGIN username password) :: Imap (CREATE fold)
        :: Imap (SELECT fold)
        :: Imap (FETCH "1:*"
             "(UID BODY[HEADER.FIELDS (Message-ID X-Source-File-Modifiedtime)])")
        :: emitted o.
Proof.
  intros H1 H2 H3 H4. rewrite (IMAPServer_init_at _ _ _ _ _ _ _ _ _ H1 H2 H3 H4).
  cbv zeta.
  destruct (result (collect (Py.every_other (fetch_response c4)) _ _))
    as [e|pairs] eqn:Hc; red_state; [discriminate|].
  intros _. destruct (collect_completes_pairs _ _ _ Hc) as [l Hl].
  exists l, pairs. rewrite Hl in Hc |- *. rewrite collect_pairs in Hc |- *.
  done.
Qed.

(** The pass completes when the server accepts every command and every
    element it looks at is a pair whose index line has its handle. *)
Lemma IMAPServer_init_total (c : conn) (username password fold flags : string) :
  (forall c cmd, is_Some (exec c cmd)) ->
  (forall c item, item ∈ Py.every_other (fetch_response c) ->
     exists r, item = FetchPair r /\
               is_Some (Py.tokens (index_line r) !! 2%nat)) ->
  result (IMAPServer_init c username password fold flags) = inr tt.
Proof.
  intros Hexec Hrec.
  destruct (Hexec c (LOGIN username password)) as [c1 H1].
  destruct (Hexec c1 (CREATE fold)) as [c2 H2].
  destruct (Hexec c2 (SELECT fold)) as [c3 H3].
  destruct (Hexec c3 (FETCH "1:*"
    "(UID BODY[HEADER.FIELDS (Message-ID X-Source-File-Modifiedtime)])"))
    as [c4 H4].
  rewrite (IMAPServer_init_at _ _ _ _ _ _ _ _ _ H1 H2 H3 H4). cbv zeta.
  destruct (all_pairs (Py.every_other (fetch_response c4))) as [l Hl].
  { intros item Hin. destruct (Hrec c4 item Hin) as (r & -> & _). by eexists. }
  rewrite Hl, collect_pairs.
  destruct (collect_inventory_total l (mkIMAPServer c4 fold flags ∅ 0%nat) Hexec)
    as [pairs ->]; [|reflexivity].
  intros r Hr. apply elem_of_pairs in Hr. rewrite <- Hl in Hr.
  destruct (Hrec c4 _ Hr) as (r' & [= <-] & H). exact H.
Qed.

(** A record whose modification time is missing or empty yields no entry. *)
Lemma no_mtime_no_entry (r : fetched) (k : string) (v : pyval * pyval) :
  truthy (of_header (hdr_mtime r)) = false -> ~ yields_entry r k v.
Proof.
  intros Hm (uid & m & _ & Em & Hne & _). rewrite Em in Hm. simpl in Hm.
  by rewrite eqb_false_of_ne in Hm.
Qed.

Lemma no_message_id_no_entry (r : fetched) (k : string) (v : pyval * pyval) :
  truthy (of_header (hdr_message_id r)) = false -> ~ yields_entry r k v.
Proof.
  intros Hm (uid & m & _ & _ & _ & Ek & Hne & _). rewrite Ek in Hm.
  simpl in Hm. by rewrite eqb_false_of_ne in Hm.
Qed.

Lemma yields_entry_mtime (r : fetched) (k : string) (v : pyval * pyval) :
  yields_entry r k v -> truthy (of_header (hdr_mtime r)) = true.
Proof.
  intros Hy. destruct (truthy (of_header (hdr_mtime r))) eqn:E; [done|].
  by apply (no_mtime_no_entry r k v) in E.
Qed.

(** The entries of a completed pass are entries of records with a
    modification time. *)
Lemma collect_inventory_entries (l : list fetched) (s : IMAPServer)
    (pairs : list (string * (pyval * pyval))) (k : string) (v : pyval * pyval) :
  result (collect l get_existing_message_id s) = inr pairs ->
  (k, v) ∈ pairs ->
  fetched_entry v /\ exists r, r ∈ l /\ yields_entry r k v.
Proof.
  intros Hres Hin.
  destruct (collect_yields _ _ _ _ _ Hres Hin) as (r & s' & zs & Hr & Hz & Hin').
  destruct (get_existing_message_id_yields r s' zs k v Hz Hin') as (Hy & Hf & _).
  split; [done|]. by exists r.
Qed.

Lemma fetched_entry_ok (v : pyval * pyval) : fetched_entry v -> entry_ok v.
Proof. intros H. by left. Qed.

(** Every record of a pass that completes has its handle. *)
Lemma collect_inventory_handles (l : list fetched) (s : IMAPServer)
    (pairs : list (string * (pyval * pyval))) (r : fetched) :
  result (collect l get_existing_message_id s) = inr pairs -> r ∈ l ->
  is_Some (Py.tokens (index_line r) !! 2%nat).
Proof.
  revert s pairs. induction l as [|x l IH]; intros s pairs Hres Hin;
    [by apply elem_of_nil in Hin|].
  cbn [collect] in Hres. unfold bind in Hres.
  destruct (result (get_existing_message_id x s)) as [e|zs] eqn:Hx;
    red_state in Hres; [discriminate|].
  destruct (result (collect l get_existing_message_id _)) as [e|ws] eqn:Hl;
    red_state in Hres; [discriminate|].
  apply elem_of_cons in Hin as [->|Hin]; [|by eapply IH].
  destruct (Py.tokens (index_line x) !! 2%nat) as [uid|] eqn:Hu; [by eexists|].
  unfold get_existing_message_id in Hx. rewrite Hu in Hx. discriminate.
Qed.

(** The commands and the reports of a pass that completes: for each record
    without a modification time, in order, the report, the UID STORE of
    its handle and the EXPUNGE; nothing for the others. *)
Lemma collect_repairs (l : list fetched) (s : IMAPServer)
    (pairs : list (string * (pyval * pyval))) :
  result (collect l get_existing_message_id s) = inr pairs ->
  imap_commands (emitted (collect l get_existing_message_id s))
    = flat_map spec_repair l /\
  forall r uid, r ∈ l -> truthy (of_header (hdr_mtime r)) = false ->
    Py.tokens (index_line r) !! 2%nat = Some uid ->
    Print stderr [PyStr "uid "; PyStr uid; PyStr " message-id ";
                  of_header (hdr_message_id r);
                  PyStr " has no mtime, deleted"]
      ∈ emitted (collect l get_existing_message_id s).
Proof.
  revert s pairs. induction l as [|x l IH]; intros s pairs Hres.
  { split; [reflexivity|]. intros r uid Hr. by apply elem_of_nil in Hr. }
  cbn [collect] in Hres |- *. unfold bind in Hres |- *.
  destruct (result (get_existing_message_id x s)) as [e|zs] eqn:Hx;
    red_state in Hres; [discriminate|].
  destruct (result (collect l get_existing_message_id _)) as [e|ws] eqn:Hl;
    red_state in Hres; [discriminate|].
  red_state. rewrite app_nil_r, imap_commands_app.
  destruct (IH _ _ Hl) as [IHc IHp]. rewrite IHc. cbn [flat_map].
  assert (Hturn :
    imap_commands (emitted (get_existing_message_id x s)) = spec_repair x /\
    forall uid, truthy (of_header (hdr_mtime x)) = false ->
      Py.tokens (index_line x) !! 2%nat = Some uid ->
      Print stderr [PyStr "uid "; PyStr uid; PyStr " message-id ";
                    of_header (hdr_message_id x);
                    PyStr " has no mtime, deleted"]
        ∈ emitted (get_existing_message_id x s)).
  { unfold spec_repair.
    destruct (truthy (of_header (hdr_mtime x))) eqn:Hm.
    - rewrite (get_existing_message_id_quiet x s zs Hm Hx). by split.
    - destruct (Py.tokens (index_line x) !! 2%nat) as [uid|] eqn:Hu.
      2:{ unfold get_existing_message_id in Hx. rewrite Hu in Hx.
          discriminate. }
      revert Hx. rewrite (get_existing_message_id_repair x uid s Hu Hm).
      cbv zeta. rewrite delete_eq.
      destruct (exec (server s) _) as [c1|]; red_state; [|discriminate].
      destruct (exec c1 EXPUNGE) as [c2|]; red_state; [|discriminate].
      intros _. split; [reflexivity|]. intros uid' _ [= <-]. left. }
  destruct Hturn as [-> Hp]. split; [reflexivity|].
  intros r uid Hr Hm Hu. apply elem_of_app.
  apply elem_of_cons in Hr as [->|Hr]; [left; by apply Hp|right].
  by eapply IHp.
Qed.

(** C4. When the four commands of the start-up are accepted and the
    constructor completes, the pass over the answer to the FETCH has sent,
    for each record of the answer whose modification-time header is
    missing (or empty), in the order of the answer, the UID STORE that
    marks its handle deleted and the EXPUNGE, and nothing else: such a
    record is deleted at once, before the next one is looked at. Each of
    them is reported on stderr and yields no inventory entry: every entry
    of the inventory the constructor leaves is read off a record of that
    answer that carries a modification time, and holds its handle and its
    modification time, both non-empty. The skip and replace decisions of
    the run read the inventory only, so a repaired record is behind none
    of them. *)
Theorem inventory_self_repair (c c1 c2 c3 c4 : conn)
    (username password fold flags : string) :
  exec c (LOGIN username password) = Some c1 ->
  exec c1 (CREATE fold) = Some c2 ->
  exec c2 (SELECT fold) = Some c3 ->
  exec c3 (FETCH "1:*"
             "(UID BODY[HEADER.FIELDS (Message-ID X-Source-File-Modifiedtime)])")
    = Some c4 ->
  let o := IMAPServer_init c username password fold flags in
  let records := Py.every_other (fetch_response c4) in
  result o = inr tt ->
  imap_commands (emitted o)
    = LOGIN username password :: CREATE fold :: SELECT fold
        :: FETCH "1:*"
             "(UID BODY[HEADER.FIELDS (Message-ID X-Source-File-Modifiedtime)])"
        :: spec_repairs records /\
  (forall r, FetchPair r ∈ records ->
     truthy (of_header (hdr_mtime r)) = false ->
     (exists uid,
        Py.tokens (index_line r) !! 2%nat = Some uid /\
        (UID_STORE (PyStr uid) "+FLAGS" "(\Deleted)"
           ∈ imap_commands (emitted o)) /\
        (Print stderr [PyStr "uid "; PyStr uid; PyStr " message-id ";
                       of_header (hdr_message_id r);
                       PyStr " has no mtime, deleted"] ∈ emitted o)) /\
     forall k v, ~ yields_entry r k v) /\
  (forall k v, existing_message_ids (final o) !! k = Some v ->
     fetched_entry v /\
     exists r, FetchPair r ∈ records /\
               truthy (of_header (hdr_mtime r)) = true /\
               yields_entry r k v) /\
  inventory_ok (existing_message_ids (final o)).
Proof.
  intros H1 H2 H3 H4 o records Hres. subst o records.
  destruct (IMAPServer_init_ok _ _ _ _ _ _ _ _ _ H1 H2 H3 H4 Hres)
    as (l & pairs & Hl & Hc & -> & ->).
  rewrite Hl. cbv zeta in Hc.
  destruct (collect_repairs _ _ _ Hc) as [Hcmds Hprints].
  assert (Hspec : spec_repairs (FetchPair <$> l) = flat_map spec_repair l).
  { clear. induction l as [|r l IH]; [reflexivity|].
    rewrite fmap_cons. unfold spec_repairs in *. cbn [flat_map].
    by rewrite IH. }
  assert (Hall : forall k v, dict_of_pairs pairs !! k = Some v ->
            fetched_entry v /\
            exists r, FetchPair r ∈ FetchPair <$> l /\
                      truthy (of_header (hdr_mtime r)) = true /\
                      yields_entry r k v).
  { intros k v Hk. apply dict_of_pairs_lookup in Hk.
    destruct (collect_inventory_entries _ _ _ _ _ Hc Hk) as (Hf & r & Hr & Hy).
    split; [done|]. exists r. split; [by apply elem_of_pairs|].
    split; [by eapply yields_entry_mtime|done]. }
  red_state. split; [|split; [|split]].
  - rewrite !imap_commands_Imap, Hcmds, Hspec. reflexivity.
  - intros r Hr Hm. apply elem_of_pairs in Hr. split.
    + destruct (collect_inventory_handles _ _ _ r Hc Hr) as [uid Hu].
      exists uid. split; [done|]. split.
      * rewrite !imap_commands_Imap, Hcmds. do 4 right.
        apply list_elem_of_In, in_flat_map. exists r.
        split; [by apply list_elem_of_In|].
        unfold spec_repair. rewrite Hm, Hu. left. reflexivity.
      * do 4 right. by eapply Hprints.
    + intros k v. by apply no_mtime_no_entry.
  - exact Hall.
  - intros k v Hk. apply fetched_entry_ok. by apply (Hall k v).
Qed.

(** C10. During the start-up pass a fetched record that carries a
    modification time but no (or an empty) Message-ID is passed over in
    silence: no command is issued for it, so it is not deleted, nothing is
    printed, and it yields no inventory entry; the pass yields what it
    would yield had the record not been fetched, so no skip or replace
    decision of the run depends on it. *)
Theorem record_without_message_id_ignored (r : fetched) (uid : string)
    (before after : list fetch_item) (s : IMAPServer) :
  Py.tokens (index_line r) !! 2%nat = Some uid ->
  truthy (of_header (hdr_mtime r)) = true ->
  truthy (of_header (hdr_message_id r)) = false ->
  get_existing_message (FetchPair r) s = Outcome (inr []) s [] /\
  (forall k v, ~ yields_entry r k v) /\
  collect (before ++ FetchPair r :: after) get_existing_message s
    = collect (before ++ after) get_existing_message s.
Proof.
  intros Hu Hm Hk.
  assert (Hturn : forall s', get_existing_message (FetchPair r) s'
                             = Outcome (inr []) s' []).
  { intros s'. rewrite get_existing_message_pair.
    by apply (get_existing_message_id_ignore r uid). }
  split; [|split].
  - apply Hturn.
  - intros k v. by apply no_message_id_no_entry.
  - by apply collect_skip.
Qed.

(** *** The main loop *)

(** The [try] block, flattened: the message is rendered, the entry is
    recorded, the APPEND is issued; a failure of the rendering or of the
    APPEND is reported and raised again. *)
Lemma try_store_eq (config : Configuration) (f : LogFile) (s : IMAPServer) :
  try_store config f s =
    let r := create_email f (text_encodings config) in
    let storing := Print stdout [PyStr "storing "; PyStr (file_name f)] in
    let failed := Print stderr [PyStr "Error storing file "; PyStr (file_name f)] in
    match r.2 with
    | inl e => Outcome (inl e) s (storing :: map (Print stderr) r.1 ++ [failed])
    | inr email =>
        let s1 := set_inventory s
                    (<[message_id f := (PyNone, PyDatetime (timestamp f))]>
                       (existing_message_ids s)) in
        let cmd := APPEND (folder s) (message_flags s) (timestamp f) email in
        match exec (server s) cmd with
        | Some c =>
            Outcome (inr tt) (set_server s1 c)
              (storing :: map (Print stderr) r.1 ++ [Imap cmd])
        | None =>
            Outcome (inl IMAP4_error) s1
              (storing :: map (Print stderr) r.1 ++ [Imap cmd; failed])
        end
    end.
Proof.
  unfold try_store, store, call_create_email, imap, bind, try_except, print,
    emit, raise, ret, get, setitem.
  red_state.
  destruct (create_email f (text_encodings config)) as [lines [e|email]];
    red_state; [reflexivity|].
  destruct (exec (server s) _) as [c|]; red_state; [reflexivity|].
  by rewrite <- app_assoc.
Qed.

(** The body of the loop, flattened. *)
Lemma main_loop_body_eq (config : Configuration) (f : LogFile) (s : IMAPServer) :
  main_loop_body config f s =
    let entry := default (PyNone, PyNone)
                   (existing_message_ids s !! message_id f) in
    if truthy entry.1 then
      match (if truthy entry.2 then py_ge_str entry.2 (file_mtime f)
             else inr false) with
      | inl e => Outcome (inl e) s []
      | inr true => Outcome (inr tt) s []
      | inr false =>
          let report :=
            Print stderr [PyStr "message "; PyStr (file_name f);
                          PyStr " with uid "; entry.1; PyStr " too old (";
                          entry.2; PyStr ") deleting."] in
          let o1 := delete entry.1 s in
          match result o1 with
          | inl e => Outcome (inl e) (final o1) (report :: emitted o1)
          | inr _ =>
              let o2 := try_store config f (final o1) in
              Outcome (result o2) (final o2) (report :: emitted o1 ++ emitted o2)
          end
      end
    else
      let o2 := try_store config f s in
      Outcome (result o2) (final o2)
        (Print stdout [PyStr (file_name f); PyStr " was not found"] :: emitted o2).
Proof.
  unfold main_loop_body. run_monad.
  destruct (truthy (default (PyNone, PyNone) _).1); simpl.
  - destruct (truthy (default (PyNone, PyNone) _).2); simpl.
    + destruct (py_ge_str _ _) as [e|[|]]; simpl; try reflexivity.
      destruct (result (delete _ s)); simpl; [reflexivity|].
      by rewrite app_nil_r.
    + destruct (result (delete _ s)); simpl; [reflexivity|].
      by rewrite app_nil_r.
  - reflexivity.
Qed.

(** A transcript whose inventory entry is current is skipped: nothing is
    printed, nothing is sent, nothing changes. *)
Lemma main_loop_body_skip (config : Configuration) (f : LogFile)
    (s : IMAPServer) (uid m : string) :
  existing_message_ids s !! message_id f = Some (PyStr uid, PyStr m) ->
  uid <> "" -> m <> "" ->
  String.leb (file_mtime f) m = true ->
  main_loop_body config f s = Outcome (inr tt) s [].
Proof.
  intros Hl Hu Hm Hge. rewrite main_loop_body_eq, Hl. simpl.
  by rewrite !eqb_false_of_ne, Hge.
Qed.

(** A transcript whose inventory entry is stale: the entry's handle is
    deleted, then the [try] block runs. *)
Lemma main_loop_body_replace (config : Configuration) (f : LogFile)
    (s : IMAPServer) (uid m : string) :
  existing_message_ids s !! message_id f = Some (PyStr uid, PyStr m) ->
  uid <> "" -> m <> "" ->
  String.leb (file_mtime f) m = false ->
  main_loop_body config f s =
    let report :=
      Print stderr [PyStr "message "; PyStr (file_name f);
                    PyStr " with uid "; PyStr uid; PyStr " too old (";
                    PyStr m; PyStr ") deleting."] in
    let o1 := delete (PyStr uid) s in
    match result o1 with
    | inl e => Outcome (inl e) (final o1) (report :: emitted o1)
    | inr _ =>
        let o2 := try_store config f (final o1) in
        Outcome (result o2) (final o2) (report :: emitted o1 ++ emitted o2)
    end.
Proof.
  intros Hl Hu Hm Hge. rewrite main_loop_body_eq, Hl. simpl.
  by rewrite !eqb_false_of_ne, Hge.
Qed.

(** A transcript with no entry, or with an entry whose handle is [None]:
    the [try] block runs with no delete before it. *)
Lemma main_loop_body_create (config : Configuration) (f : LogFile)
    (s : IMAPServer) :
  (existing_message_ids s !! message_id f = None \/
   exists v, existing_message_ids s !! message_id f = Some (PyNone, v)) ->
  main_loop_body config f s =
    let o2 := try_store config f s in
    Outcome (result o2) (final o2)
      (Print stdout [PyStr (file_name f); PyStr " was not found"] :: emitted o2).
Proof.
  intros [Hl|[v Hl]]; by rewrite main_loop_body_eq, Hl.
Qed.

(** An entry of the inventory with a handle is one of the start-up pass. *)
Lemma entry_with_handle (inv : gmap string (pyval * pyval)) (k : string)
    (uid mtime : pyval) :
  inventory_ok inv -> inv !! k = Some (uid, mtime) -> uid <> PyNone ->
  exists u m, uid = PyStr u /\ mtime = PyStr m /\ u <> "" /\ m <> "".
Proof.
  intros Hok Hl Hu.
  destruct (Hok k _ Hl) as [(u & m & [= -> ->] & ? & ?)|(d & [= -> ->])].
  - by exists u, m.
  - done.
Qed.

(** An entry of the inventory that stores a modification-time string is one
    of the start-up pass. *)
Lemma entry_with_mtime (inv : gmap string (pyval * pyval)) (k : string)
    (uid : pyval) (m : string) :
  inventory_ok inv -> inv !! k = Some (uid, PyStr m) ->
  exists u, uid = PyStr u /\ u <> "" /\ m <> "".
Proof.
  intros Hok Hl.
  destruct (Hok k _ Hl) as [(u & m' & [= -> ->] & ? & ?)|(d & [= ? ?])].
  by exists u.
Qed.

(** C2. For a transcript whose message id is in the inventory with a handle
    (the inventory being one the run can reach): when the stored
    modification time is not below the file's, the transcript is skipped
    with no print, no command and no change; when it is below, the first
    command is the UID STORE that marks the entry's handle deleted, the
    commands issued are a prefix of that STORE, the EXPUNGE and one APPEND
    of the rendered message (cut short only by a failure), and when the
    server accepts them and the rendering succeeds they are exactly these
    three, in this order. *)
Theorem staleness_decision (config : Configuration) (f : LogFile)
    (s : IMAPServer) (uid mtime : pyval) :
  inventory_ok (existing_message_ids s) ->
  existing_message_ids s !! message_id f = Some (uid, mtime) ->
  uid <> PyNone ->
  exists m, mtime = PyStr m /\
    (String.leb (file_mtime f) m = true ->
     main_loop_body config f s = Outcome (inr tt) s []) /\
    (String.ltb m (file_mtime f) = true ->
     let o := main_loop_body config f s in
     let del := UID_STORE uid "+FLAGS" "(\Deleted)" in
     (exists email,
        imap_commands (emitted o) `prefix_of`
          [del; EXPUNGE;
           APPEND (folder s) (message_flags s) (timestamp f) email]) /\
     (exists rest, imap_commands (emitted o) = del :: rest) /\
     (forall c1 c2 c3 lines email,
        exec (server s) del = Some c1 ->
        exec c1 EXPUNGE = Some c2 ->
        create_email f (text_encodings config) = (lines, inr email) ->
        exec c2 (APPEND (folder s) (message_flags s) (timestamp f) email)
          = Some c3 ->
        result o = inr tt /\
        imap_commands (emitted o) =
          [del; EXPUNGE;
           APPEND (folder s) (message_flags s) (timestamp f) email] /\
        server (final o) = c3 /\
        existing_message_ids (final o) =
          <[message_id f := (PyNone, PyDatetime (timestamp f))]>
            (existing_message_ids s))).
Proof.
  intros Hok Hl Hu.
  destruct (entry_with_handle _ _ _ _ Hok Hl Hu) as (u & m & -> & -> & Hu' & Hm').
  exists m. split; [reflexivity|]. split.
  - intros Hge. by apply (main_loop_body_skip config f s u m).
  - intros Hlt o del. subst o del.
    apply leb_false_ltb in Hlt.
    rewrite (main_loop_body_replace config f s u m Hl Hu' Hm' Hlt).
    rewrite delete_eq. cbv zeta.
    destruct (exec (server s) (UID_STORE (PyStr u) "+FLAGS" "(\Deleted)"))
      as [c1|] eqn:H1; simpl.
    2:{ split; [|split].
        - exists "". by eexists.
        - by eexists.
        - intros; discriminate. }
    destruct (exec c1 EXPUNGE) as [c2|] eqn:H2; simpl.
    2:{ split; [|split].
        - exists "". by eexists.
        - by eexists.
        - intros c1' c2' c3' lines' email' E1 E2.
          injection E1 as <-. rewrite H2 in E2. discriminate. }
    rewrite try_store_eq. simpl.
    destruct (create_email f (text_encodings config)) as [lines [e|email]] eqn:Hr;
      simpl.
    { rewrite imap_commands_app, imap_commands_prints. simpl.
      split; [|split].
      - exists "". by eexists.
      - by eexists.
      - intros c1' c2' c3' lines' email' _ _ E3. discriminate. }
    destruct (exec c2 (APPEND (folder s) (message_flags s) (timestamp f) email))
      as [c3|] eqn:H3; simpl;
      rewrite imap_commands_app, imap_commands_prints; simpl.
    + split; [|split].
      * exists email. by exists [].
      * by eexists.
      * intros c1' c2' c3' lines' email' E1 E2 E3 E4.
        injection E1 as <-. rewrite H2 in E2. injection E2 as <-.
        injection E3 as <- <-. rewrite H3 in E4. injection E4 as <-.
        done.
    + split; [|split].
      * exists email. by exists [].
      * by eexists.
      * intros c1' c2' c3' lines' email' E1 E2 E3 E4.
        injection E1 as <-. rewrite H2 in E2. injection E2 as <-.
        injection E3 as <- <-. rewrite H3 in E4. discriminate.
Qed.

(** When no fetched record lacks its modification time, the constructor
    sends the four commands of the start-up and nothing else, and leaves
    the connection as the FETCH left it. *)
Lemma IMAPServer_init_quiet (c c1 c2 c3 c4 : conn)
    (username password fold flags : string) :
  exec c (LOGIN username password) = Some c1 ->
  exec c1 (CREATE fold) = Some c2 ->
  exec c2 (SELECT fold) = Some c3 ->
  exec c3 (FETCH "1:*"
             "(UID BODY[HEADER.FIELDS (Message-ID X-Source-File-Modifiedtime)])")
    = Some c4 ->
  (forall r, FetchPair r ∈ Py.every_other (fetch_response c4) ->
             truthy (of_header (hdr_mtime r)) = true) ->
  result (IMAPServer_init c username password fold flags) = inr tt ->
  emitted (IMAPServer_init c username password fold flags) =
    [Imap (LOGIN username password); Imap (CREATE fold); Imap (SELECT fold);
     Imap (FETCH "1:*"
       "(UID BODY[HEADER.FIELDS (Message-ID X-Source-File-Modifiedtime)])")] /\
  server (final (IMAPServer_init c username password fold flags)) = c4.
Proof.
  intros H1 H2 H3 H4 Hrec Hres.
  destruct (IMAPServer_init_ok _ _ _ _ _ _ _ _ _ H1 H2 H3 H4 Hres)
    as (l & pairs & Hl & Hc & -> & ->).
  cbv zeta in Hc. rewrite (collect_inventory_quiet l _ pairs); [done| |exact Hc].
  intros r Hr. apply Hrec. rewrite Hl. by apply elem_of_pairs.
Qed.

(** *** The generator *)

Lemma bind_ext {A B} (m m' : M A) (k k' : A -> M B) (s : IMAPServer) :
  m s = m' s -> (forall x s', k x s' = k' x s') -> bind m k s = bind m' k' s.
Proof.
  intros Hm Hk. unfold bind. rewrite Hm.
  destruct (result (m' s)); [reflexivity|]. by rewrite Hk.
Qed.

Lemma bind_assoc {A B C} (m : M A) (k : A -> M B) (h : B -> M C)
    (s : IMAPServer) :
  bind (bind m k) h s = bind m (fun x => bind (k x) h) s.
Proof.
  unfold bind. destruct (m s) as [[e|x] fin evs]; red_state; [reflexivity|].
  destruct (k x fin) as [[e|y] fin' evs']; red_state; [reflexivity|].
  by rewrite app_assoc.
Qed.

Lemma for_each_app {A} (l1 l2 : list A) (body : A -> M unit) (s : IMAPServer) :
  for_each (l1 ++ l2) body s
  = bind (for_each l1 body) (fun _ => for_each l2 body) s.
Proof.
  revert s. induction l1 as [|x l1 IH]; intros s; cbn [app for_each].
  - by rewrite bind_ret_l.
  - rewrite bind_assoc. apply bind_ext; [reflexivity|]. intros _ s'. apply IH.
Qed.

Lemma for_each_map {A B} (g : A -> B) (l : list A) (body : B -> M unit)
    (s : IMAPServer) :
  for_each (map g l) body s = for_each l (fun x => body (g x)) s.
Proof.
  revert s. induction l as [|x l IH]; intros s; [reflexivity|].
  cbn [map for_each]. apply bind_ext; [reflexivity|]. intros _ s'. apply IH.
Qed.

(** The generator does what its flattened steps do. *)
Lemma find_log_files_steps (config : Configuration)
    (walked : list (string * list string)) (body : LogFile -> M unit)
    (s : IMAPServer) :
  find_log_files config walked body s
  = run_steps (generator_steps config walked) body s.
Proof.
  unfold find_log_files, run_steps, generator_steps. revert s.
  induction walked as [|d walked IH]; intros s; [reflexivity|].
  cbn [for_each flat_map]. rewrite for_each_app.
  apply bind_ext; [|intros _ s'; apply IH].
  destruct (filter _ d.2) as [|x names]; [reflexivity|].
  destruct (LogDir_init d.1) as [e|log_dir]; [reflexivity|].
  cbn [of_sum]. rewrite bind_ret_l.
  destruct (syncable_contact _ _ _ _); [|reflexivity].
  by rewrite for_each_map.
Qed.

(** The files the generator builds are the log files of the syncable
    directories it walks. *)
Lemma generator_steps_inr (config : Configuration)
    (walked : list (string * list string)) (log_dir : LogDir)
    (base_name : string) :
  inr (log_dir, base_name) ∈ generator_steps config walked <->
  exists d, d ∈ walked /\ base_name ∈ d.2 /\
    is_log_file_name config base_name = true /\
    LogDir_init d.1 = inr log_dir /\
    syncable_contact config (protocol log_dir) (account log_dir)
      (contact log_dir) = true.
Proof.
  unfold generator_steps. rewrite list_elem_of_In, in_flat_map. split.
  - intros (d & Hd & Hin). exists d. split; [by apply list_elem_of_In|].
    destruct (filter _ d.2) as [|x names] eqn:Hf; [done|].
    destruct (LogDir_init d.1) as [e|ld]; [by destruct Hin|].
    destruct (syncable_contact config _ _ _) eqn:Hs; [|done].
    apply in_map_iff in Hin as (bn & [= <- <-] & Hbn).
    apply list_elem_of_In in Hbn. rewrite <- Hf in Hbn.
    apply list_elem_of_filter in Hbn as [Hlog Hbn]. done.
  - intros (d & Hd & Hbn & Hlog & Hld & Hs).
    exists d. split; [by apply list_elem_of_In|].
    assert (base_name ∈ filter (fun x => is_log_file_name config x = true) d.2)
      as Hfl by (by apply list_elem_of_filter).
    destruct (filter _ d.2) as [|x names] eqn:Hf;
      [by apply elem_of_nil in Hfl|].
    rewrite Hld, Hs. apply in_map_iff. exists base_name.
    split; [done|]. by apply list_elem_of_In.
Qed.

Lemma generator_steps_inl (config : Configuration)
    (walked : list (string * list string)) (e : exn) :
  inl e ∈ generator_steps config walked ->
  exists d x, d ∈ walked /\ x ∈ d.2 /\ is_log_file_name config x = true /\
    LogDir_init d.1 = inl e.
Proof.
  unfold generator_steps. rewrite list_elem_of_In, in_flat_map.
  intros (d & Hd & Hin).
  destruct (filter _ d.2) as [|x names] eqn:Hf; [done|].
  assert (x ∈ filter (fun x => is_log_file_name config x = true) d.2)
    as Hx by (rewrite Hf; left).
  apply list_elem_of_filter in Hx as [Hlog Hx].
  exists d, x. split; [by apply list_elem_of_In|]. split; [done|].
  split; [done|].
  destruct (LogDir_init d.1) as [e'|ld].
  - destruct Hin as [[= ->]|[]]. done.
  - destruct (syncable_contact config _ _ _); [|done].
    apply in_map_iff in Hin as (bn & [=] & _).
Qed.

(** Steps whose transcripts are all current in the inventory do nothing
    at all. *)
Lemma run_steps_all_current (config : Configuration)
    (steps : list (exn + LogDir * string)) (s : IMAPServer) :
  inventory_ok (existing_message_ids s) ->
  (forall step, step ∈ steps ->
     exists item f uid,
       step = inr item /\
       result (LogFile_init item.1 item.2 s) = inr f /\
       existing_message_ids s !! message_id f
         = Some (uid, PyStr (file_mtime f))) ->
  run_steps steps (main_loop_body config) s = Outcome (inr tt) s [].
Proof.
  intros Hok. unfold run_steps.
  induction steps as [|step steps IH]; intros Hall; [reflexivity|].
  destruct (Hall step) as (item & f & uid & -> & Hf & Hl); [left|].
  destruct (entry_with_mtime _ _ _ _ Hok Hl) as (u & -> & Hu & Hm).
  cbn [for_each]. unfold bind at 1 2.
  rewrite (LogFile_init_ok _ _ _ _ Hf s). red_state.
  rewrite (main_loop_body_skip config f s u (file_mtime f) Hl Hu Hm).
  2:{ apply leb_refl. }
  red_state. rewrite IH; [reflexivity|].
  intros step' Hin. apply Hall. by right.
Qed.

(** X22. A run against a folder that is current changes nothing there.
    When the four commands of the start-up and the EXPUNGE that follows
    are accepted, the constructor completes, no record of the answer to
    the FETCH lacks its modification time, every directory walked that
    holds a log file name has a [LogDir], and every log file of a
    syncable directory has its message id in the inventory with a stored
    modification time equal to its file's, every transcript is skipped:
    the run sends LOGIN, CREATE, SELECT, FETCH and the one start-up
    EXPUNGE and nothing else (no APPEND, no UID STORE, no further
    EXPUNGE), prints nothing, ends normally and leaves the inventory as
    the start-up built it. *)
Theorem rerun_is_idempotent (config : Configuration) (c c1 c2 c3 c4 c5 : conn)
    (walked : list (string * list string)) :
  exec c (LOGIN (imap_username config) (imap_password config)) = Some c1 ->
  exec c1 (CREATE (imap_folder config)) = Some c2 ->
  exec c2 (SELECT (imap_folder config)) = Some c3 ->
  exec c3 (FETCH "1:*"
             "(UID BODY[HEADER.FIELDS (Message-ID X-Source-File-Modifiedtime)])")
    = Some c4 ->
  exec c4 EXPUNGE = Some c5 ->
  let o0 := IMAPServer_init c (imap_username config) (imap_password config)
              (imap_folder config) (imap_flags config) in
  result o0 = inr tt ->
  (forall r, FetchPair r ∈ Py.every_other (fetch_response c4) ->
             truthy (of_header (hdr_mtime r)) = true) ->
  (forall d x, d ∈ walked -> x ∈ d.2 -> is_log_file_name config x = true ->
     exists log_dir,
       LogDir_init d.1 = inr log_dir /\
       (syncable_contact config (protocol log_dir) (account log_dir)
          (contact log_dir) = true ->
        exists f uid,
          result (LogFile_init log_dir x (final o0)) = inr f /\
          existing_message_ids (final o0) !! message_id f
            = Some (uid, PyStr (file_mtime f)))) ->
  let o := main config c walked in
  result o = inr tt /\
  emitted o =
    [Imap (LOGIN (imap_username config) (imap_password config));
     Imap (CREATE (imap_folder config)); Imap (SELECT (imap_folder config));
     Imap (FETCH "1:*"
       "(UID BODY[HEADER.FIELDS (Message-ID X-Source-File-Modifiedtime)])");
     Imap EXPUNGE] /\
  filter (fun cmd => is_mutation cmd = true) (imap_commands (emitted o))
    = [EXPUNGE] /\
  existing_message_ids (final o) = existing_message_ids (final o0).
Proof.
  intros H1 H2 H3 H4 H5 o0 Hres Hrec Hall o. subst o. unfold main. fold o0.
  rewrite Hres.
  destruct (IMAPServer_init_quiet _ _ _ _ _ _ _ _ _ H1 H2 H3 H4 Hrec Hres)
    as [Hquiet Hserver].
  fold o0 in Hquiet, Hserver.
  assert (Hok : inventory_ok (existing_message_ids (set_server (final o0) c5))).
  { red_state. subst o0.
    destruct (IMAPServer_init_ok _ _ _ _ _ _ _ _ _ H1 H2 H3 H4 Hres)
      as (l & pairs & Hl & Hc & -> & _).
    cbv zeta in Hc. red_state.
    intros k v Hk. apply dict_of_pairs_lookup in Hk. apply fetched_entry_ok.
    by eapply collect_inventory_entries. }
  assert (Hloop : main_loop config walked (set_server (final o0) c5)
                  = Outcome (inr tt) (set_server (final o0) c5) []).
  { unfold main_loop. rewrite find_log_files_steps.
    apply run_steps_all_current; [exact Hok|].
    intros [e|[ld bn]] Hin.
    - apply generator_steps_inl in Hin as (d & x & Hd & Hx & Hlog & He).
      destruct (Hall d x Hd Hx Hlog) as (ld & Hld & _). congruence.
    - apply generator_steps_inr in Hin as (d & Hd & Hx & Hlog & Hld & Hs).
      destruct (Hall d bn Hd Hx Hlog) as (ld' & Hld' & Hf).
      assert (ld' = ld) as -> by congruence.
      destruct (Hf Hs) as (f & uid & Hf' & Hl').
      exists (ld, bn), f, uid. split; [done|]. split; [|exact Hl'].
      cbn [fst snd]. by rewrite (LogFile_init_ok _ _ _ _ Hf'). }
  unfold bind, imap. rewrite Hserver, H5. red_state. rewrite Hloop. red_state.
  rewrite Hquiet. repeat split; reflexivity.
Qed.


(** The [try] block that succeeds has sent exactly one APPEND. *)
Lemma try_store_succeeded (config : Configuration) (f : LogFile)
    (s : IMAPServer) :
  result (try_store config f s) = inr tt ->
  existing_message_ids (final (try_store config f s))
    = <[message_id f := (PyNone, PyDatetime (timestamp f))]>
        (existing_message_ids s) /\
  exists email,
    imap_commands (emitted (try_store config f s))
      = [APPEND (folder s) (message_flags s) (timestamp f) email].
Proof.
  rewrite try_store_eq. cbv zeta.
  destruct (create_email f (text_encodings config)) as [lines [e'|email]]; simpl;
    [discriminate|].
  destruct (exec (server s) _) as [c|]; simpl; [|discriminate].
  intros _. split; [done|]. exists email.
  by rewrite imap_commands_app, imap_commands_prints.
Qed.




(** The body of the loop keeps the inventory within the reachable ones: it
    leaves it alone or records the [(None, timestamp)] of [store]. *)
Lemma main_loop_body_inventory_ok (config : Configuration) (f : LogFile)
    (s : IMAPServer) :
  inventory_ok (existing_message_ids s) ->
  inventory_ok (existing_message_ids (final (main_loop_body config f s))).
Proof.
  intros Hok.
  assert (forall s', existing_message_ids s' = existing_message_ids s ->
            inventory_ok (existing_message_ids (final (try_store config f s'))))
    as Htry.
  { intros s' Hs'. rewrite try_store_eq. cbv zeta.
    destruct (create_email f (text_encodings config)) as [lines [e|email]];
      simpl; [by rewrite Hs'|].
    assert (inventory_ok
              (<[message_id f := (PyNone, PyDatetime (timestamp f))]>
                 (existing_message_ids s'))).
    { rewrite Hs'. apply map_Forall_insert_2; [|done]. right. by eexists. }
    by destruct (exec (server s') _). }
  rewrite main_loop_body_eq. cbv zeta.
  destruct (truthy (default (PyNone, PyNone) _).1); simpl; [|by apply Htry].
  destruct (if truthy _ then _ else _) as [e'|[|]]; simpl; try done.
  pose proof (delete_facts (default (PyNone, PyNone)
                (existing_message_ids s !! message_id f)).1 s) as [Hinv _].
  destruct (result (delete _ s)); simpl; [by rewrite Hinv|].
  by apply Htry.
Qed.

(** So does the whole loop: every inventory a run goes through is a
    reachable one. *)
Lemma main_loop_inventory_ok (config : Configuration)
    (walked : list (string * list string)) (s : IMAPServer) :
  inventory_ok (existing_message_ids s) ->
  inventory_ok (existing_message_ids (final (main_loop config walked s))).
Proof.
  unfold main_loop. rewrite find_log_files_steps. unfold run_steps.
  generalize (generator_steps config walked) as steps. intros steps. revert s.
  induction steps as [|[e|item] steps IH]; intros s Hok; [exact Hok|exact Hok|].
  cbn [for_each]. unfold bind.
  destruct (result (LogFile_init item.1 item.2 s)) as [e|f] eqn:Hf.
  - rewrite (LogFile_init_fails _ _ _ _ Hf). exact Hok.
  - rewrite (LogFile_init_ok _ _ _ _ Hf s). red_state.
    pose proof (main_loop_body_inventory_ok config f s Hok) as Hbody.
    destruct (result (main_loop_body config f s)); red_state; [exact Hbody|].
    by apply IH.
Qed.

(** What [store] records does not stop a later transcript with the same
    message id from being stored again: an entry whose handle is [None] is
    treated as no entry. *)
Lemma main_loop_body_after_store (config : Configuration) (f : LogFile)
    (s : IMAPServer) (v : pyval) :
  existing_message_ids s !! message_id f = Some (PyNone, v) ->
  result (main_loop_body config f s) = inr tt ->
  exists email,
    imap_commands (emitted (main_loop_body config f s))
      = [APPEND (folder s) (message_flags s) (timestamp f) email].
Proof.
  intros Hl. rewrite main_loop_body_create by eauto. simpl.
  intros Hr. by destruct (try_store_succeeded _ _ _ Hr) as [_ ?].
Qed.

(** ** Further properties of the code *)

(** *** Strings, continued *)

Lemma string_app_cons (c : ascii) (s t : string) :
  String c s +:+ t = String c (s +:+ t).
Proof. reflexivity. Qed.

Lemma string_app_nil_l (s : string) : "" +:+ s = s.
Proof. reflexivity. Qed.

Lemma string_app_nil_r (s : string) : s +:+ "" = s.
Proof.
  induction s as [|c s IH]; [reflexivity|].
  by rewrite string_app_cons, IH.
Qed.

Lemma string_app_assoc (a b c : string) : (a +:+ b) +:+ c = a +:+ (b +:+ c).
Proof.
  induction a as [|x a IH]; [reflexivity|].
  by rewrite !string_app_cons, IH.
Qed.

Lemma contains_char_app (c : ascii) (a b : string) :
  Py.contains_char c (a +:+ b) = Py.contains_char c a || Py.contains_char c b.
Proof.
  induction a as [|x a IH]; [reflexivity|].
  rewrite string_app_cons. cbn. rewrite IH. by rewrite orb_assoc.
Qed.

Lemma replace_char_gone (old new : ascii) (s : string) :
  old <> new -> Py.contains_char old (Py.replace_char old new s) = false.
Proof.
  intros Hne. induction s as [|c s IH]; [reflexivity|]. cbn. rewrite IH.
  destruct (Ascii.eqb_spec c old) as [->|Hc].
  - rewrite orb_false_r. apply Ascii.eqb_neq. congruence.
  - rewrite orb_false_r. by apply Ascii.eqb_neq.
Qed.

Lemma remove_char_gone (c : ascii) (s : string) :
  Py.contains_char c (Py.remove_char c s) = false.
Proof.
  induction s as [|x s IH]; [reflexivity|]. cbn.
  destruct (Ascii.eqb_spec x c) as [->|Hx]; [exact IH|].
  cbn. rewrite IH, orb_false_r. by apply Ascii.eqb_neq.
Qed.

Lemma remove_char_keeps_absent (c d : ascii) (s : string) :
  Py.contains_char d s = false ->
  Py.contains_char d (Py.remove_char c s) = false.
Proof.
  induction s as [|x s IH]; [done|]. cbn. intros H.
  apply orb_false_elim in H as [H1 H2].
  destruct (Ascii.eqb x c); [by apply IH|].
  cbn. by rewrite H1, IH.
Qed.

(** *** The shape of the synthesized address *)

(** Closes [p ∉ l] for a literal [p] and a literal list [l] without it. *)
Ltac known_protocol_ne :=
  let H := fresh in
  intros H;
  repeat (apply elem_of_cons in H as [H|H]; [discriminate H|]);
  by apply elem_of_nil in H.

(** X16. For the seven protocols the program knows, the sender address
    holds no space, whatever the contact is; an irc address holds no
    ['#']; and every address but those of jabber and gtalk (the contact
    itself) holds an ['@']. *)
Theorem get_from_email_shape (self : LogDir) :
  (protocol self ∈ ["aim"; "facebook"; "irc"; "jabber"; "gtalk"; "msn"; "yahoo"] ->
   Py.contains_char " " (get_from_email self) = false) /\
  (protocol self = "irc" ->
   Py.contains_char "#" (get_from_email self) = false) /\
  (protocol self ∉ ["jabber"; "gtalk"] ->
   Py.contains_char "@" (get_from_email self) = true).
Proof.
  assert (Hsp : Py.contains_char " "
                  (Py.replace_char " " "_" (unquote (contact self))) = false)
    by (by apply replace_char_gone).
  split; [|split].
  - intros Hin. unfold get_from_email.
    repeat (apply elem_of_cons in Hin as [->|Hin]); cbn;
      rewrite ?contains_char_app, ?Hsp; try reflexivity.
    + by rewrite remove_char_keeps_absent.
    + by rewrite bool_decide_eq_true_2 by (repeat constructor).
    + by rewrite bool_decide_eq_true_2 by (repeat constructor).
    + rewrite bool_decide_eq_false_2 by known_protocol_ne.
      destruct (Py.contains_char "@" _); [exact Hsp|].
      by rewrite contains_char_app, Hsp.
    + rewrite bool_decide_eq_false_2 by known_protocol_ne.
      by rewrite contains_char_app, Hsp.
    + by apply elem_of_nil in Hin.
  - intros Hp. unfold get_from_email. rewrite Hp. cbn.
    by rewrite contains_char_app, remove_char_gone.
  - intros Hnot. unfold get_from_email.
    destruct (String.eqb _ "aim");
      [by rewrite contains_char_app, orb_true_r|].
    destruct (String.eqb _ "facebook");
      [by rewrite contains_char_app, orb_true_r|].
    destruct (String.eqb _ "irc");
      [by rewrite contains_char_app, orb_true_r|].
    rewrite (bool_decide_eq_false_2 _ Hnot).
    destruct (String.eqb _ "msn").
    { destruct (Py.contains_char "@"
                  (Py.replace_char " " "_" (unquote (contact self)))) eqn:E;
        [exact E|].
      by rewrite contains_char_app, orb_true_r. }
    destruct (String.eqb _ "yahoo");
      [by rewrite contains_char_app, orb_true_r|].
    rewrite contains_char_app. cbn. by rewrite orb_true_r.
Qed.

(** *** The fields of a LogFile *)

Lemma substring_all (s : string) : String.substring 0 (String.length s) s = s.
Proof. induction s as [|c s IH]; [reflexivity|]. cbn. by rewrite IH. Qed.

(** Cutting a string at a position within it loses nothing. *)
Lemma substring_split (s : string) (n : nat) :
  (n <= String.length s)%nat ->
  String.substring 0 n s +:+ String.substring n (String.length s - n) s = s.
Proof.
  revert n. induction s as [|c s IH]; intros [|n] Hn; cbn in Hn |- *.
  - reflexivity.
  - lia.
  - by rewrite substring_all.
  - rewrite string_app_cons. f_equal. apply IH. lia.
Qed.

Lemma substring_get (s : string) (n m : nat) (c : ascii) :
  String.get n s = Some c ->
  exists t, String.substring n (S m) s = String c t.
Proof.
  revert n. induction s as [|x s IH]; intros [|n] Hg; cbn in Hg |- *;
    try discriminate.
  - injection Hg as ->. by eexists.
  - by apply IH.
Qed.

(** Where [rfind] lands: on the default, or on an occurrence of the
    character within the string. *)
Lemma rfind_from_spec (c : ascii) (s : string) (i acc : Z) :
  Py.rfind_from c s i acc = acc \/
  (i <= Py.rfind_from c s i acc < i + Py.len s /\
   String.get (Z.to_nat (Py.rfind_from c s i acc - i)) s = Some c).
Proof.
  revert i acc. induction s as [|x s IH]; intros i acc; cbn [Py.rfind_from].
  - by left.
  - unfold Py.len in *. cbn [String.length].
    destruct (IH (i + 1) (if Ascii.eqb x c then i else acc)) as [->|[Hb Hg]].
    + destruct (Ascii.eqb_spec x c) as [->|_]; [|by left].
      right. split; [lia|]. by rewrite Z.sub_diag.
    + right. split; [lia|].
      replace (Z.to_nat (Py.rfind_from c s (i + 1)
                           (if Ascii.eqb x c then i else acc) - i))
        with (S (Z.to_nat (Py.rfind_from c s (i + 1)
                             (if Ascii.eqb x c then i else acc) - (i + 1))))
        by lia.
      exact Hg.
Qed.

(** [root + ext == p], and [ext] is empty or begins with a dot. *)
Lemma splitext_spec (p : string) :
  (Py.splitext p).1 +:+ (Py.splitext p).2 = p /\
  ((Py.splitext p).2 = "" \/ exists e, (Py.splitext p).2 = String "." e).
Proof.
  unfold Py.splitext.
  destruct (_ && _) eqn:Hc; cbn [fst snd].
  2:{ split; [apply string_app_nil_r|by left]. }
  apply andb_prop in Hc as [Hlt _]. apply Z.ltb_lt in Hlt.
  unfold Py.rfind in *.
  destruct (rfind_from_spec "/" p 0 (-1)) as [Hs|[Hs _]];
    destruct (rfind_from_spec "." p 0 (-1)) as [Hd|[Hd Hg]]; try lia.
  - unfold Py.slice, Py.len in *. split.
    + replace (Z.to_nat 0) with 0%nat by lia.
      replace (Z.to_nat (Py.rfind_from "." p 0 (-1) - 0))
        with (Z.to_nat (Py.rfind_from "." p 0 (-1))) by lia.
      replace (Z.to_nat (Z.of_nat (String.length p)
                           - Py.rfind_from "." p 0 (-1)))
        with (String.length p - Z.to_nat (Py.rfind_from "." p 0 (-1)))%nat
        by lia.
      apply substring_split. lia.
    + right.
      replace (Z.to_nat (Py.rfind_from "." p 0 (-1) - 0))
        with (Z.to_nat (Py.rfind_from "." p 0 (-1))) in Hg by lia.
      destruct (Z.to_nat (Z.of_nat (String.length p)
                            - Py.rfind_from "." p 0 (-1))) as [|m] eqn:Em;
        [lia|].
      by apply substring_get.
  - unfold Py.slice, Py.len in *. split.
    + replace (Z.to_nat 0) with 0%nat by lia.
      replace (Z.to_nat (Py.rfind_from "." p 0 (-1) - 0))
        with (Z.to_nat (Py.rfind_from "." p 0 (-1))) by lia.
      replace (Z.to_nat (Z.of_nat (String.length p)
                           - Py.rfind_from "." p 0 (-1)))
        with (String.length p - Z.to_nat (Py.rfind_from "." p 0 (-1)))%nat
        by lia.
      apply substring_split. lia.
    + right.
      replace (Z.to_nat (Py.rfind_from "." p 0 (-1) - 0))
        with (Z.to_nat (Py.rfind_from "." p 0 (-1))) in Hg by lia.
      destruct (Z.to_nat (Z.of_nat (String.length p)
                            - Py.rfind_from "." p 0 (-1))) as [|m] eqn:Em;
        [lia|].
      by apply substring_get.
Qed.

(** What a [LogFile] that gets built is made of. *)
Lemma LogFile_init_inv (log_dir : LogDir) (base_name : string)
    (s : IMAPServer) (f : LogFile) :
  result (LogFile_init log_dir base_name s) = inr f ->
  exists ts,
    (forall s', get_timestamp (Py.splitext base_name).1
                  (Py.splitext base_name).2
                  (Py.path_join (dir_name log_dir) base_name) s'
                = Outcome (inr ts) s' []) /\
    f = mkLogFile log_dir base_name (Py.splitext base_name).1
          (Py.splitext base_name).2
          (Py.path_join (dir_name log_dir) base_name) ts
          (strftime ts "%Y%m%d%H%M%S%z" +:+ "_" +:+ from_email log_dir)
          (get_mtime (Py.path_join (dir_name log_dir) base_name)).
Proof.
  intros H. unfold LogFile_init in H. unfold bind in H.
  destruct (get_timestamp_cases (Py.splitext base_name).1
              (Py.splitext base_name).2
              (Py.path_join (dir_name log_dir) base_name)) as [[d Hd]|Hf].
  - rewrite Hd in H. cbn in H. injection H as <-. by exists d.
  - rewrite Hf in H. cbn in H. discriminate.
Qed.

(** X2. Every [LogFile] that gets built keeps its directory and base name;
    its root name followed by its extension is the base name, the
    extension being empty or beginning with a dot; its file name is the
    directory joined with the base name; its message id is the formatted
    timestamp, an underscore and the sender address of the directory; and
    its modification time is that of the file under its file name. *)
Theorem LogFile_fields (ld : LogDir) (bn : string) (s : IMAPServer)
    (f : LogFile) :
  result (LogFile_init ld bn s) = inr f ->
  log_dir f = ld /\ base_name f = bn /\
  root_name f +:+ extension f = bn /\
  (extension f = "" \/ exists e, extension f = String "." e) /\
  file_name f = Py.path_join (dir_name ld) bn /\
  message_id f =
    strftime (timestamp f) "%Y%m%d%H%M%S%z" +:+ "_" +:+ get_from_email ld /\
  file_mtime f = strftime (localize (getmtime (file_name f))) "%Y%m%d%H%M%S%z".
Proof.
  intros H. destruct (LogFile_init_inv _ _ _ _ H) as (ts & _ & ->).
  cbn [log_dir base_name root_name extension file_name message_id file_mtime
       timestamp].
  destruct (splitext_spec bn) as [Happ Hext]. done.
Qed.


(** *** The catalog *)



(** *** More of the main loop *)

(** The [try] block sends at most one command, an APPEND. *)
Lemma try_store_commands (config : Configuration) (f : LogFile)
    (s : IMAPServer) (cmd : imap_command) :
  cmd ∈ imap_commands (emitted (try_store config f s)) ->
  exists email,
    cmd = APPEND (folder s) (message_flags s) (timestamp f) email.
Proof.
  rewrite try_store_eq. cbv zeta.
  destruct (create_email f (text_encodings config)) as [lines [e|email]];
    red_state.
  - rewrite imap_commands_Print, imap_commands_app, imap_commands_prints.
    intros H. by apply elem_of_nil in H.
  - destruct (exec (server s) _); red_state;
      rewrite imap_commands_Print, imap_commands_app, imap_commands_prints;
      intros H; apply list_elem_of_singleton in H; by exists email.
Qed.

(** The inventory after the body of the loop: as before, or with the
    [(None, timestamp)] of [store] under the message id. *)
Lemma main_loop_body_inventory (config : Configuration) (f : LogFile)
    (s : IMAPServer) :
  existing_message_ids (final (main_loop_body config f s))
    = existing_message_ids s \/
  existing_message_ids (final (main_loop_body config f s))
    = <[message_id f := (PyNone, PyDatetime (timestamp f))]>
        (existing_message_ids s).
Proof.
  assert (forall s', existing_message_ids s' = existing_message_ids s ->
            existing_message_ids (final (try_store config f s'))
              = existing_message_ids s \/
            existing_message_ids (final (try_store config f s'))
              = <[message_id f := (PyNone, PyDatetime (timestamp f))]>
                  (existing_message_ids s)) as Htry.
  { intros s' Hs'. rewrite try_store_eq. cbv zeta.
    destruct (create_email f (text_encodings config)) as [lines [e|email]];
      red_state; [by left|].
    destruct (exec (server s') _); red_state; right; by rewrite Hs'. }
  rewrite main_loop_body_eq. cbv zeta.
  destruct (truthy (default (PyNone, PyNone) _).1); red_state;
    [|by apply Htry].
  destruct (if truthy _ then _ else _) as [e'|[|]]; red_state;
    try (by left).
  pose proof (delete_facts (default (PyNone, PyNone)
                (existing_message_ids s !! message_id f)).1 s) as [Hinv _].
  destruct (result (delete _ s)); red_state; [by left|].
  by apply Htry.
Qed.

(** X5. A transcript whose message id is not in the inventory is created:
    the body of the loop never sends a delete for it; when the rendering
    succeeds it sends exactly one APPEND, of the rendered message with the
    timestamp of the transcript, and records [(None, timestamp)] under the
    message id whether or not the server accepts the APPEND; it ends
    normally exactly when the server accepts. *)
Theorem absent_transcript_is_created (config : Configuration) (f : LogFile)
    (s : IMAPServer) :
  existing_message_ids s !! message_id f = None ->
  let o := main_loop_body config f s in
  (forall cmd, cmd ∈ imap_commands (emitted o) -> is_append cmd = true) /\
  (forall lines email,
     create_email f (text_encodings config) = (lines, inr email) ->
     imap_commands (emitted o)
       = [APPEND (folder s) (message_flags s) (timestamp f) email] /\
     existing_message_ids (final o)
       = <[message_id f := (PyNone, PyDatetime (timestamp f))]>
           (existing_message_ids s) /\
     (result o = inr tt <->
      is_Some (exec (server s)
                 (APPEND (folder s) (message_flags s) (timestamp f) email)))).
Proof.
  intros Hl o. subst o. rewrite main_loop_body_create by (by left).
  cbv zeta. red_state. rewrite imap_commands_Print. split.
  - intros cmd Hc. by destruct (try_store_commands _ _ _ _ Hc) as [email ->].
  - intros lines email Hr. rewrite try_store_eq, Hr. cbv zeta. red_state.
    destruct (exec (server s) _) as [c|]; red_state;
      rewrite imap_commands_Print, imap_commands_app, imap_commands_prints.
    + repeat split; first [done | by eexists].
    + repeat split; first [done | intros [? [=]]].
Qed.

(** X6. When the rendering of a transcript fails, no APPEND is sent and the
    inventory is left as it was. For a transcript that is created the
    failure is reported and raised again with nothing sent at all; for a
    stale one whose delete the server accepted, the remote message is
    already gone: the commands are the UID STORE and the EXPUNGE alone,
    and the inventory still lists the deleted handle. *)
Theorem rendering_failure (config : Configuration) (f : LogFile)
    (s : IMAPServer) (lines : list (list pyval)) (e : exn) :
  create_email f (text_encodings config) = (lines, inl e) ->
  let o := main_loop_body config f s in
  existing_message_ids (final o) = existing_message_ids s /\
  (forall cmd, cmd ∈ imap_commands (emitted o) -> is_append cmd = false) /\
  (existing_message_ids s !! message_id f = None ->
   result o = inl e /\ imap_commands (emitted o) = [] /\
   last (emitted o)
     = Some (Print stderr [PyStr "Error storing file "; PyStr (file_name f)])) /\
  (forall uid m c1 c2,
     existing_message_ids s !! message_id f = Some (PyStr uid, PyStr m) ->
     uid <> "" -> m <> "" -> String.ltb m (file_mtime f) = true ->
     exec (server s) (UID_STORE (PyStr uid) "+FLAGS" "(\Deleted)") = Some c1 ->
     exec c1 EXPUNGE = Some c2 ->
     result o = inl e /\
     imap_commands (emitted o)
       = [UID_STORE (PyStr uid) "+FLAGS" "(\Deleted)"; EXPUNGE] /\
     existing_message_ids (final o) !! message_id f
       = Some (PyStr uid, PyStr m)).
Proof.
  intros Hr o. subst o.
  assert (Htry : forall s',
            try_store config f s' =
              Outcome (inl e) s'
                (Print stdout [PyStr "storing "; PyStr (file_name f)]
                   :: map (Print stderr) lines
                   ++ [Print stderr [PyStr "Error storing file ";
                                     PyStr (file_name f)]])).
  { intros s'. by rewrite try_store_eq, Hr. }
  split; [|split; [|split]].
  - rewrite main_loop_body_eq. cbv zeta.
    destruct (truthy (default (PyNone, PyNone) _).1); red_state;
      [|by rewrite Htry].
    destruct (if truthy _ then _ else _) as [e'|[|]]; red_state; try done.
    pose proof (delete_facts (default (PyNone, PyNone)
                  (existing_message_ids s !! message_id f)).1 s) as [Hinv _].
    destruct (result (delete _ s)); red_state; [done|].
    by rewrite Htry.
  - intros cmd. rewrite main_loop_body_eq. cbv zeta.
    destruct (truthy (default (PyNone, PyNone) _).1); red_state.
    + destruct (if truthy _ then _ else _) as [e'|[|]]; red_state;
        try (intros H; by apply elem_of_nil in H).
      rewrite delete_eq.
      destruct (exec (server s) _) as [c1|]; red_state.
      * destruct (exec c1 EXPUNGE) as [c2|]; red_state; rewrite ?Htry;
          red_state;
          rewrite imap_commands_Print, !imap_commands_Imap,
            ?imap_commands_Print, ?imap_commands_app, ?imap_commands_prints;
          cbn [imap_commands omap list_omap app];
          intros H; repeat (apply elem_of_cons in H as [->|H]; [done|]);
          by apply elem_of_nil in H.
      * rewrite imap_commands_Print, imap_commands_Imap.
        intros H. apply list_elem_of_singleton in H. by subst.
    + rewrite Htry. red_state.
      rewrite !imap_commands_Print, imap_commands_app, imap_commands_prints.
      intros H. by apply elem_of_nil in H.
  - intros Hl. rewrite main_loop_body_create by (by left).
    cbv zeta. rewrite Htry. red_state.
    rewrite !imap_commands_Print, imap_commands_app, imap_commands_prints.
    repeat split.
    by rewrite !app_comm_cons, last_snoc.
  - intros uid m c1 c2 Hl Hu Hm Hlt H1 H2.
    apply leb_false_ltb in Hlt.
    rewrite (main_loop_body_replace config f s uid m Hl Hu Hm Hlt).
    rewrite delete_eq, H1, H2. cbv zeta. red_state. rewrite Htry. red_state.
    rewrite imap_commands_Print, !imap_commands_Imap, imap_commands_Print,
      imap_commands_app, imap_commands_prints.
    done.
Qed.

(** The commands of the body of the loop: deletes and appends only, and a
    UID STORE only for the handle the inventory holds for the message id
    of the transcript. *)
Lemma main_loop_body_commands (config : Configuration) (f : LogFile)
    (s : IMAPServer) (cmd : imap_command) :
  cmd ∈ imap_commands (emitted (main_loop_body config f s)) ->
  is_mutation cmd = true /\
  (forall uid item flags, cmd = UID_STORE uid item flags ->
     truthy uid = true /\
     exists m, existing_message_ids s !! message_id f = Some (uid, m)).
Proof.
  assert (Htry : forall s',
            cmd ∈ imap_commands (emitted (try_store config f s')) ->
            is_mutation cmd = true /\
            (forall uid item flags, cmd = UID_STORE uid item flags ->
               truthy uid = true /\
               exists m, existing_message_ids s !! message_id f
                         = Some (uid, m))).
  { intros s' Hc. destruct (try_store_commands _ _ _ _ Hc) as [email ->].
    split; [reflexivity|]. intros; discriminate. }
  rewrite main_loop_body_eq. cbv zeta.
  destruct (existing_message_ids s !! message_id f) as [[u m]|] eqn:Hl;
    cbn [default from_option id fst snd].
  2:{ cbn [truthy]. red_state. rewrite imap_commands_Print. apply Htry. }
  destruct (truthy u) eqn:Hu; red_state.
  2:{ rewrite imap_commands_Print. apply Htry. }
  destruct (if truthy m then _ else _) as [e'|[|]]; red_state;
    try (intros H; by apply elem_of_nil in H).
  assert (Hdel : is_mutation (UID_STORE u "+FLAGS" "(\Deleted)") = true /\
            (forall uid item flags,
               UID_STORE u "+FLAGS" "(\Deleted)" = UID_STORE uid item flags ->
               truthy uid = true /\ exists m0, Some (u, m) = Some (uid, m0))).
  { split; [reflexivity|]. intros uid item flags [= <- _ _]. eauto. }
  assert (Hexp : is_mutation EXPUNGE = true /\
            (forall uid item flags, EXPUNGE = UID_STORE uid item flags ->
               truthy uid = true /\ exists m0, Some (u, m) = Some (uid, m0))).
  { split; [reflexivity|]. intros; discriminate. }
  rewrite delete_eq.
  destruct (exec (server s) _) as [c1|]; red_state.
  - destruct (exec c1 EXPUNGE) as [c2|]; red_state;
      rewrite imap_commands_Print, !imap_commands_Imap.
    + intros H. apply elem_of_cons in H as [->|H]; [exact Hdel|].
      apply elem_of_cons in H as [->|H]; [exact Hexp|].
      destruct (Htry _ H) as [Hm Hst]. split; [exact Hm|].
      intros uid item flags E. destruct (Hst uid item flags E) as [? [m0 Hm0]].
      eauto.
    + intros H. apply elem_of_cons in H as [->|H]; [exact Hdel|].
      apply list_elem_of_singleton in H as ->. exact Hexp.
  - rewrite imap_commands_Print, imap_commands_Imap.
    intros H. apply list_elem_of_singleton in H as ->. exact Hdel.
Qed.

(** The commands of an iteration: those of the bodies of the files its
    steps build. *)
Lemma run_steps_commands (config : Configuration)
    (steps : list (exn + LogDir * string)) (s : IMAPServer)
    (cmd : imap_command) :
  cmd ∈ imap_commands (emitted (run_steps steps (main_loop_body config) s)) ->
  is_mutation cmd = true /\
  (forall uid item flags, cmd = UID_STORE uid item flags ->
     truthy uid = true /\
     exists it f m,
       inr it ∈ steps /\ result (LogFile_init it.1 it.2 s) = inr f /\
       existing_message_ids s !! message_id f = Some (uid, m)).
Proof.
  unfold run_steps. revert s.
  induction steps as [|[e|it] steps IH]; intros s Hc.
  { cbn in Hc. by apply elem_of_nil in Hc. }
  { cbn in Hc. by apply elem_of_nil in Hc. }
  cbn [for_each] in Hc. unfold bind in Hc.
  destruct (result (LogFile_init it.1 it.2 s)) as [e|f] eqn:Hf.
  { rewrite (LogFile_init_fails _ _ _ _ Hf) in Hc. cbn in Hc.
    by apply elem_of_nil in Hc. }
  rewrite (LogFile_init_ok _ _ _ _ Hf s) in Hc. red_state in Hc.
  assert (Hbody : cmd ∈ imap_commands (emitted (main_loop_body config f s)) ->
            is_mutation cmd = true /\
            (forall uid item flags, cmd = UID_STORE uid item flags ->
               truthy uid = true /\
               exists it0 f0 m,
                 inr it0 ∈ inr it :: steps /\
                 result (LogFile_init it0.1 it0.2 s) = inr f0 /\
                 existing_message_ids s !! message_id f0 = Some (uid, m))).
  { intros H. destruct (main_loop_body_commands _ _ _ _ H) as [Hm Hst].
    split; [exact Hm|]. intros uid item flags E.
    destruct (Hst uid item flags E) as [Hu [m Hl]].
    split; [exact Hu|]. exists it, f, m. split; [left|done]. }
  destruct (result (main_loop_body config f s)) eqn:Hres; red_state in Hc;
    [by apply Hbody|].
  rewrite imap_commands_app in Hc. apply elem_of_app in Hc as [Hc|Hc];
    [by apply Hbody|].
  destruct (IH _ Hc) as [Hm Hst]. split; [exact Hm|].
  intros uid item flags E.
  destruct (Hst uid item flags E) as [Hu (it0 & f0 & m & Hin & Hf0 & Hl)].
  split; [exact Hu|]. exists it0, f0, m. split; [by right|].
  split.
  { by rewrite (LogFile_init_ok _ _ _ _ Hf0 s). }
  destruct (main_loop_body_inventory config f s) as [Hinv|Hinv];
    rewrite Hinv in Hl; [exact Hl|].
  destruct (decide (message_id f = message_id f0)) as [Heq|Hne].
  - rewrite Heq, lookup_insert_eq in Hl. injection Hl as <- _.
    discriminate.
  - by rewrite lookup_insert_ne in Hl.
Qed.

(** X10. The loop talks to the server in deletes and appends only, and
    every UID STORE it sends carries a handle that the inventory the loop
    started with holds under the message id of a log file of one of the
    directories walked. *)
Theorem loop_deletes_only_catalogued (config : Configuration)
    (walked : list (string * list string)) (s : IMAPServer)
    (cmd : imap_command) :
  cmd ∈ imap_commands (emitted (main_loop config walked s)) ->
  is_mutation cmd = true /\
  (forall uid item flags, cmd = UID_STORE uid item flags ->
     truthy uid = true /\
     exists d log_dir base_name f m,
       d ∈ walked /\ base_name ∈ d.2 /\
       is_log_file_name config base_name = true /\
       LogDir_init d.1 = inr log_dir /\
       result (LogFile_init log_dir base_name s) = inr f /\
       existing_message_ids s !! message_id f = Some (uid, m)).
Proof.
  unfold main_loop. rewrite find_log_files_steps. intros Hc.
  destruct (run_steps_commands _ _ _ _ Hc) as [Hm Hst].
  split; [exact Hm|]. intros uid item flags E.
  destruct (Hst uid item flags E) as [Hu ([ld bn] & f & m & Hin & Hf & Hl)].
  split; [exact Hu|].
  apply generator_steps_inr in Hin as (d & Hd & Hbn & Hlog & Hld & _).
  by exists d, ld, bn, f, m.
Qed.

(** *** More of the start-up *)

Lemma foldl_insert_other (pairs : list (string * (pyval * pyval)))
    (m : gmap string (pyval * pyval)) (k : string) :
  k ∉ pairs.*1 ->
  foldl (fun m kv => <[kv.1 := kv.2]> m) m pairs !! k = m !! k.
Proof.
  revert m. induction pairs as [|[k' v'] pairs IH]; intros m Hk; [done|].
  cbn in Hk. apply not_elem_of_cons in Hk as [Hne Hk].
  cbn [foldl]. rewrite IH by done. cbn [fst snd].
  by rewrite lookup_insert_ne.
Qed.

(** The value of the last pair with a key is what the dict holds. *)
Lemma dict_of_pairs_at_last (before after : list (string * (pyval * pyval)))
    (k : string) (v : pyval * pyval) :
  k ∉ after.*1 ->
  dict_of_pairs (before ++ (k, v) :: after) !! k = Some v.
Proof.
  intros Hk. unfold dict_of_pairs.
  rewrite foldl_app. cbn [foldl]. rewrite foldl_insert_other by done.
  cbn [fst snd]. apply lookup_insert_eq.
Qed.

Lemma last_pair_with_key (pairs : list (string * (pyval * pyval)))
    (k : string) :
  k ∈ pairs.*1 ->
  exists before after v, pairs = before ++ (k, v) :: after /\ k ∉ after.*1.
Proof.
  induction pairs as [|[k' v'] pairs IH]; intros Hin;
    [by apply elem_of_nil in Hin|].
  destruct (decide (k ∈ pairs.*1)) as [Hin'|Hnot].
  - destruct (IH Hin') as (before & after & v & -> & Hk).
    by exists ((k', v') :: before), after, v.
  - cbn in Hin. apply elem_of_cons in Hin as [->|Hin]; [|done].
    by exists [], pairs, v'.
Qed.

Lemma dict_of_pairs_none (pairs : list (string * (pyval * pyval)))
    (k : string) :
  dict_of_pairs pairs !! k = None <-> k ∉ pairs.*1.
Proof.
  split.
  - intros Hnone Hin.
    destruct (last_pair_with_key pairs k Hin) as (before & after & v & -> & Hk).
    by rewrite dict_of_pairs_at_last in Hnone.
  - intros Hk. unfold dict_of_pairs. rewrite foldl_insert_other by done.
    apply lookup_empty.
Qed.

(** X7. The dict built from the pairs the inventory yields maps a key to
    the value of the last pair with that key (a later message with the
    same Message-ID replaces an earlier one), and has no entry for a key
    that no pair carries. *)
Theorem dict_of_pairs_last (pairs : list (string * (pyval * pyval)))
    (k : string) :
  (forall before after v,
     pairs = before ++ (k, v) :: after -> k ∉ after.*1 ->
     dict_of_pairs pairs !! k = Some v) /\
  (dict_of_pairs pairs !! k = None <-> k ∉ pairs.*1).
Proof.
  split.
  - intros before after v -> Hk. by apply dict_of_pairs_at_last.
  - apply dict_of_pairs_none.
Qed.

(** Every record with a handle, a modification time and a Message-ID has
    its entry among the pairs of a pass that completes. *)
Lemma collect_inventory_complete (l : list fetched) (s : IMAPServer)
    (pairs : list (string * (pyval * pyval))) (r : fetched) (k : string)
    (v : pyval * pyval) :
  result (collect l get_existing_message_id s) = inr pairs ->
  r ∈ l -> yields_entry r k v -> (k, v) ∈ pairs.
Proof.
  revert s pairs. induction l as [|x l IH]; intros s pairs Hres Hin Hy;
    [by apply elem_of_nil in Hin|].
  cbn [collect] in Hres. unfold bind in Hres.
  destruct (result (get_existing_message_id x s)) as [e|zs] eqn:Hx;
    red_state in Hres; [discriminate|].
  destruct (result (collect l get_existing_message_id
                      (final (get_existing_message_id x s))))
    as [e|ws] eqn:Hl; red_state in Hres; [discriminate|].
  cbn in Hres. injection Hres as <-.
  apply elem_of_cons in Hin as [->|Hin].
  - destruct Hy as (uid & m & Hu & Hm & Hm' & Hk & Hk' & ->).
    rewrite (get_existing_message_id_keep x uid k m s) in Hx by done.
    cbn in Hx. injection Hx as <-. apply elem_of_app. left. left.
  - apply elem_of_app. right. by eapply IH.
Qed.

(** X21. After a start-up that completes, the inventory has an entry for
    exactly the Message-IDs of the records of the FETCH answer that carry
    a handle, a non-empty modification time and a non-empty Message-ID,
    and [num_stored_messages] is the number of its entries (of distinct
    Message-IDs, not of messages). *)
Theorem inventory_keys (c c1 c2 c3 c4 : conn)
    (username password fold flags : string) :
  exec c (LOGIN username password) = Some c1 ->
  exec c1 (CREATE fold) = Some c2 ->
  exec c2 (SELECT fold) = Some c3 ->
  exec c3 (FETCH "1:*"
             "(UID BODY[HEADER.FIELDS (Message-ID X-Source-File-Modifiedtime)])")
    = Some c4 ->
  let o := IMAPServer_init c username password fold flags in
  result o = inr tt ->
  num_stored_messages (final o) = size (existing_message_ids (final o)) /\
  forall k, is_Some (existing_message_ids (final o) !! k) <->
            exists r v, FetchPair r ∈ Py.every_other (fetch_response c4) /\
                        yields_entry r k v.
Proof.
  intros H1 H2 H3 H4 o Hres. subst o.
  destruct (IMAPServer_init_ok _ _ _ _ _ _ _ _ _ H1 H2 H3 H4 Hres)
    as (l & pairs & Hl & Hc & -> & _).
  cbv zeta in Hc. rewrite Hl. red_state. split; [done|]. intros k. split.
  - intros [v Hv]. apply dict_of_pairs_lookup in Hv.
    destruct (collect_inventory_entries _ _ _ _ _ Hc Hv) as (_ & r & Hr & Hy).
    exists r, v. split; [by apply elem_of_pairs|done].
  - intros (r & v & Hr & Hy). apply elem_of_pairs in Hr.
    pose proof (collect_inventory_complete _ _ _ _ _ _ Hc Hr Hy) as Hin.
    destruct (dict_of_pairs pairs !! k) as [w|] eqn:E; [by eexists|].
    apply dict_of_pairs_none in E. exfalso. apply E.
    apply list_elem_of_fmap. by exists (k, v).
Qed.

(** The turn of one record sends nothing but the UID STORE and the
    EXPUNGE of a delete. *)
Lemma get_existing_message_id_commands (r : fetched) (s : IMAPServer)
    (cmd : imap_command) :
  cmd ∈ imap_commands (emitted (get_existing_message_id r s)) ->
  is_append cmd = false.
Proof.
  destruct (Py.tokens (index_line r) !! 2%nat) as [uid|] eqn:Hu.
  2:{ unfold get_existing_message_id. rewrite Hu. cbn.
      intros H. by apply elem_of_nil in H. }
  destruct (truthy (of_header (hdr_mtime r))) eqn:Hm.
  - unfold get_existing_message_id. rewrite Hu, Hm. run_monad.
    repeat (case_match; cbn); intros Hin; by apply elem_of_nil in Hin.
  - rewrite (get_existing_message_id_repair r uid s Hu Hm). cbv zeta.
    red_state. rewrite imap_commands_Print.
    destruct (delete_facts (PyStr uid) s) as [_ (rest & -> & [->| ->])];
      intros Hin;
      repeat (apply elem_of_cons in Hin as [->|Hin]; [done|]);
      by apply elem_of_nil in Hin.
Qed.

Lemma get_existing_message_commands (item : fetch_item) (s : IMAPServer)
    (cmd : imap_command) :
  cmd ∈ imap_commands (emitted (get_existing_message item s)) ->
  is_append cmd = false.
Proof.
  destruct (unpack_message_cases item) as [[r ->]|[e He]].
  - rewrite get_existing_message_pair. apply get_existing_message_id_commands.
  - rewrite (get_existing_message_bad _ _ _ He). cbn.
    intros H. by apply elem_of_nil in H.
Qed.

Lemma collect_inventory_commands (l : list fetch_item) (s : IMAPServer)
    (cmd : imap_command) :
  cmd ∈ imap_commands (emitted (collect l get_existing_message s)) ->
  is_append cmd = false.
Proof.
  revert s. induction l as [|r l IH]; intros s; cbn [collect].
  { cbn. intros H. by apply elem_of_nil in H. }
  unfold bind.
  destruct (result (get_existing_message r s)); red_state;
    [apply get_existing_message_commands|].
  destruct (result (collect l get_existing_message _)); red_state;
    rewrite ?app_nil_r, imap_commands_app;
    intros H; apply elem_of_app in H as [H|H];
    first [by eapply get_existing_message_commands | by eapply IH].
Qed.

(** X8. A start-up that fails ends the run where it failed: neither the
    start-up EXPUNGE nor any transcript follows. The start-up itself sends
    no APPEND, and when the LOGIN is refused the LOGIN is all the run
    did. *)
Theorem startup_failure_is_fatal (config : Configuration) (c : conn)
    (walked : list (string * list string)) :
  let o0 := IMAPServer_init c (imap_username config) (imap_password config)
              (imap_folder config) (imap_flags config) in
  (forall e, result o0 = inl e -> main config c walked = o0) /\
  (forall cmd, cmd ∈ imap_commands (emitted o0) -> is_append cmd = false) /\
  (exec c (LOGIN (imap_username config) (imap_password config)) = None ->
   result (main config c walked) = inl IMAP4_error /\
   emitted (main config c walked)
     = [Imap (LOGIN (imap_username config) (imap_password config))]).
Proof.
  intros o0. split; [|split].
  - intros e He. unfold main. fold o0. by rewrite He.
  - intros cmd. subst o0. rewrite IMAPServer_init_eq. cbv zeta.
    destruct (exec c _) as [c1|]; red_state.
    2:{ cbn. intros H. apply list_elem_of_singleton in H. by subst. }
    destruct (exec c1 _) as [c2|]; red_state.
    2:{ cbn. intros H.
        repeat (apply elem_of_cons in H as [->|H]; [done|]).
        by apply elem_of_nil in H. }
    assert (Hpass : cmd ∈ imap_commands
                      (emitted (get_existing_message_ids
                                  (set_server
                                     (mkIMAPServer c (imap_folder config)
                                        (imap_flags config) ∅ 0%nat) c2))) ->
                    is_append cmd = false).
    { rewrite get_existing_message_ids_eq. cbv zeta. red_state.
      destruct (exec c2 _) as [c3|]; red_state.
      2:{ cbn. intros H. apply list_elem_of_singleton in H. by subst. }
      destruct (exec c3 _) as [c4|]; red_state.
      2:{ cbn. intros H.
          repeat (apply elem_of_cons in H as [->|H]; [done|]).
          by apply elem_of_nil in H. }
      rewrite !imap_commands_Imap. intros H.
      repeat (apply elem_of_cons in H as [->|H]; [done|]).
      by eapply collect_inventory_commands. }
    destruct (result (get_existing_message_ids _)); red_state;
      rewrite !imap_commands_Imap; intros H;
      repeat (apply elem_of_cons in H as [->|H]; [done|]);
      by apply Hpass.
  - intros Hlogin. unfold main. fold o0. subst o0.
    rewrite IMAPServer_init_eq, Hlogin. cbv zeta. by red_state.
Qed.

(** The pass stops at the first record whose turn raises. *)
Lemma collect_abort {A B} (body : A -> M (list B)) (x : A) (e : exn)
    (before after : list A) (s : IMAPServer) (ys : list B) :
  (forall s', body x s' = Outcome (inl e) s' []) ->
  result (collect before body s) = inr ys ->
  collect (before ++ x :: after) body s
    = Outcome (inl e) (final (collect before body s))
        (emitted (collect before body s)).
Proof.
  intros Hx. revert s ys.
  induction before as [|a before IH]; intros s ys Hres.
  - cbn [app collect]. unfold bind. rewrite Hx. by red_state.
  - cbn [app collect] in *. unfold bind in *.
    destruct (result (body a s)) as [e'|zs]; red_state in Hres;
      [discriminate|].
    destruct (result (collect before body (final (body a s)))) as [e'|ws] eqn:Hb;
      red_state in Hres; [discriminate|].
    rewrite (IH _ _ Hb). red_state. by rewrite app_nil_r.
Qed.

(** X9. A fetched record whose index line has fewer than three words
    raises [IndexError] before anything is done for it: nothing is
    printed or sent, the elements after it are not looked at, and the pass
    (hence the constructor and the run) ends with that error, keeping
    only the effects of the elements before it. *)
Theorem index_line_without_handle (r : fetched) (s : IMAPServer) :
  Py.tokens (index_line r) !! 2%nat = None ->
  get_existing_message (FetchPair r) s = Outcome (inl IndexError) s [] /\
  forall before after pairs,
    result (collect before get_existing_message s) = inr pairs ->
    collect (before ++ FetchPair r :: after) get_existing_message s
      = Outcome (inl IndexError)
          (final (collect before get_existing_message s))
          (emitted (collect before get_existing_message s)).
Proof.
  intros Hu.
  assert (Hstep : forall s', get_existing_message (FetchPair r) s'
                             = Outcome (inl IndexError) s' []).
  { intros s'. rewrite get_existing_message_pair.
    unfold get_existing_message_id. by rewrite Hu. }
  split; [apply Hstep|].
  intros before after pairs Hres. by eapply collect_abort.
Qed.

(** X23. For a folder without messages the answer to the FETCH is the
    single element [None]: unpacking it raises [TypeError], so the
    constructor fails right after its four commands, with nothing printed
    and no inventory built, and the run ends there, before the start-up
    EXPUNGE. *)
Theorem answer_without_messages (config : Configuration)
    (c c1 c2 c3 c4 : conn) (walked : list (string * list string))
    (rest : list fetch_item) :
  exec c (LOGIN (imap_username config) (imap_password config)) = Some c1 ->
  exec c1 (CREATE (imap_folder config)) = Some c2 ->
  exec c2 (SELECT (imap_folder config)) = Some c3 ->
  exec c3 (FETCH "1:*"
             "(UID BODY[HEADER.FIELDS (Message-ID X-Source-File-Modifiedtime)])")
    = Some c4 ->
  fetch_response c4 = FetchNone :: rest ->
  main config c walked
  = Outcome (inl TypeError)
      (mkIMAPServer c4 (imap_folder config) (imap_flags config) ∅ 0%nat)
      [Imap (LOGIN (imap_username config) (imap_password config));
       Imap (CREATE (imap_folder config)); Imap (SELECT (imap_folder config));
       Imap (FETCH "1:*"
         "(UID BODY[HEADER.FIELDS (Message-ID X-Source-File-Modifiedtime)])")].
Proof.
  intros H1 H2 H3 H4 Hfetch. unfold main.
  rewrite (IMAPServer_init_at _ _ _ _ _ _ _ _ _ H1 H2 H3 H4), Hfetch.
  cbv zeta.
  assert (Hpass : forall s,
            collect (Py.every_other (FetchNone :: rest)) get_existing_message s
            = Outcome (inl TypeError) s []).
  { intros s. destruct rest as [|y rest']; cbn [Py.every_other collect];
      unfold bind; by rewrite (get_existing_message_bad FetchNone TypeError). }
  rewrite Hpass. reflexivity.
Qed.

(** *** Reversal and stripping *)

Lemma rev_app_eq (s t : string) : String.rev_app s t = String.rev s +:+ t.
Proof.
  unfold String.rev. revert t.
  induction s as [|c s IH]; intros t; cbn [String.rev_app]; [reflexivity|].
  rewrite (IH (String c t)), (IH (String c "")).
  by rewrite string_app_assoc.
Qed.

Lemma string_rev_cons (c : ascii) (s : string) :
  String.rev (String c s) = String.rev s +:+ String c "".
Proof. unfold String.rev at 1. cbn [String.rev_app]. apply rev_app_eq. Qed.

Lemma string_rev_app (a b : string) :
  String.rev (a +:+ b) = String.rev b +:+ String.rev a.
Proof.
  induction a as [|c a IH].
  - by rewrite string_app_nil_l, string_app_nil_r.
  - by rewrite string_app_cons, !string_rev_cons, IH, string_app_assoc.
Qed.

Lemma string_rev_involutive (s : string) : String.rev (String.rev s) = s.
Proof.
  induction s as [|c s IH]; [reflexivity|].
  by rewrite string_rev_cons, string_rev_app, IH.
Qed.

Lemma all_chars_app (p : ascii -> bool) (a b : string) :
  Py.all_chars p (a +:+ b) = Py.all_chars p a && Py.all_chars p b.
Proof.
  induction a as [|c a IH]; [reflexivity|].
  rewrite string_app_cons. cbn. by rewrite IH, andb_assoc.
Qed.

Lemma all_chars_rev (p : ascii -> bool) (s : string) :
  Py.all_chars p (String.rev s) = Py.all_chars p s.
Proof.
  induction s as [|c s IH]; [reflexivity|].
  rewrite string_rev_cons, all_chars_app, IH. cbn.
  by rewrite andb_true_r, andb_comm.
Qed.

(** What [lstrip] removes is a prefix made of the given characters, and
    what it leaves does not start with one of them. *)
Lemma lstrip_spec (chars : list ascii) (s : string) :
  exists pre,
    s = pre +:+ Py.lstrip chars s /\
    Py.all_chars (fun c => bool_decide (c ∈ chars)) pre = true.
Proof.
  induction s as [|c s (pre & IH & Hpre)]; [by exists ""|].
  cbn [Py.lstrip]. destruct (bool_decide (c ∈ chars)) eqn:Hc.
  - exists (String c pre). rewrite string_app_cons, <- IH. split; [done|].
    cbn. by rewrite Hc.
  - by exists "".
Qed.

Lemma lstrip_head (chars : list ascii) (s : string) (c : ascii) (t : string) :
  Py.lstrip chars s = String c t -> c ∉ chars.
Proof.
  induction s as [|a s IH]; [discriminate|].
  cbn [Py.lstrip]. destruct (bool_decide (a ∈ chars)) eqn:Ha; [exact IH|].
  intros [= -> ->]. by apply bool_decide_eq_false in Ha.
Qed.

(** What [rstrip] removes is a suffix made of the given characters, and
    what it leaves does not end with one of them. *)
Lemma rstrip_spec (chars : list ascii) (s : string) :
  exists suf,
    s = Py.rstrip chars s +:+ suf /\
    Py.all_chars (fun c => bool_decide (c ∈ chars)) suf = true.
Proof.
  unfold Py.rstrip.
  destruct (lstrip_spec chars (String.rev s)) as (pre & E & Hpre).
  exists (String.rev pre). split; [|by rewrite all_chars_rev].
  rewrite <- string_rev_app, <- E. by rewrite string_rev_involutive.
Qed.

Lemma rstrip_last (chars : list ascii) (s t : string) (c : ascii) :
  Py.rstrip chars s = t +:+ String c "" -> c ∉ chars.
Proof.
  unfold Py.rstrip. intros E.
  apply (f_equal String.rev) in E.
  rewrite string_rev_involutive, string_rev_app in E.
  by apply lstrip_head in E.
Qed.

Lemma strip_spec (chars : list ascii) (s : string) :
  exists pre suf, s = pre +:+ Py.strip chars s +:+ suf.
Proof.
  unfold Py.strip.
  destruct (lstrip_spec chars s) as (pre & E & _).
  destruct (rstrip_spec chars (Py.lstrip chars s)) as (suf & E' & _).
  exists pre, suf. by rewrite <- E', <- E.
Qed.

Lemma strip_keeps_absent (c : ascii) (chars : list ascii) (s : string) :
  Py.contains_char c s = false ->
  Py.contains_char c (Py.strip chars s) = false.
Proof.
  destruct (strip_spec chars s) as (pre & suf & E). intros H.
  rewrite E, !contains_char_app in H.
  apply orb_false_elim in H as [_ H]. by apply orb_false_elim in H as [H _].
Qed.

(** *** Splitting *)

Lemma split_max_nonempty (sep : ascii) (n : nat) (s : string) :
  Py.split_max sep n s <> [].
Proof.
  revert n. induction s as [|c s IH]; intros n; [done|].
  cbn [Py.split_max]. destruct n as [|n]; [done|].
  destruct (Ascii.eqb c sep); [done|].
  by destruct (Py.split_max sep (S n) s).
Qed.

Lemma split_max_absent (sep : ascii) (n : nat) (s : string) :
  Py.contains_char sep s = false -> Py.split_max sep n s = [s].
Proof.
  revert n. induction s as [|c s IH]; intros n; [done|].
  cbn [Py.contains_char Py.split_max]. intros H.
  apply orb_false_elim in H as [Hc Hs].
  destruct n as [|n]; [done|]. by rewrite Hc, (IH _ Hs).
Qed.

(** Joining the parts of a split with the separator gives the string
    back. *)
Lemma split_max_concat (sep : ascii) (n : nat) (s : string) :
  String.concat (String sep "") (Py.split_max sep n s) = s.
Proof.
  revert n. induction s as [|c s IH]; intros n; [done|].
  cbn [Py.split_max]. destruct n as [|n]; [done|].
  destruct (Ascii.eqb_spec c sep) as [->|Hc].
  - specialize (IH n).
    destruct (Py.split_max sep n s) as [|h t] eqn:E;
      [by apply split_max_nonempty in E|].
    change (String.concat (String sep "") ("" :: h :: t))
      with ("" +:+ String sep "" +:+ String.concat (String sep "") (h :: t)).
    by rewrite IH.
  - specialize (IH (S n)).
    destruct (Py.split_max sep (S n) s) as [|h t] eqn:E;
      [by apply split_max_nonempty in E|].
    destruct t as [|h' t]; [by rewrite <- IH|].
    change (String.concat (String sep "") (String c h :: h' :: t))
      with (String c (h +:+ String sep ""
                        +:+ String.concat (String sep "") (h' :: t))).
    by rewrite <- IH.
Qed.

(** One cut: the first part is what precedes the first separator. *)
Lemma split_max_1_inv (sep : ascii) (s p a : string) :
  Py.split_max sep 1 s = [p; a] ->
  s = p +:+ String sep a /\ Py.contains_char sep p = false.
Proof.
  revert p. induction s as [|c s IH]; intros p; [done|].
  cbn [Py.split_max]. destruct (Ascii.eqb_spec c sep) as [->|Hc].
  - destruct s; cbn [Py.split_max]; by intros [= <- <-].
  - destruct (Py.split_max sep 1 s) as [|h [|h' [|]]] eqn:E; try done.
    intros [= <- <-]. destruct (IH h eq_refl) as [-> Hh].
    split; [done|]. cbn. rewrite Hh. by apply Ascii.eqb_neq in Hc as ->.
Qed.

Lemma split_max_1_cut (sep : ascii) (p a : string) :
  Py.contains_char sep p = false ->
  Py.split_max sep 1 (p +:+ String sep a) = [p; a].
Proof.
  induction p as [|c p IH]; intros H.
  - rewrite string_app_nil_l. cbn [Py.split_max]. rewrite Ascii.eqb_refl.
    by destruct a.
  - cbn [Py.contains_char] in H. apply orb_false_elim in H as [Hc Hp].
    rewrite string_app_cons. cbn [Py.split_max]. by rewrite Hc, (IH Hp).
Qed.

(** *** The skip lists of the configuration *)

Lemma read_accounts_to_skip_bad (entries : list string) (skip : gset string)
    (entry : string) :
  entry ∈ entries -> Py.contains_char ":" entry = false ->
  read_accounts_to_skip entries skip = inl ValueError.
Proof.
  intros Hin Hbad. revert skip.
  induction entries as [|x entries IH]; intros skip;
    [by apply elem_of_nil in Hin|].
  cbn [read_accounts_to_skip].
  apply elem_of_cons in Hin as [<-|Hin].
  - by rewrite (split_max_absent _ _ _ (strip_keeps_absent _ _ _ Hbad)).
  - destruct (Py.split_max ":" 1 _) as [|? [|? [|]]]; try done.
    by apply IH.
Qed.

Lemma read_contacts_to_skip_bad (entries : list string) (skip : gset string)
    (entry : string) :
  entry ∈ entries -> Py.contains_char ":" entry = false ->
  read_contacts_to_skip entries skip = inl ValueError.
Proof.
  intros Hin Hbad. revert skip.
  induction entries as [|x entries IH]; intros skip;
    [by apply elem_of_nil in Hin|].
  cbn [read_contacts_to_skip].
  apply elem_of_cons in Hin as [<-|Hin].
  - by rewrite (split_max_absent _ _ _ (strip_keeps_absent _ _ _ Hbad)).
  - destruct (Py.split_max ":" 2 _) as [|? [|? [|? [|]]]]; try done.
    by apply IH.
Qed.

(** X11. An entry without a colon in [AccountsToSkip] or [ContactsToSkip]
    makes the constructor raise [ValueError]. The value of an absent
    option is the empty string, whose only entry is such an entry. *)
Theorem skip_entry_without_colon (value entry : string) :
  entry ∈ Py.split_char "," value ->
  Py.contains_char ":" entry = false ->
  accounts_to_skip_of value = inl ValueError /\
  contacts_to_skip_of value = inl ValueError.
Proof.
  intros Hin Hbad. split.
  - by eapply read_accounts_to_skip_bad.
  - by eapply read_contacts_to_skip_bad.
Qed.

Lemma read_accounts_to_skip_spec (entries : list string)
    (skip skipped : gset string) :
  read_accounts_to_skip entries skip = inr skipped ->
  forall q, q ∈ skipped <->
    q ∈ skip \/
    exists entry protocol account,
      entry ∈ entries /\
      Py.split_max ":" 1 (Py.strip Py.blanks entry) = [protocol; account] /\
      q = Py.strip Py.blanks protocol +:+ ":"
            +:+ Py.strip Py.blanks account.
Proof.
  revert skip. induction entries as [|x entries IH]; intros skip.
  - cbn. intros [= <-] q. split; [by left|]. intros [H|(e & p & a & H & _)];
      [done|by apply elem_of_nil in H].
  - cbn [read_accounts_to_skip].
    destruct (Py.split_max ":" 1 (Py.strip Py.blanks x))
      as [|p [|a [|]]] eqn:E; try done.
    intros Hread q. rewrite (IH _ Hread q), elem_of_union, elem_of_singleton.
    unfold qualified_account_name. split.
    + intros [[->|H]|(e & p' & a' & H & H')].
      * right. exists x, p, a. split; [left|done].
      * by left.
      * right. exists e, p', a'. split; [by right|done].
    + intros [H|(e & p' & a' & H & E' & ->)]; [by left; right|].
      apply elem_of_cons in H as [->|H].
      * rewrite E in E'. injection E' as <- <-. by left; left.
      * right. by exists e, p', a'.
Qed.

(** X12. When [AccountsToSkip] is read, every entry is cut at its first
    colon, and the names in the set are exactly the entries' two parts,
    each without its surrounding blanks, joined by a colon. *)
Theorem accounts_to_skip_spec (value : string) (skipped : gset string) :
  accounts_to_skip_of value = inr skipped ->
  forall q, q ∈ skipped <->
    exists entry protocol account,
      entry ∈ Py.split_char "," value /\
      Py.strip Py.blanks entry = protocol +:+ ":" +:+ account /\
      Py.contains_char ":" protocol = false /\
      q = Py.strip Py.blanks protocol +:+ ":"
            +:+ Py.strip Py.blanks account.
Proof.
  intros Hread q. rewrite (read_accounts_to_skip_spec _ _ _ Hread q). split.
  - intros [H|(e & p & a & H & E & ->)]; [by apply elem_of_empty in H|].
    exists e, p, a. by destruct (split_max_1_inv _ _ _ _ E) as [-> ?].
  - intros (e & p & a & H & E & Hp & ->). right. exists e, p, a.
    split; [done|]. split; [|done]. rewrite E. by apply split_max_1_cut.
Qed.

Lemma read_contacts_to_skip_spec (entries : list string)
    (skip skipped : gset string) :
  read_contacts_to_skip entries skip = inr skipped ->
  forall q, q ∈ skipped <->
    q ∈ skip \/ exists entry, entry ∈ entries /\ q = Py.strip Py.blanks entry.
Proof.
  revert skip. induction entries as [|x entries IH]; intros skip.
  - cbn. intros [= <-] q. split; [by left|]. intros [H|(e & H & _)];
      [done|by apply elem_of_nil in H].
  - cbn [read_contacts_to_skip].
    destruct (Py.split_max ":" 2 (Py.strip Py.blanks x))
      as [|p [|a [|c [|]]]] eqn:E; try done.
    intros Hread q. rewrite (IH _ Hread q), elem_of_union, elem_of_singleton.
    assert (Hx : qualified_contact_name p a c = Py.strip Py.blanks x).
    { rewrite <- (split_max_concat ":" 2 (Py.strip Py.blanks x)), E.
      reflexivity. }
    rewrite Hx. split.
    + intros [[->|H]|(e & H & H')].
      * right. exists x. split; [left|done].
      * by left.
      * right. exists e. split; [by right|done].
    + intros [H|(e & H & ->)]; [by left; right|].
      apply elem_of_cons in H as [->|H]; [by left; left|].
      right. by exists e.
Qed.

(** X13. When [ContactsToSkip] is read, the names in the set are exactly
    its entries without their surrounding blanks: a blank around a colon
    inside an entry stays in the name. *)
Theorem contacts_to_skip_spec (value : string) (skipped : gset string) :
  contacts_to_skip_of value = inr skipped ->
  forall q, q ∈ skipped <->
    exists entry,
      entry ∈ Py.split_char "," value /\ q = Py.strip Py.blanks entry.
Proof.
  intros Hread q. rewrite (read_contacts_to_skip_spec _ _ _ Hread q). split.
  - intros [H|H]; [by apply elem_of_empty in H|done].
  - by right.
Qed.

(** *** Reading a transcript *)

Lemma get_text_failed_prefix (file_name : string)
    (failed : list (string * string)) (encs : list string) :
  (forall e m, (e, m) ∈ failed -> read_text file_name e = inl m) ->
  get_text file_name (failed.*1 ++ encs) =
    (((fun em => [PyStr "encoding "; PyStr em.1; PyStr " failed for ";
                  PyStr file_name; PyStr ": "; PyStr em.2]) <$> failed)
       ++ (get_text file_name encs).1,
     (get_text file_name encs).2).
Proof.
  induction failed as [|[e m] failed IH]; intros Hf.
  - cbn [fmap list_fmap app]. by destruct (get_text file_name encs).
  - cbn [fmap list_fmap app get_text fst]. rewrite (Hf e m) by left.
    rewrite IH; [done|]. intros e' m' H. apply Hf. by right.
Qed.

(** X14. The text comes from the first encoding that can read the file:
    each encoding tried before it costs one line on stderr, in order, and
    the encodings after it are not tried. *)
Theorem get_text_first_working (file_name : string)
    (failed : list (string * string)) (enc : string) (rest : list string)
    (text : string) :
  (forall e m, (e, m) ∈ failed -> read_text file_name e = inl m) ->
  read_text file_name enc = inr text ->
  get_text file_name (failed.*1 ++ enc :: rest) =
    ((fun em => [PyStr "encoding "; PyStr em.1; PyStr " failed for ";
                 PyStr file_name; PyStr ": "; PyStr em.2]) <$> failed,
     inr (Py.rstrip [" "; "009"; "013"; "010"; "000"]%char text)).
Proof.
  intros Hf Hr. rewrite (get_text_failed_prefix _ _ _ Hf).
  cbn [get_text]. rewrite Hr. cbn [fst snd]. by rewrite app_nil_r.
Qed.

(** X15. Reading fails exactly when every encoding fails, which includes
    an empty list of encodings; the error is then [ValueError], raised
    after one line on stderr per encoding. *)
Theorem get_text_fails_iff (file_name : string) (encs : list string) :
  ((get_text file_name encs).2 = inl ValueError <->
   forall enc, enc ∈ encs -> exists m, read_text file_name enc = inl m) /\
  (forall e, (get_text file_name encs).2 = inl e ->
             e = ValueError /\
             length (get_text file_name encs).1 = length encs).
Proof.
  induction encs as [|enc encs [[IH1 IH2] IH3]].
  - cbn. split.
    + split; [|done]. intros _ enc H. by apply elem_of_nil in H.
    + by intros e [= <-].
  - cbn [get_text]. destruct (read_text file_name enc) as [m|text] eqn:Hr.
    + cbn [fst snd length]. split.
      * split.
        -- intros H e' [->|H']%elem_of_cons; [by exists m|by apply IH1].
        -- intros H. apply IH2. intros e' H'. apply H. by right.
      * intros e H. destruct (IH3 e H) as [-> ->]. done.
    + cbn [fst snd]. split; [split; [done|]|done].
      intros H. destruct (H enc) as [m Hm]; [left|]. congruence.
Qed.

(** X4. The text returned is what the file holds under some listed
    encoding, less a suffix of blanks and NULs, and it does not end with
    a blank or a NUL. *)
Theorem get_text_trimmed (file_name : string) (encs : list string)
    (lines : list (list pyval)) (text : string) :
  get_text file_name encs = (lines, inr text) ->
  exists enc raw junk,
    enc ∈ encs /\ read_text file_name enc = inr raw /\
    raw = text +:+ junk /\
    Py.all_chars
      (fun c => bool_decide (c ∈ [" "; "009"; "013"; "010"; "000"]%char))
      junk = true /\
    forall t c, text = t +:+ String c "" ->
                c ∉ [" "; "009"; "013"; "010"; "000"]%char.
Proof.
  revert lines. induction encs as [|enc encs IH]; intros lines; [done|].
  cbn [get_text]. destruct (read_text file_name enc) as [m|raw] eqn:Hr.
  - destruct (get_text file_name encs) as [ls r] eqn:E. cbn [fst snd].
    intros [= _ ->].
    destruct (IH ls eq_refl) as (e & raw & junk & H & H').
    exists e, raw, junk. split; [by right|done].
  - intros [= _ <-].
    destruct (rstrip_spec [" "; "009"; "013"; "010"; "000"]%char raw)
      as (junk & E & Hj).
    exists enc, raw, junk. split; [left|]. split; [done|].
    split; [done|]. split; [done|].
    intros t c. apply rstrip_last.
Qed.

(** *** The directory of a conversation *)

Lemma split_char_nonempty (sep : ascii) (s : string) :
  Py.split_char sep s <> [].
Proof.
  destruct s as [|c s]; [done|]. cbn [Py.split_char].
  destruct (Ascii.eqb c sep); [done|]. by destruct (Py.split_char sep s).
Qed.

Lemma split_char_absent (sep : ascii) (s : string) :
  Py.contains_char sep s = false -> Py.split_char sep s = [s].
Proof.
  induction s as [|c s IH]; [done|].
  cbn [Py.contains_char Py.split_char]. intros H.
  apply orb_false_elim in H as [Hc Hs]. by rewrite Hc, (IH Hs).
Qed.

Lemma split_char_app (sep : ascii) (s t : string) :
  Py.split_char sep (s +:+ String sep t)
    = Py.split_char sep s ++ Py.split_char sep t.
Proof.
  induction s as [|c s IH].
  - rewrite string_app_nil_l. cbn [Py.split_char]. by rewrite Ascii.eqb_refl.
  - rewrite string_app_cons. cbn [Py.split_char]. rewrite IH.
    destruct (Ascii.eqb c sep); [done|].
    destruct (Py.split_char sep s) as [|h tl] eqn:E;
      [by apply split_char_nonempty in E|done].
Qed.

Lemma string_app_sep (c : ascii) (s : string) :
  String c "" +:+ s = String c s.
Proof. reflexivity. Qed.

(** The components of [base/x/y/z]. *)
Lemma split_char_three (base x y z : string) :
  Py.contains_char "/" x = false ->
  Py.contains_char "/" y = false ->
  Py.contains_char "/" z = false ->
  Py.split_char "/" (base +:+ "/" +:+ x +:+ "/" +:+ y +:+ "/" +:+ z)
    = Py.split_char "/" base ++ [x; y; z].
Proof.
  intros Hx Hy Hz. rewrite !string_app_sep, !split_char_app.
  by rewrite (split_char_absent _ _ Hx), (split_char_absent _ _ Hy),
    (split_char_absent _ _ Hz).
Qed.

Lemma last_item_three (l : list string) (x y z : string) :
  Py.last_item (l ++ [x; y; z]) = z.
Proof.
  unfold Py.last_item.
  change (l ++ [x; y; z]) with (l ++ [x; y] ++ [z]).
  rewrite app_assoc. apply last_last.
Qed.

Lemma last_n_three (l : list string) (x y z : string) :
  Py.last_n 3 (l ++ [x; y; z]) = [x; y; z].
Proof.
  unfold Py.last_n. rewrite length_app. cbn [length].
  replace (length l + 3 - 3)%nat with (length l) by lia.
  apply drop_app_length.
Qed.

Lemma from_end_three (l : list string) (x y z : string) :
  Py.from_end 2 (l ++ [x; y; z]) = Some x /\
  Py.from_end 1 (l ++ [x; y; z]) = Some y.
Proof. unfold Py.from_end. by rewrite reverse_app. Qed.

(** X17. A directory [base/protocol/account/contact] whose last component
    does not end in [.chatlog] is a Pidgin one: the three components are
    taken as they are. *)
Theorem LogDir_pidgin (base protocol account contact : string) :
  Py.contains_char "/" protocol = false ->
  Py.contains_char "/" account = false ->
  Py.contains_char "/" contact = false ->
  Py.endswith ".chatlog" contact = false ->
  let dir_name :=
    base +:+ "/" +:+ protocol +:+ "/" +:+ account +:+ "/" +:+ contact in
  LogDir_init dir_name
    = inr (mkLogDir dir_name "pidgin" protocol account contact).
Proof.
  intros Hp Ha Hc Hend dir_name. unfold LogDir_init. subst dir_name.
  rewrite (split_char_three _ _ _ _ Hp Ha Hc). cbv zeta.
  by rewrite last_item_three, Hend, last_n_three.
Qed.

(** X18. A directory [base/Protocol.account/contact/name.chatlog] is an
    Adium one: the third component from the end is cut at its first dot,
    the protocol is lower-cased and loses its trailing exclamation marks,
    the account keeps any further dot. *)
Theorem LogDir_adium (base protocol account contact name : string) :
  Py.contains_char "/" protocol = false ->
  Py.contains_char "." protocol = false ->
  Py.contains_char "/" account = false ->
  Py.contains_char "/" contact = false ->
  Py.contains_char "/" name = false ->
  Py.endswith ".chatlog" name = true ->
  let dir_name :=
    base +:+ "/" +:+ (protocol +:+ "." +:+ account) +:+ "/" +:+ contact
      +:+ "/" +:+ name in
  LogDir_init dir_name
    = inr (mkLogDir dir_name "adium" (Py.rstrip ["!"%char] (lower protocol))
             account contact).
Proof.
  intros Hp Hdot Ha Hc Hn Hend dir_name. unfold LogDir_init. subst dir_name.
  assert (Hpa : Py.contains_char "/" (protocol +:+ "." +:+ account) = false).
  { rewrite !contains_char_app, Hp, Ha. reflexivity. }
  rewrite (split_char_three _ _ _ _ Hpa Hc Hn). cbv zeta.
  rewrite last_item_three, Hend.
  destruct (from_end_three (Py.split_char "/" base)
              (protocol +:+ "." +:+ account) contact name) as [-> ->].
  rewrite string_app_sep. by rewrite (split_max_1_cut _ _ _ Hdot).
Qed.

(** X19. A directory name of one or two components has no protocol,
    account and contact to read: the constructor raises [IndexError] when
    the last component ends in [.chatlog], [ValueError] otherwise. *)
Theorem LogDir_too_shallow (a b : string) :
  Py.contains_char "/" a = false ->
  Py.contains_char "/" b = false ->
  LogDir_init a
    = inl (if Py.endswith ".chatlog" a then IndexError else ValueError) /\
  LogDir_init (a +:+ "/" +:+ b)
    = inl (if Py.endswith ".chatlog" b then IndexError else ValueError).
Proof.
  intros Ha Hb. unfold LogDir_init.
  rewrite string_app_sep, split_char_app.
  rewrite (split_char_absent _ _ Ha), (split_char_absent _ _ Hb). cbv zeta.
  split.
  - change (Py.last_item [a]) with a. by destruct (Py.endswith ".chatlog" a).
  - change (Py.last_item ([a] ++ [b])) with b.
    by destruct (Py.endswith ".chatlog" b).
Qed.

(** X20. An Adium directory whose third component from the end has no
    dot cannot be cut into protocol and account: [ValueError]. *)
Theorem LogDir_adium_without_dot (base part contact name : string) :
  Py.contains_char "/" part = false ->
  Py.contains_char "." part = false ->
  Py.contains_char "/" contact = false ->
  Py.contains_char "/" name = false ->
  Py.endswith ".chatlog" name = true ->
  LogDir_init (base +:+ "/" +:+ part +:+ "/" +:+ contact +:+ "/" +:+ name)
    = inl ValueError.
Proof.
  intros Hp Hdot Hc Hn Hend. unfold LogDir_init.
  rewrite (split_char_three _ _ _ _ Hp Hc Hn). cbv zeta.
  rewrite last_item_three, Hend.
  destruct (from_end_three (Py.split_char "/" base) part contact name)
    as [-> _].
  by rewrite (split_max_absent _ _ _ Hdot).
Qed.

End Program.

Arguments Outcome {conn A} _ _ _.
Arguments result {conn A} _.
Arguments final {conn A} _.
Arguments emitted {conn A} _.
Arguments mkIMAPServer {conn} _ _ _ _ _.
Arguments server {conn} _.
Arguments existing_message_ids {conn} _.

(** ** Concrete runs

    The properties above at explicit inputs, against the reference
    instances of the library functions and the sample connections. *)

Local Abbreviation empty_server :=
  (mkIMAPServer tt "ChatLog" "" ∅ 0%nat : IMAPServer unit).

Local Abbreviation fetch_items :=
  "(UID BODY[HEADER.FIELDS (Message-ID X-Source-File-Modifiedtime)])".

(** [get_from_email_table] at the directory [aim/myacct/bobsmith] of the
    scenario, and at an irc channel whose directory name holds an encoded
    ['#'] and an encoded space. *)
Lemma get_from_email_table_witness :
  Ref.unquote "bobsmith" = "bobsmith" /\
  get_from_email Ref.unquote Sample.bobsmith = "bobsmith@aol.com" /\
  get_from_email Ref.unquote
    (mkLogDir "logs/irc/me/%23rocq%20chat" "pidgin" "irc" "me"
       "%23rocq%20chat")
  = "rocq_chat@irc".
Proof.
  split; [reflexivity|]. split.
  - pose proof (get_from_email_table Ref.unquote Sample.bobsmith) as H.
    cbv zeta in H. destruct H as (_ & _ & _ & _ & _ & _ & _ & _ & H).
    apply H; reflexivity.
  - pose proof (get_from_email_table Ref.unquote
                  (mkLogDir "logs/irc/me/%23rocq%20chat" "pidgin" "irc" "me"
                     "%23rocq%20chat")) as H.
    cbv zeta in H. destruct H as (_ & _ & H & _).
    rewrite (H eq_refl). vm_compute. reflexivity.
Defined.

(** [syncable_contact_precedence] at a contact that is in no skip set,
    under the skipped account [aim:work]. *)
Lemma syncable_contact_precedence_witness :
  ("aim:work:alice" ∉ contacts_to_skip Sample.config) /\
  syncable_contact Sample.config "aim" "work" "alice" = false.
Proof.
  split.
  - cbn [Sample.config contacts_to_skip]. intros H.
    apply elem_of_singleton in H. discriminate.
  - destruct (syncable_contact_precedence Sample.config "aim" "work" "alice")
      as (_ & _ & _ & _ & H & _).
    apply H. cbn [Sample.config accounts_to_skip].
    by apply elem_of_singleton.
Defined.

(** C6 (the claim as stated fails). A stem that the second format parses,
    under the extension [.xml]: tried in priority order the three formats
    give 2014-09-04 15:45:41 -0400, while the code, which parses an
    [.xml] name with the bracketed format only, raises. A bracketed stem
    under [.html] is parsed by the first format but raises in the code. *)
Lemma get_timestamp_not_one_priority_order :
  result (get_timestamp Ref.strptime Sample.eastern unit
            "2014-09-04.154541-0400" ".xml"
            "logs/aim/myacct/bobsmith/2014-09-04.154541-0400.xml" empty_server)
    = inl ValueError /\
  result (spec_get_timestamp Ref.strptime Sample.eastern unit
            "2014-09-04.154541-0400"
            "logs/aim/myacct/bobsmith/2014-09-04.154541-0400.xml" empty_server)
    = inr (Datetime 2014 9 4 15 45 41 (Some (-14400))) /\
  result (get_timestamp Ref.strptime Sample.eastern unit
            "bobsmith (2014-09-04T15.45.41-0400)" ".html"
            "logs/bobsmith (2014-09-04T15.45.41-0400).html" empty_server)
    = inl ValueError /\
  result (spec_get_timestamp Ref.strptime Sample.eastern unit
            "bobsmith (2014-09-04T15.45.41-0400)"
            "logs/bobsmith (2014-09-04T15.45.41-0400).html" empty_server)
    = inr (Datetime 2014 9 4 15 45 41 (Some (-14400))).
Proof. vm_compute. repeat split. Qed.

(** [get_timestamp_by_extension] at a name with no timestamp in it. *)
Lemma get_timestamp_by_extension_witness :
  get_timestamp Ref.strptime Sample.eastern unit "notes" ".txt"
    "logs/aim/myacct/bobsmith/notes.txt" empty_server
  = Outcome (inl ValueError) empty_server
      [Print stderr [PyStr "timezone parsing failure: ";
                     PyStr "logs/aim/myacct/bobsmith/notes.txt"]].
Proof.
  pose proof (get_timestamp_by_extension Ref.strptime Sample.eastern unit
                "notes" ".txt" "logs/aim/myacct/bobsmith/notes.txt"
                empty_server) as H.
  cbv zeta in H. destruct H as [_ H].
  apply (H ValueError). vm_compute. reflexivity.
Defined.

(** C7 (the code diverges). A log file whose name holds no timestamp in
    any supported format, [notes.txt]: building its [LogFile] does not fall
    back to the modification time of the file, as the docstring of
    [get_timestamp] promises; it prints the path and raises the parse
    error. *)
Theorem no_fallback_to_modification_time :
  LogFile_init Ref.unquote Ref.strptime Ref.strftime Sample.eastern
    Sample.getmtime unit Sample.bobsmith "notes.txt" empty_server
  = Outcome (inl ValueError) empty_server
      [Print stderr [PyStr "timezone parsing failure: ";
                     PyStr "logs/aim/myacct/bobsmith/notes.txt"]].
Proof. vm_compute. reflexivity. Qed.

(** C3 (the code diverges). Two log files of one directory whose names
    give the same timestamp, hence the same message id, against an empty
    inventory: [store] records the first under its message id, but with
    the handle [None] and the timestamp of the transcript (not the
    modification time of the file), and the loop takes an entry without a
    handle for no entry. The second transcript is reported as not found
    and appended a second time. *)
Theorem duplicate_descriptor_is_appended_twice :
  let o := main_loop Ref.unquote Ref.strptime Ref.strftime Sample.eastern
             Sample.getmtime Sample.render unit Sample.accepting Ref.lower
             Sample.config
             [("logs/aim/myacct/bobsmith",
               ["2014-09-04.154541-0400.html";
                "2014-09-04.154541-0400EDT.html"])]
             empty_server in
  let ts := Datetime 2014 9 4 15 45 41 (Some (-14400)) in
  result o = inr tt /\
  imap_commands (emitted o) =
    [APPEND "ChatLog" "" ts
       "chat log logs/aim/myacct/bobsmith/2014-09-04.154541-0400.html";
     APPEND "ChatLog" "" ts
       "chat log logs/aim/myacct/bobsmith/2014-09-04.154541-0400EDT.html"] /\
  existing_message_ids (final o) !! "20140904154541-0400_bobsmith@aol.com"
    = Some (PyNone, PyDatetime ts) /\
  Print stdout
    [PyStr "logs/aim/myacct/bobsmith/2014-09-04.154541-0400EDT.html";
     PyStr " was not found"] ∈ emitted o.
Proof.
  vm_compute. repeat split. do 3 right. left.
Qed.



(** [inventory_self_repair] at a folder with a message that has no
    modification time and one that has no Message-ID. *)
Lemma inventory_self_repair_witness :
  imap_commands
    (emitted (IMAPServer_init unit Sample.accepting Sample.legacy_messages tt
                "user" "secret" "ChatLog" ""))
  = [LOGIN "user" "secret"; CREATE "ChatLog"; SELECT "ChatLog";
     FETCH "1:*" fetch_items;
     UID_STORE (PyStr "8") "+FLAGS" "(\Deleted)"; EXPUNGE].
Proof.
  pose proof (inventory_self_repair unit Sample.accepting
                Sample.legacy_messages tt tt tt tt tt "user" "secret"
                "ChatLog" "" eq_refl eq_refl eq_refl eq_refl) as H.
  cbv zeta in H. destruct H as (H & _); [vm_compute; reflexivity|].
  rewrite H. vm_compute. reflexivity.
Defined.

(** [record_without_message_id_ignored] at a message with a modification
    time and no Message-ID. *)
Lemma record_without_message_id_ignored_witness :
  get_existing_message unit Sample.accepting
    (FetchPair
       (mkFetched
          "2 (UID 9 BODY[HEADER.FIELDS (X-Source-File-Modifiedtime)] {40}"
          None (Some "20140905100000-0500")))
    empty_server
  = Outcome (inr []) empty_server [].
Proof.
  refine (proj1
    (record_without_message_id_ignored unit Sample.accepting
       (mkFetched
          "2 (UID 9 BODY[HEADER.FIELDS (X-Source-File-Modifiedtime)] {40}"
          None (Some "20140905100000-0500"))
       "9" [] [] empty_server _ _ _)).
  - vm_compute. reflexivity.
  - reflexivity.
  - reflexivity.
Defined.

Local Abbreviation stale_server :=
  (mkIMAPServer tt "ChatLog" ""
     {[ "20140904154541-0400_bobsmith@aol.com" :=
          (PyStr "7", PyStr "20140901120000-0500") ]} 1%nat
   : IMAPServer unit).

(** [staleness_decision] at a transcript modified on 2014-09-05 whose
    stored modification time is 2014-09-01. *)
Lemma staleness_decision_witness :
  imap_commands
    (emitted (main_loop_body Sample.render unit Sample.accepting
                Sample.config Sample.first_log stale_server))
  = [UID_STORE (PyStr "7") "+FLAGS" "(\Deleted)"; EXPUNGE;
     APPEND "ChatLog" "" (Datetime 2014 9 4 15 45 41 (Some (-14400)))
       "chat log logs/aim/myacct/bobsmith/2014-09-04.154541-0400.html"].
Proof.
  destruct (staleness_decision Sample.render unit Sample.accepting
              Sample.config Sample.first_log stale_server
              (PyStr "7") (PyStr "20140901120000-0500"))
    as (m & Hm & _ & Hstale).
  - cbn [existing_message_ids]. intros k v Hk.
    apply lookup_singleton_Some in Hk as [_ <-].
    left. exists "7", "20140901120000-0500". by repeat split.
  - cbn [existing_message_ids]. apply lookup_singleton_eq.
  - discriminate.
  - injection Hm as <-.
    destruct (Hstale eq_refl) as (_ & _ & Hfull).
    destruct (Hfull tt tt tt []
                "chat log logs/aim/myacct/bobsmith/2014-09-04.154541-0400.html"
                eq_refl eq_refl eq_refl eq_refl) as (_ & Hcmds & _).
    exact Hcmds.
Defined.

(** [rerun_is_idempotent] at a folder that holds the message of the one
    transcript of the corpus, with the modification time the file has. *)
Lemma rerun_is_idempotent_witness :
  emitted (main Ref.unquote Ref.strptime Ref.strftime Sample.eastern
             Sample.getmtime Sample.render unit Sample.accepting
             Sample.one_message Ref.lower Sample.config tt
             [("logs/aim/myacct/bobsmith",
               ["2014-09-04.154541-0400.html"; "._2014-09-04.html";
                "smiley.png"])])
  = [Imap (LOGIN "user" "secret"); Imap (CREATE "ChatLog");
     Imap (SELECT "ChatLog"); Imap (FETCH "1:*" fetch_items); Imap EXPUNGE].
Proof.
  destruct (rerun_is_idempotent Ref.unquote Ref.strptime Ref.strftime
              Sample.eastern Sample.getmtime Sample.render unit
              Sample.accepting Sample.one_message Ref.lower Sample.config
              tt tt tt tt tt tt
              [("logs/aim/myacct/bobsmith",
                ["2014-09-04.154541-0400.html"; "._2014-09-04.html";
                 "smiley.png"])]
              eq_refl eq_refl eq_refl eq_refl eq_refl)
    as (_ & H & _).
  - vm_compute. reflexivity.
  - intros r Hr. vm_compute in Hr.
    apply list_elem_of_singleton in Hr. injection Hr as ->. reflexivity.
  - intros d x Hd Hx Hlog. apply list_elem_of_singleton in Hd. subst d.
    exists Sample.bobsmith. split; [vm_compute; reflexivity|]. intros _.
    assert (x = "2014-09-04.154541-0400.html") as ->.
    { cbn [snd] in Hx.
      repeat (apply elem_of_cons in Hx as [->|Hx];
              [first [reflexivity | vm_compute in Hlog; discriminate Hlog]|]).
      by apply elem_of_nil in Hx. }
    exists Sample.first_log, (PyStr "7"). split; vm_compute; reflexivity.
  - exact H.
Defined.

(** C1 (the code diverges). Two runs over one unchanged corpus, against
    the reference server: a directory with two log files whose names give
    the same message id, the second of them last modified before the
    first, and a folder that holds one older message. The first run
    appends both transcripts ([store] records the first with no handle,
    see C3). The second run finds two messages under the one message id,
    keeps the later one in its inventory, takes it for a stale copy of the
    first file, deletes it and appends the first transcript again, then
    appends the second one again: one UID STORE, one EXPUNGE and two
    APPENDs after the start-up EXPUNGE, and a folder that has grown from
    three messages to four. *)
Theorem rerun_appends_again :
  let run :=
    main Ref.unquote Ref.strptime Ref.strftime Sample.eastern
      Sample.mtime_by_name Sample.render_headers Mailbox.state Mailbox.exec
      Mailbox.fetch_response Ref.lower Sample.config in
  let corpus :=
    [("logs/aim/myacct/bobsmith",
      ["2014-09-04.154541-0400.html"; "2014-09-04.154541-0400EDT.html"])] in
  let run1 := run Sample.old_folder corpus in
  let run2 := run (server (final run1)) corpus in
  let ts := Datetime 2014 9 4 15 45 41 (Some (-14400)) in
  let email := fun mtime name =>
    "Message-ID: 20140904154541-0400_bobsmith@aol.com"
      +:+ String "010" EmptyString
      +:+ "X-Source-File-ModifiedTime: " +:+ mtime
      +:+ String "010" (String "010" EmptyString)
      +:+ "chat log logs/aim/myacct/bobsmith/" +:+ name in
  let first_email :=
    email "20140905100000-0500" "2014-09-04.154541-0400.html" in
  let second_email :=
    email "20140903100000-0500" "2014-09-04.154541-0400EDT.html" in
  result run1 = inr tt /\
  filter (fun cmd => is_mutation cmd = true) (imap_commands (emitted run1))
    = [EXPUNGE; APPEND "ChatLog" "" ts first_email;
       APPEND "ChatLog" "" ts second_email] /\
  result run2 = inr tt /\
  filter (fun cmd => is_mutation cmd = true) (imap_commands (emitted run2))
    = [EXPUNGE; UID_STORE (PyStr "3") "+FLAGS" "(\Deleted)"; EXPUNGE;
       APPEND "ChatLog" "" ts first_email;
       APPEND "ChatLog" "" ts second_email] /\
  length (Mailbox.messages (server (final run1))) = 3%nat /\
  length (Mailbox.messages (server (final run2))) = 4%nat.
Proof. vm_compute. repeat split. Qed.

(** ** Concrete runs, continued *)

(** [get_from_email_shape] at the irc channel [#rocq chat]. *)
Lemma get_from_email_shape_witness :
  Py.contains_char " "
    (get_from_email Ref.unquote
       (mkLogDir "logs/irc/me/#rocq chat" "pidgin" "irc" "me" "#rocq chat"))
    = false /\
  Py.contains_char "#"
    (get_from_email Ref.unquote
       (mkLogDir "logs/irc/me/#rocq chat" "pidgin" "irc" "me" "#rocq chat"))
    = false /\
  Py.contains_char "@"
    (get_from_email Ref.unquote
       (mkLogDir "logs/irc/me/#rocq chat" "pidgin" "irc" "me" "#rocq chat"))
    = true.
Proof.
  destruct (get_from_email_shape Ref.unquote
              (mkLogDir "logs/irc/me/#rocq chat" "pidgin" "irc" "me"
                 "#rocq chat")) as (H1 & H2 & H3).
  split; [apply H1|split; [apply H2|apply H3]].
  - cbn [protocol]. do 2 right. left.
  - reflexivity.
  - cbn [protocol]. intros H.
    repeat (apply elem_of_cons in H as [H|H]; [discriminate H|]).
    by apply elem_of_nil in H.
Defined.


(** [LogFile_fields] at [bobsmith]'s first log. *)
Lemma LogFile_fields_witness :
  message_id Sample.first_log
  = Ref.strftime (timestamp Sample.first_log) "%Y%m%d%H%M%S%z" +:+ "_"
      +:+ get_from_email Ref.unquote Sample.bobsmith.
Proof.
  destruct (LogFile_fields Ref.unquote Ref.strptime Ref.strftime
              Sample.eastern Sample.getmtime unit Sample.bobsmith
              "2014-09-04.154541-0400.html" empty_server Sample.first_log)
    as (_ & _ & _ & _ & _ & H & _).
  - vm_compute. reflexivity.
  - exact H.
Defined.


(** [get_text_trimmed] at a file that only the second encoding reads. *)
Lemma get_text_trimmed_witness :
  exists enc raw junk,
    enc ∈ ["utf-8"; "latin-1"] /\
    Sample.read_text "chat.html" enc = inr raw /\
    raw = "<html>hi</html>" +:+ junk.
Proof.
  destruct (get_text_trimmed Sample.read_text "chat.html"
              ["utf-8"; "latin-1"]
              [[PyStr "encoding "; PyStr "utf-8"; PyStr " failed for ";
                PyStr "chat.html"; PyStr ": "; PyStr "invalid start byte"]]
              "<html>hi</html>")
    as (enc & raw & junk & H1 & H2 & H3 & _).
  - vm_compute. reflexivity.
  - by exists enc, raw, junk.
Defined.

(** [absent_transcript_is_created] at the first log and an empty
    inventory. *)
Lemma absent_transcript_is_created_witness :
  imap_commands
    (emitted (main_loop_body Sample.render unit Sample.accepting
                Sample.config Sample.first_log empty_server))
  = [APPEND "ChatLog" "" (Datetime 2014 9 4 15 45 41 (Some (-14400)))
       "chat log logs/aim/myacct/bobsmith/2014-09-04.154541-0400.html"].
Proof.
  pose proof (absent_transcript_is_created Sample.render unit
                Sample.accepting Sample.config Sample.first_log
                empty_server) as H.
  cbv zeta in H. destruct H as [_ H].
  - cbn [existing_message_ids]. apply lookup_empty.
  - destruct (H []
                "chat log logs/aim/myacct/bobsmith/2014-09-04.154541-0400.html"
                eq_refl) as (Hc & _).
    exact Hc.
Defined.

(** [rendering_failure] at the first log and an empty inventory. *)
Lemma rendering_failure_witness :
  result (main_loop_body Sample.render_fails unit Sample.accepting
            Sample.config Sample.first_log empty_server) = inl ValueError /\
  imap_commands
    (emitted (main_loop_body Sample.render_fails unit Sample.accepting
                Sample.config Sample.first_log empty_server)) = [].
Proof.
  pose proof (rendering_failure Sample.render_fails unit Sample.accepting
                Sample.config Sample.first_log empty_server _ ValueError
                eq_refl) as H.
  cbv zeta in H. destruct H as (_ & _ & H & _).
  destruct H as (H1 & H2 & _).
  - cbn [existing_message_ids]. apply lookup_empty.
  - by split.
Defined.

(** [dict_of_pairs_last] at two messages with one Message-ID. *)
Lemma dict_of_pairs_last_witness :
  dict_of_pairs
    [("20140904154541-0400_bobsmith@aol.com",
      (PyStr "7", PyStr "20140901120000-0500"));
     ("20140905101500-0400_bobsmith@aol.com",
      (PyStr "8", PyStr "20140905100000-0500"));
     ("20140904154541-0400_bobsmith@aol.com",
      (PyStr "9", PyStr "20140905100000-0500"))]
    !! "20140904154541-0400_bobsmith@aol.com"
  = Some (PyStr "9", PyStr "20140905100000-0500").
Proof.
  destruct (dict_of_pairs_last
              [("20140904154541-0400_bobsmith@aol.com",
                (PyStr "7", PyStr "20140901120000-0500"));
               ("20140905101500-0400_bobsmith@aol.com",
                (PyStr "8", PyStr "20140905100000-0500"));
               ("20140904154541-0400_bobsmith@aol.com",
                (PyStr "9", PyStr "20140905100000-0500"))]
              "20140904154541-0400_bobsmith@aol.com") as [H _].
  apply (H [("20140904154541-0400_bobsmith@aol.com",
             (PyStr "7", PyStr "20140901120000-0500"));
            ("20140905101500-0400_bobsmith@aol.com",
             (PyStr "8", PyStr "20140905100000-0500"))] []).
  - reflexivity.
  - cbn. apply not_elem_of_nil.
Defined.

(** [startup_failure_is_fatal] at a server that refuses the LOGIN. *)
Lemma startup_failure_is_fatal_witness :
  emitted (main Ref.unquote Ref.strptime Ref.strftime Sample.eastern
             Sample.getmtime Sample.render unit Sample.login_refused
             Sample.one_message Ref.lower Sample.config tt
             [("logs/aim/myacct/bobsmith", ["2014-09-04.154541-0400.html"])])
  = [Imap (LOGIN "user" "secret")].
Proof.
  pose proof (startup_failure_is_fatal Ref.unquote Ref.strptime Ref.strftime
                Sample.eastern Sample.getmtime Sample.render unit
                Sample.login_refused Sample.one_message Ref.lower
                Sample.config tt
                [("logs/aim/myacct/bobsmith",
                  ["2014-09-04.154541-0400.html"])]) as H.
  cbv zeta in H. destruct H as (_ & _ & H).
  destruct (H eq_refl) as [_ H']. exact H'.
Defined.

(** [index_line_without_handle] at an index line of two words. *)
Lemma index_line_without_handle_witness :
  get_existing_message unit Sample.accepting
    (FetchPair
       (mkFetched "1 (UID" (Some "20140904154541-0400_bobsmith@aol.com")
          (Some "20140905100000-0500")))
    empty_server
  = Outcome (inl IndexError) empty_server [].
Proof.
  refine (proj1
    (index_line_without_handle unit Sample.accepting
       (mkFetched "1 (UID" (Some "20140904154541-0400_bobsmith@aol.com")
          (Some "20140905100000-0500"))
       empty_server _)).
  vm_compute. reflexivity.
Defined.

(** [loop_deletes_only_catalogued] at the stale message of the first
    log. *)
Lemma loop_deletes_only_catalogued_witness :
  exists d log_dir base_name f m,
    d ∈ [("logs/aim/myacct/bobsmith", ["2014-09-04.154541-0400.html"])] /\
    base_name ∈ d.2 /\
    is_log_file_name Sample.config base_name = true /\
    LogDir_init Ref.lower d.1 = inr log_dir /\
    result (LogFile_init Ref.unquote Ref.strptime Ref.strftime Sample.eastern
              Sample.getmtime unit log_dir base_name stale_server) = inr f /\
    existing_message_ids stale_server !! message_id f = Some (PyStr "7", m).
Proof.
  destruct (loop_deletes_only_catalogued Ref.unquote Ref.strptime
              Ref.strftime Sample.eastern Sample.getmtime Sample.render unit
              Sample.accepting Ref.lower Sample.config
              [("logs/aim/myacct/bobsmith", ["2014-09-04.154541-0400.html"])]
              stale_server (UID_STORE (PyStr "7") "+FLAGS" "(\Deleted)"))
    as [_ H].
  - vm_compute. left.
  - destruct (H _ _ _ eq_refl) as [_ H']. exact H'.
Defined.

(** [inventory_keys] at the folder with one message. *)
Lemma inventory_keys_witness :
  is_Some
    (existing_message_ids
       (final (IMAPServer_init unit Sample.accepting Sample.one_message tt
                 "user" "secret" "ChatLog" ""))
     !! "20140904154541-0400_bobsmith@aol.com").
Proof.
  pose proof (inventory_keys unit Sample.accepting Sample.one_message
                tt tt tt tt tt "user" "secret" "ChatLog" ""
                eq_refl eq_refl eq_refl eq_refl) as H.
  cbv zeta in H. destruct H as [_ H]; [vm_compute; reflexivity|].
  apply H.
  exists (mkFetched
            "1 (UID 7 BODY[HEADER.FIELDS (Message-ID X-Source-File-Modifiedtime)] {99}"
            (Some "20140904154541-0400_bobsmith@aol.com")
            (Some "20140905100000-0500")),
    (PyStr "7", PyStr "20140905100000-0500").
  split; [vm_compute; left|].
  exists "7", "20140905100000-0500".
  split; [vm_compute; reflexivity|].
  repeat split; discriminate.
Defined.

(** [answer_without_messages] at the answer for an empty folder. *)
Lemma answer_without_messages_witness :
  main Ref.unquote Ref.strptime Ref.strftime Sample.eastern Sample.getmtime
    Sample.render unit Sample.accepting Sample.no_messages Ref.lower
    Sample.config tt
    [("logs/aim/myacct/bobsmith", ["2014-09-04.154541-0400.html"])]
  = Outcome (inl TypeError) empty_server
      [Imap (LOGIN "user" "secret"); Imap (CREATE "ChatLog");
       Imap (SELECT "ChatLog"); Imap (FETCH "1:*" fetch_items)].
Proof.
  apply (answer_without_messages Ref.unquote Ref.strptime Ref.strftime
           Sample.eastern Sample.getmtime Sample.render unit Sample.accepting
           Sample.no_messages Ref.lower Sample.config tt tt tt tt tt
           [("logs/aim/myacct/bobsmith", ["2014-09-04.154541-0400.html"])] []);
    reflexivity.
Defined.

(** [skip_entry_without_colon] at the value of an absent option. *)
Lemma skip_entry_without_colon_witness :
  accounts_to_skip_of "" = inl ValueError /\
  contacts_to_skip_of "" = inl ValueError.
Proof.
  apply (skip_entry_without_colon "" ""); [left|reflexivity].
Defined.

(** [accounts_to_skip_spec] at two entries, one with blanks around its
    parts. *)
Lemma accounts_to_skip_spec_witness :
  accounts_to_skip_of " aim : work ,irc:me"
    = inr ({["irc:me"]} ∪ ({["aim:work"]} ∪ ∅)) /\
  ("aim:work" ∈ ({["irc:me"]} ∪ ({["aim:work"]} ∪ ∅) : gset string)).
Proof.
  assert (H : accounts_to_skip_of " aim : work ,irc:me"
              = inr ({["irc:me"]} ∪ ({["aim:work"]} ∪ ∅)))
    by (vm_compute; reflexivity).
  split; [exact H|].
  apply (accounts_to_skip_spec _ _ H).
  exists " aim : work ", "aim ", " work".
  split; [vm_compute; left|].
  repeat split; vm_compute; reflexivity.
Defined.

(** [contacts_to_skip_spec] at two entries, one with blanks around its
    parts. *)
Lemma contacts_to_skip_spec_witness :
  contacts_to_skip_of " aim : me : bob ,irc:me:#chan"
    = inr ({["irc:me:#chan"]} ∪ ({["aim : me : bob"]} ∪ ∅)) /\
  ("aim : me : bob"
     ∈ ({["irc:me:#chan"]} ∪ ({["aim : me : bob"]} ∪ ∅) : gset string)).
Proof.
  assert (H : contacts_to_skip_of " aim : me : bob ,irc:me:#chan"
              = inr ({["irc:me:#chan"]} ∪ ({["aim : me : bob"]} ∪ ∅)))
    by (vm_compute; reflexivity).
  split; [exact H|].
  apply (contacts_to_skip_spec _ _ H).
  exists " aim : me : bob ".
  split; [vm_compute; left|vm_compute; reflexivity].
Defined.

(** [get_text_first_working] at a file that only the second of three
    encodings reads. *)
Lemma get_text_first_working_witness :
  get_text Sample.read_text "chat.html" ["utf-8"; "latin-1"; "cp1252"]
  = ([[PyStr "encoding "; PyStr "utf-8"; PyStr " failed for ";
       PyStr "chat.html"; PyStr ": "; PyStr "invalid start byte"]],
     inr "<html>hi</html>").
Proof.
  apply (get_text_first_working Sample.read_text "chat.html"
           [("utf-8", "invalid start byte")] "latin-1" ["cp1252"]
           ("<html>hi</html>" +:+ String "010" (String "000" ""))).
  - intros e m H. apply list_elem_of_singleton in H.
    injection H as -> ->. reflexivity.
  - reflexivity.
Defined.

(** [get_text_fails_iff] at two encodings that both fail. *)
Lemma get_text_fails_iff_witness :
  (get_text Sample.read_text "chat.html" ["utf-8"; "ascii"]).2
  = inl ValueError.
Proof.
  destruct (get_text_fails_iff Sample.read_text "chat.html"
              ["utf-8"; "ascii"]) as [[_ H] _].
  apply H. intros enc Hin. exists "invalid start byte".
  repeat (apply elem_of_cons in Hin as [->|Hin]; [reflexivity|]).
  by apply elem_of_nil in Hin.
Defined.

(** [LogDir_pidgin] at the directory of [bobsmith]. *)
Lemma LogDir_pidgin_witness :
  LogDir_init Ref.lower "logs/aim/myacct/bobsmith" = inr Sample.bobsmith.
Proof.
  apply (LogDir_pidgin Ref.lower "logs" "aim" "myacct" "bobsmith");
    reflexivity.
Defined.

(** [LogDir_adium] at an Adium directory of the same conversation. *)
Lemma LogDir_adium_witness :
  LogDir_init Ref.lower
    "Logs/AIM.my.acct/bobsmith/bobsmith (2014-09-04T15.45.41-0400).chatlog"
  = inr (mkLogDir
           "Logs/AIM.my.acct/bobsmith/bobsmith (2014-09-04T15.45.41-0400).chatlog"
           "adium" "aim" "my.acct" "bobsmith").
Proof.
  apply (LogDir_adium Ref.lower "Logs" "AIM" "my.acct" "bobsmith"
           "bobsmith (2014-09-04T15.45.41-0400).chatlog");
    reflexivity.
Defined.

(** [LogDir_too_shallow] at a directory of two components. *)
Lemma LogDir_too_shallow_witness :
  LogDir_init Ref.lower "aim/bobsmith" = inl ValueError.
Proof.
  destruct (LogDir_too_shallow Ref.lower "aim" "bobsmith" eq_refl eq_refl)
    as [_ H].
  exact H.
Defined.

(** [LogDir_adium_without_dot] at an Adium directory under [AIM]. *)
Lemma LogDir_adium_without_dot_witness :
  LogDir_init Ref.lower
    "Logs/AIM/bobsmith/bobsmith (2014-09-04T15.45.41-0400).chatlog"
  = inl ValueError.
Proof.
  apply (LogDir_adium_without_dot Ref.lower "Logs" "AIM" "bobsmith"
           "bobsmith (2014-09-04T15.45.41-0400).chatlog");
    reflexivity.
Defined.
